(** * ManyChat client: the request execution pipeline

    A shallow embedding of [config.py], [client.py], [api/_exceptions.py],
    [api/_base.py] and the endpoint functions under [api/facebook/], with
    the properties of the written specification stated over it.

    Conventions of the embedding.
    - Python [int] is [Z].  A Python [str] is the [string] of its UTF-8
      encoding.
    - The quotient [rate_limit / 60] that sizes the semaphore is the
      binary64 float of the interpreter ([SpecFloat], precision 53), with
      its rounding and its overflow.  Clock readings and sleep durations
      are exact rationals [Q]; the counter of the semaphore is kept as the
      exact value of that float, and the steps of one by which it moves
      are exact.
    - A coroutine is a state-passing function over the client object and
      the world (clock and event log); [await] is sequencing.  The
      coroutines of a call run one after the other; admission steps that
      overlap are run by an explicit schedule ([play]).
    - What the environment decides (time that passes, what the server
      answers, the sample drawn by [random.uniform]) is read from an
      explicit script, one entry per attempt.
    - Log calls ([logger.debug], [logger.error]) and exception message
      texts are left out; exceptions keep their class and data fields. *)

From Stdlib Require Import String Ascii List Bool ZArith NArith QArith Qround Qabs Lia Lqa.
From Stdlib Require Import Floats.SpecFloat.
From Stdlib Require Decimal DecimalString.
Import ListNotations.

Set Warnings "-register-all".
Set Warnings "-automation".


Local Open Scope string_scope.
Local Open Scope Z_scope.

(* ===================================================================== *)
(** ** Values *)
(* ===================================================================== *)

(** A decoded JSON document, as [response.json()] returns it and as the
    [json=] argument of a request takes it.  A Python [dict] keeps its
    insertion order; keys are kept in an association list. *)
Inductive json : Type :=
| JNull
| JBool (b : bool)
| JInt (z : Z)
| JStr (s : string)
| JList (items : list json)
| JObj (members : list (string * json)).

(** The value of a field of a pydantic model instance: [None], a scalar,
    a list, a plain [dict] with [str] keys (as a field declared [Any] or
    [Dict[str, Any]] may hold), or a nested model (its fields in
    declaration order). *)
Inductive pyval : Type :=
| PNone
| PBool (b : bool)
| PInt (z : Z)
| PStr (s : string)
| PList (items : list pyval)
| PDict (members : list (string * pyval))
| PModel (fields : list (string * pyval)).

Definition is_none (v : pyval) : bool :=
  match v with PNone => true | _ => false end.

(** [BaseModel.dict(exclude_none=True)] on a value: a nested model becomes
    a dict without its [None] fields; the items of a list and the values
    of a plain dict are converted in place (a [None] item of a list and a
    [None] value of a plain dict are kept). *)
Fixpoint dump (v : pyval) : json :=
  match v with
  | PNone => JNull
  | PBool b => JBool b
  | PInt z => JInt z
  | PStr s => JStr s
  | PList items => JList (map dump items)
  | PDict members =>
      JObj ((fix values (ms : list (string * pyval)) : list (string * json) :=
               match ms with
               | [] => []
               | (k, v) :: rest => (k, dump v) :: values rest
               end) members)
  | PModel fields =>
      JObj ((fix members (fs : list (string * pyval)) : list (string * json) :=
               match fs with
               | [] => []
               | (k, v) :: rest =>
                   if is_none v then members rest
                   else (k, dump v) :: members rest
               end) fields)
  end.

(** [request_data.dict(exclude_none=True)] (client.py line 132) and
    [BaseRequest.to_api_format] (_base.py lines 29-31) on the fields of a
    request model. *)
Fixpoint dict_exclude_none (fs : list (string * pyval)) : list (string * json) :=
  match fs with
  | [] => []
  | (k, v) :: rest =>
      if is_none v then dict_exclude_none rest
      else (k, dump v) :: dict_exclude_none rest
  end.

Definition to_api_format (fs : list (string * pyval)) : list (string * json) :=
  dict_exclude_none fs.

(* ===================================================================== *)
(** ** Exceptions (api/_exceptions.py and the library exceptions met) *)
(* ===================================================================== *)

(** The classes of api/_exceptions.py, which client.py imports, and the
    exceptions of aiohttp, asyncio, pydantic and the interpreter that the
    code meets.  Each keeps the data fields its [__init__] stores.  A
    constructor names the class of the exception that is raised; the
    classes are not unrelated in Python, see [is_value_error]. *)

Inductive exn : Type :=
| ManyChatAPIError (status_code : option Z) (response : option json)
| ManyChatAuthError
| ManyChatRateLimitError (retry_after : option Z)
| ManyChatValidationError
| ManyChatNotFoundError
| ManyChatConflictError
| ManyChatServerError
| ManyChatTimeoutError
| ManyChatConnectionError
| ManyChatRetryError
| ClientError            (* aiohttp.ClientError and its subclasses *)
| TimeoutError           (* asyncio.TimeoutError *)
| ValueError             (* builtin, also json.JSONDecodeError *)
| AttributeError (name : string)
| TypeError
| ValidationError        (* pydantic.ValidationError *)
| OverflowError.         (* builtin *)

(** [isinstance(e, ValueError)]: pydantic's [ValidationError] is a
    subclass of [ValueError], as is [json.JSONDecodeError].  No [except]
    clause of the code names [ValueError]. *)
Definition is_value_error (e : exn) : bool :=
  match e with
  | ValueError | ValidationError => true
  | _ => false
  end.

(** The [status_code] attribute each exception class sets in [__init__]. *)
Definition status_code_of (e : exn) : option Z :=
  match e with
  | ManyChatAPIError sc _ => sc
  | ManyChatAuthError => Some 401
  | ManyChatRateLimitError _ => Some 429
  | ManyChatValidationError => Some 400
  | ManyChatNotFoundError => Some 404
  | ManyChatConflictError => Some 409
  | ManyChatServerError => Some 500
  | _ => None
  end.

(** The result of running a coroutine: a value, a raised exception, or a
    task that stays suspended for ever (waiting for a semaphore permit
    that nobody releases). *)
Inductive outcome (A : Type) : Type :=
| Ok (a : A)
| Raise (e : exn)
| Hang.
Arguments Ok {A} a.
Arguments Raise {A} e.
Arguments Hang {A}.

Definition obind {A B} (o : outcome A) (k : A -> outcome B) : outcome B :=
  match o with
  | Ok a => k a
  | Raise e => Raise e
  | Hang => Hang
  end.

(* ===================================================================== *)
(** ** Configuration (config.py) *)
(* ===================================================================== *)

Record ManyChatConfig : Type := {
  api_key : string;
  api_version : string;
  base_url : string;
  timeout : Z;
  max_retries : Z;
  retry_delay : Q;
  rate_limit : Z;
  rate_window : Z;
  log_level : string;
  debug : bool;
  webhook_secret : option string;
  cache_ttl : Z
}.

(** What the settings sources (keyword arguments, [MANYCHAT_*] environment
    variables, the [.env] file) hold for one field, as pydantic's
    validation of the declared field type sees it: no source has the
    field; a source has it and the type takes the value, as [v] (after
    coercion, for instance of the text of an environment variable to an
    [int]); or a source has it and the type refuses the value (a timeout
    of [soon]). *)
Inductive supplied (A : Type) : Type :=
| Absent
| Accepted (v : A)
| Refused.
Arguments Absent {A}.
Arguments Accepted {A} v.
Arguments Refused {A}.

Record ConfigInput : Type := {
  in_api_key : supplied string;
  in_api_version : supplied string;
  in_base_url : supplied string;
  in_timeout : supplied Z;
  in_max_retries : supplied Z;
  in_retry_delay : supplied Q;
  in_rate_limit : supplied Z;
  in_rate_window : supplied Z;
  in_log_level : supplied string;
  in_debug : supplied bool;
  in_webhook_secret : supplied string;
  in_cache_ttl : supplied Z
}.

Definition no_input : ConfigInput :=
  {| in_api_key := Absent; in_api_version := Absent; in_base_url := Absent;
     in_timeout := Absent; in_max_retries := Absent; in_retry_delay := Absent;
     in_rate_limit := Absent; in_rate_window := Absent; in_log_level := Absent;
     in_debug := Absent; in_webhook_secret := Absent; in_cache_ttl := Absent |}.

Definition refused {A} (s : supplied A) : bool :=
  match s with Refused => true | _ => false end.

(** Some field has a value that its type refuses. *)
Definition any_refused (i : ConfigInput) : bool :=
  refused (in_api_key i) || refused (in_api_version i) || refused (in_base_url i)
  || refused (in_timeout i) || refused (in_max_retries i)
  || refused (in_retry_delay i) || refused (in_rate_limit i)
  || refused (in_rate_window i) || refused (in_log_level i)
  || refused (in_debug i) || refused (in_webhook_secret i)
  || refused (in_cache_ttl i).

Definition field_default {A} (s : supplied A) (default : A) : A :=
  match s with Accepted v => v | _ => default end.

Definition field_optional {A} (s : supplied A) : option A :=
  match s with Accepted v => Some v | _ => None end.

(** [ManyChatConfig(...)]: pydantic validates every field against its
    declared type and raises [ValidationError] when a value is refused
    or a required field is missing.  [api_key] is declared [Field(...)]
    (required), every other field has a default; the class declares no
    validator of its own. *)
Definition ManyChatConfig_new (i : ConfigInput) : outcome ManyChatConfig :=
  if any_refused i then Raise ValidationError
  else
    match in_api_key i with
    | Accepted key =>
        Ok {| api_key := key;
              api_version := field_default (in_api_version i) "v1";
              base_url := field_default (in_base_url i) "https://api.manychat.com/fb";
              timeout := field_default (in_timeout i) 30;
              max_retries := field_default (in_max_retries i) 3;
              retry_delay := field_default (in_retry_delay i) 1%Q;
              rate_limit := field_default (in_rate_limit i) 100;
              rate_window := field_default (in_rate_window i) 60;
              log_level := field_default (in_log_level i) "INFO";
              debug := field_default (in_debug i) false;
              webhook_secret := field_optional (in_webhook_secret i);
              cache_ttl := field_default (in_cache_ttl i) 300 |}
    | _ => Raise ValidationError
    end.

(** [model_config = SettingsConfigDict(env_prefix=..., env_file=...,
    extra=...)]: the keys the class sets. *)
Definition model_config : list (string * string) :=
  [("env_prefix", "MANYCHAT_"); ("env_file", ".env"); ("extra", "ignore")].

Fixpoint assoc {A} (k : string) (l : list (string * A)) : option A :=
  match l with
  | [] => None
  | (k', v) :: rest => if String.eqb k k' then Some v else assoc k rest
  end.

(** pydantic refuses attribute assignment on a model only when its
    [model_config] sets [frozen]; the key is absent here. *)
Definition frozen : bool :=
  match assoc "frozen" model_config with
  | Some _ => true
  | None => false
  end.

(** [cfg.timeout = v], [cfg.api_key = v], ... after construction. *)
Definition set_timeout (cfg : ManyChatConfig) (v : Z) : outcome ManyChatConfig :=
  if frozen then Raise ValidationError
  else Ok {| api_key := api_key cfg; api_version := api_version cfg;
             base_url := base_url cfg; timeout := v;
             max_retries := max_retries cfg; retry_delay := retry_delay cfg;
             rate_limit := rate_limit cfg; rate_window := rate_window cfg;
             log_level := log_level cfg; debug := debug cfg;
             webhook_secret := webhook_secret cfg; cache_ttl := cache_ttl cfg |}.

(** The [api_url] property: [f"{self.base_url}/{self.api_version}"]. *)
Definition api_url (cfg : ManyChatConfig) : string :=
  base_url cfg ++ "/" ++ api_version cfg.

(* ===================================================================== *)
(** ** Text helpers: header lookup and Python's [int] on a string *)
(* ===================================================================== *)

Definition lower_ascii (c : ascii) : ascii :=
  let n := nat_of_ascii c in
  if (65 <=? n)%nat && (n <=? 90)%nat then ascii_of_nat (n + 32) else c.

(** The name of a header with its ASCII letters in lower case: header
    names are compared without regard to the case of these letters. *)
Fixpoint lower (s : string) : string :=
  match s with
  | EmptyString => EmptyString
  | String c rest => String (lower_ascii c) (lower rest)
  end.

(** [headers.get(name)] on the response headers, whose keys compare
    without regard to case; the first entry wins. *)
Fixpoint headers_get (name : string) (hs : list (string * string)) : option string :=
  match hs with
  | [] => None
  | (k, v) :: rest =>
      if String.eqb (lower k) (lower name) then Some v else headers_get name rest
  end.

(** The code points of a [str], read from its UTF-8 encoding; [None] for
    bytes that are no UTF-8 (a byte that aiohttp could not decode is a
    lone surrogate in the [str], which [int] refuses like any other
    character that is no digit). *)
Definition continuation (b : N) : option N :=
  if (128 <=? b)%N && (b <=? 191)%N then Some (b - 128)%N else None.

Fixpoint utf8_decode (bs : list N) : option (list N) :=
  match bs with
  | [] => Some []
  | b0 :: r0 =>
      if (b0 <? 128)%N then option_map (cons b0) (utf8_decode r0)
      else if (b0 <? 224)%N then
        match r0 with
        | b1 :: r1 =>
            match continuation b1 with
            | Some c1 =>
                let cp := ((b0 - 192) * 64 + c1)%N in
                if (192 <=? b0)%N && (128 <=? cp)%N
                then option_map (cons cp) (utf8_decode r1)
                else None
            | None => None
            end
        | [] => None
        end
      else if (b0 <? 240)%N then
        match r0 with
        | b1 :: b2 :: r2 =>
            match continuation b1, continuation b2 with
            | Some c1, Some c2 =>
                let cp := (((b0 - 224) * 64 + c1) * 64 + c2)%N in
                if (2048 <=? cp)%N && negb ((55296 <=? cp)%N && (cp <=? 57343)%N)
                then option_map (cons cp) (utf8_decode r2)
                else None
            | _, _ => None
            end
        | _ => None
        end
      else if (b0 <? 248)%N then
        match r0 with
        | b1 :: b2 :: b3 :: r3 =>
            match continuation b1, continuation b2, continuation b3 with
            | Some c1, Some c2, Some c3 =>
                let cp := ((((b0 - 240) * 64 + c1) * 64 + c2) * 64 + c3)%N in
                if (65536 <=? cp)%N && (cp <=? 1114111)%N
                then option_map (cons cp) (utf8_decode r3)
                else None
            | _, _, _ => None
            end
        | _ => None
        end
      else None
  end.

Definition code_points (s : string) : option (list N) :=
  utf8_decode (map N_of_ascii (list_ascii_of_string s)).

(** The characters beyond ASCII that [str.isspace] holds for, and the
    zero of every run of ten decimal digits beyond ASCII (Unicode 14.0,
    the tables of Python 3.11). *)
Definition unicode_spaces : list N :=
  [133; 160; 5760; 8192; 8193; 8194; 8195; 8196; 8197; 8198; 8199; 8200;
   8201; 8202; 8232; 8233; 8239; 8287; 12288]%N.

Definition decimal_zeros : list N :=
  [1632; 1776; 1984; 2406; 2534; 2662; 2790; 2918; 3046; 3174; 3302; 3430;
   3558; 3664; 3792; 3872; 4160; 4240; 6112; 6160; 6470; 6608; 6784; 6800;
   6992; 7088; 7232; 7248; 42528; 43216; 43264; 43472; 43504; 43600; 44016;
   65296; 66720; 68912; 69734; 69872; 69942; 70096; 70384; 70736; 70864;
   71248; 71360; 71472; 71904; 72016; 72784; 73040; 73120; 92768; 92864;
   93008; 120782; 120792; 120802; 120812; 120822; 123200; 123632; 125264;
   130032]%N.

(** What [int] strips from both ends of its argument: the ASCII white
    space (the control characters 28 to 31 are none for [int]), and
    beyond ASCII what [str.isspace] holds for. *)
Definition is_space (c : N) : bool :=
  if (c <? 127)%N then ((9 <=? c)%N && (c <=? 13)%N) || (c =? 32)%N
  else existsb (N.eqb c) unicode_spaces.

Definition digit_value (c : N) : option Z :=
  if (c <? 127)%N
  then if (48 <=? c)%N && (c <=? 57)%N then Some (Z.of_N (c - 48)) else None
  else option_map (fun zero => Z.of_N (c - zero))
         (find (fun zero => (zero <=? c)%N && (c <? zero + 10)%N) decimal_zeros).

Definition is_digit (c : N) : bool :=
  match digit_value c with Some _ => true | None => false end.

Fixpoint lstrip (cs : list N) : list N :=
  match cs with
  | c :: rest => if is_space c then lstrip rest else cs
  | [] => []
  end.

Definition strip (cs : list N) : list N :=
  rev (lstrip (rev (lstrip cs))).

(** Decimal digits, where one underscore may stand between two digits.
    [after_digit] tells whether the previous character was a digit. *)
Fixpoint digits (cs : list N) (acc : Z) (after_digit : bool) : option Z :=
  match cs with
  | [] => if after_digit then Some acc else None
  | c :: rest =>
      match digit_value c with
      | Some d => digits rest (10 * acc + d) true
      | None =>
          if (c =? 95)%N && after_digit then digits rest acc false
          else None
      end
  end.

(** [sys.get_int_max_str_digits()], as the interpreter starts. *)
Definition max_str_digits : Z := 4300.

(** The digits of the text, read unless there are more of them than the
    interpreter converts. *)
Definition capped_digits (cs : list N) : option Z :=
  if max_str_digits <? Z.of_nat (length (filter is_digit cs)) then None
  else digits cs 0 false.

(** [int(s)] for a [str] in base ten: surrounding white space is dropped,
    one sign is allowed, and more than 4300 digits are refused; [None]
    stands for [ValueError]. *)
Definition py_int (s : string) : option Z :=
  match code_points s with
  | None => None
  | Some cs =>
      match strip cs with
      | [] => None
      | c :: rest =>
          if (c =? 45)%N then option_map Z.opp (capped_digits rest)
          else if (c =? 43)%N then capped_digits rest
          else capped_digits (c :: rest)
      end
  end.

(* ===================================================================== *)
(** ** The HTTP side: sessions, exchanges, what the server answers *)
(* ===================================================================== *)

(** An [aiohttp.ClientSession]: the default headers every request of the
    session carries, the total timeout, whether a response with status
    400 or above is turned into [ClientResponseError] by the session
    itself ([raise_for_status]), and whether it was closed. *)
Record ClientSession : Type := {
  default_headers : list (string * string);
  total_timeout : Z;
  raise_for_status : bool;
  closed : bool
}.

(** [urljoin(base, ref)], kept unevaluated. *)
Inductive Url : Type := urljoin (base : string) (ref : string).

(** One request handed to the session. *)
Record Exchange : Type := {
  x_method : string;
  x_url : Url;
  x_headers : list (string * string);
  x_json : option (list (string * json))
}.

(** What [response.json()] meets. *)
Inductive Body : Type :=
| JsonBody (data : json)
| WrongContentType       (* aiohttp.ContentTypeError, a ClientError *)
| Malformed              (* json.JSONDecodeError, a ValueError *)
| ReadTimeout.           (* asyncio.TimeoutError while reading *)

Record Response : Type := {
  status : Z;
  headers : list (string * string);
  body : Body
}.

(** What the network does with one request. *)
Inductive NetOutcome : Type :=
| ConnectionFailed       (* connection refused, DNS failure, ... *)
| TimedOut               (* the total timeout expired *)
| Responded (resp : Response).

(** What the environment decides during one attempt: the time that has
    passed when the rate limiter reads the clock ([gap]), the time by
    which the second clock reading is late ([lag]), the answer of the
    network, and the sample [random.random()] gives the jitter. *)
Record Env : Type := {
  gap : Q;
  lag : Q;
  reply : NetOutcome;
  jitter : Q
}.

Inductive event : Type :=
| Pacing (seconds : Q)       (* asyncio.sleep in _enforce_rate_limit *)
| Backoff (seconds : Q)      (* asyncio.sleep in the retry decorator *)
| Sent (x : Exchange).       (* self._session.request(...) *)

(** The world: the event loop's clock and what happened, newest first. *)
Record World : Type := {
  clock : Q;
  events : list event
}.

Record ManyChatClient : Type := {
  config : ManyChatConfig;
  _session : option ClientSession;
  _rate_limit_semaphore : Q;      (* the counter of asyncio.Semaphore *)
  _last_request_time : Q
}.

Definition Qlt_bool (x y : Q) : bool := negb (Qle_bool y x).

(** Python's [float] is the binary64 format: 53 bits of precision,
    exponents below 1024. *)
Definition float_prec : Z := 53.
Definition float_emax : Z := 1024.

(** An [int] as an operand of true division: its exact value, whatever
    its size. *)
Definition float_of_int (n : Z) : spec_float :=
  match n with
  | Z0 => S754_zero false
  | Zpos p => S754_finite false p 0
  | Zneg p => S754_finite true p 0
  end.

(** The number a float stands for (zero for what is no finite number). *)
Definition float_value (x : spec_float) : Q :=
  match x with
  | S754_finite s m e =>
      let n := if s then Zneg m else Zpos m in
      if 0 <=? e then inject_Z (n * 2 ^ e) else n # Z.to_pos (2 ^ (- e))
  | _ => 0
  end.

(** [self.config.rate_limit / 60] (client.py line 51): true division of
    two [int]s gives the float nearest to the quotient, and raises
    [OverflowError] when the quotient is too large for a float. *)
Definition per_second (rate_limit : Z) : outcome spec_float :=
  match SFdiv float_prec float_emax (float_of_int rate_limit) (float_of_int 60) with
  | S754_infinity _ | S754_nan => Raise OverflowError
  | q => Ok q
  end.

(** [asyncio.Semaphore(value)]: [ValueError] for [value < 0]; otherwise
    the counter starts at the value as it is. *)
Definition Semaphore_new (value : spec_float) : outcome Q :=
  if SFltb value (S754_zero false) then Raise ValueError
  else Ok (float_value value).

(** The counter the constructor gives the semaphore for a rate limit. *)
Definition semaphore_for (rate_limit : Z) : outcome Q :=
  obind (per_second rate_limit) Semaphore_new.

(** [ManyChatClient.__init__] (client.py lines 42-53).  [config or
    ManyChatConfig()]: a missing config is loaded from the settings
    sources. *)
Definition ManyChatClient_init (cfg : option ManyChatConfig) (sources : ConfigInput)
  : outcome ManyChatClient :=
  obind (match cfg with Some c => Ok c | None => ManyChatConfig_new sources end)
    (fun c =>
       obind (semaphore_for (rate_limit c))
         (fun value =>
            Ok {| config := c;
                  _session := None;
                  _rate_limit_semaphore := value;
                  _last_request_time := 0%Q |})).

(* ===================================================================== *)
(** ** Coroutines as state-passing functions *)
(* ===================================================================== *)

Definition State : Type := (ManyChatClient * World)%type.
Definition M (A : Type) : Type := State -> outcome A * State.

Definition ret {A} (a : A) : M A := fun st => (Ok a, st).

Definition bind {A B} (m : M A) (k : A -> M B) : M B :=
  fun st =>
    match m st with
    | (Ok a, st') => k a st'
    | (Raise e, st') => (Raise e, st')
    | (Hang, st') => (Hang, st')
    end.

Definition lift {A} (o : outcome A) : M A := fun st => (o, st).

Declare Scope coro_scope.
Delimit Scope coro_scope with coro.
Notation "x <- m ;; k" := (bind m (fun x => k))
  (at level 100, m at next level, right associativity) : coro_scope.
Notation "m ;; k" := (bind m (fun _ => k))
  (at level 100, right associativity) : coro_scope.
Local Open Scope coro_scope.

Definition get_client : M ManyChatClient := fun st => (Ok (fst st), st).
Definition loop_time : M Q := fun st => (Ok (clock (snd st)), st).

Definition set_session (s : ClientSession) : M unit :=
  fun '(c, w) =>
    (Ok tt, ({| config := config c; _session := Some s;
                _rate_limit_semaphore := _rate_limit_semaphore c;
                _last_request_time := _last_request_time c |}, w)).

Definition set_semaphore (v : Q) : M unit :=
  fun '(c, w) =>
    (Ok tt, ({| config := config c; _session := _session c;
                _rate_limit_semaphore := v;
                _last_request_time := _last_request_time c |}, w)).

Definition set_last_request_time (t : Q) : M unit :=
  fun '(c, w) =>
    (Ok tt, ({| config := config c; _session := _session c;
                _rate_limit_semaphore := _rate_limit_semaphore c;
                _last_request_time := t |}, w)).

(** Time passes. *)
Definition elapse (d : Q) : M unit :=
  fun '(c, w) => (Ok tt, (c, {| clock := (clock w + d)%Q; events := events w |})).

Definition emit (ev : event) : M unit :=
  fun '(c, w) => (Ok tt, (c, {| clock := clock w; events := ev :: events w |})).

(** [Semaphore.locked()] with no waiter (the counter is zero, as in
    CPython 3.11 and later), and the two ends of [async with semaphore]:
    [acquire] takes one from the counter unless the semaphore is locked,
    in which case the task waits for a release that, with the coroutines
    run one after the other, never comes.  The counter moves by exactly
    one: the rounding of the float counter on the way down and back is
    not followed here; [float_counter] is the float itself. *)
Definition locked (c : ManyChatClient) : bool :=
  Qeq_bool (_rate_limit_semaphore c) 0.

Definition acquire : M unit :=
  fun '(c, w) =>
    if locked c then (Hang, (c, w))
    else set_semaphore (_rate_limit_semaphore c - 1)%Q (c, w).

Definition release : M unit :=
  fun '(c, w) => set_semaphore (_rate_limit_semaphore c + 1)%Q (c, w).

(** [ManyChatClient._enforce_rate_limit] (client.py lines 83-90). *)
Definition _enforce_rate_limit (e : Env) : M unit :=
  acquire ;;
  elapse (gap e) ;;
  now <- loop_time ;;
  c <- get_client ;;
  let elapsed := (now - _last_request_time c)%Q in
  (if Qlt_bool elapsed 1
   then emit (Pacing (1 - elapsed)%Q) ;; elapse (1 - elapsed)%Q
   else ret tt) ;;
  elapse (lag e) ;;
  now' <- loop_time ;;
  set_last_request_time now' ;;
  release.

(** The elapsed time a step sees, and the clock reading it records. *)
Definition elapsed_at (e : Env) (c : ManyChatClient) (w : World) : Q :=
  (clock w + gap e - _last_request_time c)%Q.

Definition recorded_at (e : Env) (c : ManyChatClient) (w : World) : Q :=
  ((if Qlt_bool (elapsed_at e c w) 1
    then clock w + gap e + (1 - elapsed_at e c w)
    else clock w + gap e) + lag e)%Q.

(* ===================================================================== *)
(** ** The request executor (client.py) *)
(* ===================================================================== *)

(** A response model: what [response_model.parse_obj] makes of a decoded
    document; [None] stands for [pydantic.ValidationError]. *)
Record ResponseModel (T : Type) : Type := {
  parse_obj : json -> option T
}.
Arguments parse_obj {T} _ _.

(** [BaseResponse] (_base.py lines 34-46) declares no field and ignores
    extra keys: any JSON object validates, anything else does not. *)
Inductive BaseResponseValue : Type := BaseResponseInstance.

Definition BaseResponse : ResponseModel BaseResponseValue :=
  {| parse_obj := fun data =>
       match data with
       | JObj _ => Some BaseResponseInstance
       | _ => None
       end |}.

(** The exceptions the decorator retries on (client.py lines 94-98). *)
Definition retryable (e : exn) : bool :=
  match e with
  | ClientError | TimeoutError | ManyChatRateLimitError _ => true
  | _ => false
  end.

(** [max_tries=3] (client.py line 99). *)
Definition max_tries : nat := 3.

(** [backoff.expo] with its defaults (base 2, factor 1): the value it
    yields after [n] earlier ones. *)
Definition expo (n : nat) : Q := inject_Z (2 ^ Z.of_nat n).

(** [backoff.full_jitter(value)] is [random.uniform(0, value)], that is
    [value * random.random()]; [u] is the sample. *)
Definition full_jitter (u : Q) (value : Q) : Q := (u * value)%Q.

(** [self._session.request(...)] entered with [async with]: the network
    answers, and a session built with [raise_for_status=True] raises
    [ClientResponseError] itself for a status of 400 or above. *)
Definition session_request (s : ClientSession) (r : NetOutcome) : outcome Response :=
  match r with
  | ConnectionFailed => Raise ClientError
  | TimedOut => Raise TimeoutError
  | Responded resp =>
      if raise_for_status s && (400 <=? status resp) then Raise ClientError
      else Ok resp
  end.

(** [await response.json()] (client.py line 150). *)
Definition response_json (resp : Response) : outcome json :=
  match body resp with
  | JsonBody data => Ok data
  | WrongContentType => Raise ClientError
  | Malformed => Raise ValueError
  | ReadTimeout => Raise TimeoutError
  end.

(** [int(response.headers.get("Retry-After", 60))] (client.py line 164). *)
Definition retry_after_of (resp : Response) : outcome Z :=
  match headers_get "Retry-After" (headers resp) with
  | None => Ok 60
  | Some text =>
      match py_int text with
      | Some n => Ok n
      | None => Raise ValueError
      end
  end.

(** The status checks (client.py lines 160-173). *)
Definition check_status (resp : Response) (data : json) : outcome unit :=
  if 400 <=? status resp then
    if status resp =? 401 then Raise ManyChatAuthError
    else if status resp =? 429 then
      obind (retry_after_of resp)
        (fun retry_after => Raise (ManyChatRateLimitError (Some retry_after)))
    else Raise (ManyChatAPIError (Some (status resp)) (Some data))
  else Ok tt.

(** Validation of the document (client.py lines 176-181). *)
Definition parse_response {T} (response_model : ResponseModel T) (data : json)
  : outcome T :=
  match parse_obj response_model data with
  | Some v => Ok v
  | None => Raise ManyChatValidationError
  end.

(** The two [except] clauses of the [try] (client.py lines 183-188). *)
Definition except_clauses {T} (o : outcome T) : outcome T :=
  match o with
  | Raise ClientError => Raise (ManyChatAPIError None None)
  | Raise TimeoutError => Raise (ManyChatAPIError None None)
  | _ => o
  end.

(** What the [try] statement of [_request] yields on session [s] when the
    network answers [r]. *)
Definition try_block {T} (s : ClientSession) (response_model : ResponseModel T)
    (r : NetOutcome) : outcome T :=
  except_clauses
    (obind (session_request s r) (fun resp =>
     obind (response_json resp) (fun data =>
     obind (check_status resp data) (fun _ =>
     parse_response response_model data)))).

Section Executor.

(** The package's [__version__], imported by client.py from the package
    root. *)
Variable version : string.

(** The session [start] builds (client.py lines 67-76). *)
Definition new_session (cfg : ManyChatConfig) : ClientSession :=
  {| default_headers :=
       [("User-Agent", "ManyChat-Python-SDK/" ++ version);
        ("Accept", "application/json");
        ("Content-Type", "application/json");
        ("Authorization", "Bearer " ++ api_key cfg)];
     total_timeout := timeout cfg;
     raise_for_status := true;
     closed := false |}.

(** [self._session is None or self._session.closed]. *)
Definition session_unusable (c : ManyChatClient) : bool :=
  match _session c with
  | None => true
  | Some s => closed s
  end.

(** [ManyChatClient.start] (client.py lines 64-76). *)
Definition start : M unit :=
  c <- get_client ;;
  if session_unusable c then set_session (new_session (config c))
  else ret tt.

(** [ManyChatClient.close] (client.py lines 78-81). *)
Definition close : M unit :=
  c <- get_client ;;
  match _session c with
  | Some s =>
      if negb (closed s)
      then set_session {| default_headers := default_headers s;
                          total_timeout := total_timeout s;
                          raise_for_status := raise_for_status s;
                          closed := true |}
      else ret tt
  | None => ret tt
  end.

(** The body of [_request] (client.py lines 126-188): one attempt. *)
Definition _request_attempt {T} (method endpoint : string)
    (request_data : option (list (string * pyval)))
    (response_model : ResponseModel T) (e : Env) : M T :=
  c <- get_client ;;
  (if session_unusable c then start else ret tt) ;;
  c <- get_client ;;
  let url := urljoin (api_url (config c)) endpoint in
  let json_data := option_map dict_exclude_none request_data in
  _enforce_rate_limit e ;;
  c <- get_client ;;
  match _session c with
  | None => lift (Raise (AttributeError "request"))
  | Some s =>
      emit (Sent {| x_method := method; x_url := url;
                    x_headers := default_headers s; x_json := json_data |}) ;;
      lift (try_block s response_model (reply e))
  end.

(** [backoff.on_exception(backoff.expo, ..., max_tries=3,
    jitter=backoff.full_jitter)] around [target].  [tries] attempts
    were made before this one and [left] more may follow it; the
    decorator gives up when its own counter reaches [max_tries], that
    is when [left] is zero. *)
Fixpoint retry_exception {T} (target : Env -> M T) (script : nat -> Env)
    (left tries : nat) : M T :=
  fun st =>
    match target (script tries) st with
    | (Raise ex, st') =>
        if retryable ex then
          match left with
          | O => (Raise ex, st')
          | S left' =>
              let seconds := full_jitter (jitter (script tries)) (expo tries) in
              bind (emit (Backoff seconds) ;; elapse seconds)
                   (fun _ => retry_exception target script left' (S tries)) st'
          end
        else (Raise ex, st')
    | r => r
    end.

(** [ManyChatClient._request] as callers see it (client.py lines
    92-188). *)
Definition _request {T} (method endpoint : string)
    (request_data : option (list (string * pyval)))
    (response_model : ResponseModel T) (script : nat -> Env) : M T :=
  retry_exception
    (_request_attempt method endpoint request_data response_model)
    script (max_tries - 1) 0.

(** The session an attempt uses: the one the client holds if it is open,
    a new one otherwise. *)
Definition live_session (c : ManyChatClient) : ClientSession :=
  match _session c with
  | Some s => if closed s then new_session (config c) else s
  | None => new_session (config c)
  end.

(** The exchange an attempt hands to the session. *)
Definition exchange_of (c : ManyChatClient) (method endpoint : string)
    (request_data : option (list (string * pyval))) : Exchange :=
  {| x_method := method;
     x_url := urljoin (api_url (config c)) endpoint;
     x_headers := default_headers (live_session c);
     x_json := option_map dict_exclude_none request_data |}.

(** The client after [start] where it was needed. *)
Definition started (c : ManyChatClient) : ManyChatClient :=
  if session_unusable c
  then {| config := config c; _session := Some (new_session (config c));
          _rate_limit_semaphore := _rate_limit_semaphore c;
          _last_request_time := _last_request_time c |}
  else c.

End Executor.

(** The exchanges of a world, newest first, and the sleeps of the retry
    decorator. *)
Fixpoint sent (evs : list event) : list Exchange :=
  match evs with
  | [] => []
  | Sent x :: rest => x :: sent rest
  | _ :: rest => sent rest
  end.

Fixpoint backoffs (evs : list event) : list Q :=
  match evs with
  | [] => []
  | Backoff d :: rest => d :: backoffs rest
  | _ :: rest => backoffs rest
  end.

Fixpoint pacings (evs : list event) : list Q :=
  match evs with
  | [] => []
  | Pacing d :: rest => d :: pacings rest
  | _ :: rest => pacings rest
  end.

(* ===================================================================== *)
(** ** Endpoint functions (api/facebook/) *)
(* ===================================================================== *)

(** What attribute lookup on a [ManyChatClient] instance finds: the
    attributes [__init__] sets on the instance and the methods the class
    defines.  The class defines no [__getattr__]. *)
Inductive attribute : Type :=
| InstanceAttribute (name : string)
| BoundMethod (name : string).

Definition instance_attributes : list string :=
  ["config"; "_session"; "_rate_limit_semaphore"; "_last_request_time"].

Definition class_methods : list string :=
  ["__init__"; "__aenter__"; "__aexit__"; "start"; "close";
   "_enforce_rate_limit"; "_request"].

Definition mem (name : string) (names : list string) : bool :=
  existsb (String.eqb name) names.

(** [client.<name>]. *)
Definition client_getattr (name : string) : outcome attribute :=
  if mem name instance_attributes then Ok (InstanceAttribute name)
  else if mem name class_methods then Ok (BoundMethod name)
  else Raise (AttributeError name).

Section Endpoints.

Variable version : string.

(** The response models of api/facebook/_responses.py and
    api/_responses.py the endpoint functions name; their validation is
    pydantic's. *)
Variables TagsListResponseValue PageInfoResponseValue SuccessResponseValue : Type.
Variable TagsListResponse : ResponseModel TagsListResponseValue.
Variable PageInfoResponse : ResponseModel PageInfoResponseValue.
Variable SuccessResponse : ResponseModel SuccessResponseValue.

(** Calling what the lookup found with the keyword arguments [method],
    [endpoint], [request_data], [response_model]: only [_request] takes
    them. *)
Definition call {T} (f : attribute) (method endpoint : string)
    (request_data : option (list (string * pyval)))
    (response_model : ResponseModel T) (script : nat -> Env) : M T :=
  match f with
  | BoundMethod name =>
      if String.eqb name "_request"
      then _request version method endpoint request_data response_model script
      else lift (Raise TypeError)
  | InstanceAttribute _ => lift (Raise TypeError)
  end.

(** [get_tags] (api/facebook/getTags.py lines 25-49). *)
Definition get_tags (script : nat -> Env) : M TagsListResponseValue :=
  f <- lift (client_getattr "request") ;;
  call f "GET" "fb/page/getTags" None TagsListResponse script.

(** [get_page_info] (api/facebook/getInfo.py lines 26-51). *)
Definition get_page_info (script : nat -> Env) : M PageInfoResponseValue :=
  f <- lift (client_getattr "request") ;;
  call f "GET" "fb/page/getInfo" None PageInfoResponse script.

(** [AddTagByNameRequest(subscriber_id=..., tag_name=...)]
    (api/facebook/subscriber/_requests.py lines 7-18). *)
Definition AddTagByNameRequest (subscriber_id tag_name : string)
  : list (string * pyval) :=
  [("subscriber_id", PStr subscriber_id); ("tag_name", PStr tag_name)].

(** [add_tag_by_name] (api/facebook/subscriber/addTagByName.py lines
    17-53). *)
Definition add_tag_by_name (subscriber_id tag_name : string)
    (script : nat -> Env) : M SuccessResponseValue :=
  let request := AddTagByNameRequest subscriber_id tag_name in
  f <- lift (client_getattr "request") ;;
  call f "POST" "fb/subscriber/addTagByName" (Some request) SuccessResponse script.

End Endpoints.

Arguments get_tags version {TagsListResponseValue} TagsListResponse script.
Arguments get_page_info version {PageInfoResponseValue} PageInfoResponse script.
Arguments add_tag_by_name version {SuccessResponseValue} SuccessResponse
  subscriber_id tag_name script.

(* ===================================================================== *)
(** ** What the properties are stated with *)
(* ===================================================================== *)

(** The written specification's size of the admission gate:
    [ceil(rate_limit_per_minute / 60)]. *)
Definition permits_ceiling (rate_limit_per_minute : Z) : Z :=
  Qceiling (inject_Z rate_limit_per_minute / 60).

(** The events a run added to the log. *)
Definition new_events (before after : list event) : list event :=
  firstn (length after - length before) after.

(** What one admission step showed: the elapsed time it computed, the
    pacing sleeps it made, the last-request time it recorded. *)
Record Admission : Type := {
  seen_elapsed : Q;
  slept : list Q;
  recorded : Q
}.

(** A sequence of admission steps on one client, each run to its end
    before the next starts (steps that overlap are run by [play]); the
    run stops at a step that does not complete. *)
Fixpoint admissions (steps : list Env) (st : State) : list Admission :=
  match steps with
  | [] => []
  | e :: rest =>
      match _enforce_rate_limit e st with
      | (Ok _, st') =>
          {| seen_elapsed := elapsed_at e (fst st) (snd st);
             slept := pacings (new_events (events (snd st)) (events (snd st')));
             recorded := _last_request_time (fst st') |}
          :: admissions rest st'
      | _ => []
      end
  end.

(** Each time is at least one second after the one before it. *)
Fixpoint spaced (prev : Q) (times : list Q) : Prop :=
  match times with
  | [] => True
  | t :: rest => (prev + 1 <= t)%Q /\ spaced t rest
  end.

Fixpoint nondecreasing (prev : Q) (times : list Q) : Prop :=
  match times with
  | [] => True
  | t :: rest => (prev <= t)%Q /\ nondecreasing t rest
  end.

(** The client holds no open session of foreign origin: the next call
    sends through a session that [start] builds or has built. *)
Definition session_by_start (version : string) (c : ManyChatClient) : Prop :=
  match _session c with
  | None => True
  | Some s => closed s = true \/ s = new_session version (config c)
  end.

(** Settings sources that supply the API key and nothing else. *)
Definition sources_with_key (key : string) : ConfigInput :=
  {| in_api_key := Accepted key; in_api_version := Absent; in_base_url := Absent;
     in_timeout := Absent; in_max_retries := Absent; in_retry_delay := Absent;
     in_rate_limit := Absent; in_rate_window := Absent; in_log_level := Absent;
     in_debug := Absent; in_webhook_secret := Absent; in_cache_ttl := Absent |}.

(** Settings sources with an empty key and numbers that are not
    positive. *)
Definition degenerate_sources : ConfigInput :=
  {| in_api_key := Accepted ""; in_api_version := Absent; in_base_url := Absent;
     in_timeout := Accepted 0; in_max_retries := Accepted (-1);
     in_retry_delay := Absent;
     in_rate_limit := Accepted 0; in_rate_window := Absent; in_log_level := Absent;
     in_debug := Absent; in_webhook_secret := Absent; in_cache_ttl := Absent |}.

(** Settings sources with the API key and a timeout that is no integer
    ([MANYCHAT_TIMEOUT=soon]). *)
Definition sources_with_bad_timeout (key : string) : ConfigInput :=
  {| in_api_key := Accepted key; in_api_version := Absent; in_base_url := Absent;
     in_timeout := Refused; in_max_retries := Absent; in_retry_delay := Absent;
     in_rate_limit := Absent; in_rate_window := Absent; in_log_level := Absent;
     in_debug := Absent; in_webhook_secret := Absent; in_cache_ttl := Absent |}.

(** Two inputs supply the same fields and have the same fields refused:
    they differ at most in the values that are accepted. *)
Definition same_presence {A} (s s' : supplied A) : bool :=
  match s, s' with
  | Absent, Absent | Accepted _, Accepted _ | Refused, Refused => true
  | _, _ => false
  end.

Definition same_supply (i i' : ConfigInput) : bool :=
  same_presence (in_api_key i) (in_api_key i')
  && same_presence (in_api_version i) (in_api_version i')
  && same_presence (in_base_url i) (in_base_url i')
  && same_presence (in_timeout i) (in_timeout i')
  && same_presence (in_max_retries i) (in_max_retries i')
  && same_presence (in_retry_delay i) (in_retry_delay i')
  && same_presence (in_rate_limit i) (in_rate_limit i')
  && same_presence (in_rate_window i) (in_rate_window i')
  && same_presence (in_log_level i) (in_log_level i')
  && same_presence (in_debug i) (in_debug i')
  && same_presence (in_webhook_secret i) (in_webhook_secret i')
  && same_presence (in_cache_ttl i) (in_cache_ttl i').

(** Construction gives a configuration. *)
Definition constructs (i : ConfigInput) : bool :=
  match ManyChatConfig_new i with
  | Ok _ => true
  | _ => false
  end.

(** An attempt during which five seconds have passed and the server
    answers with the given status, headers and JSON document. *)
Definition answering (st : Z) (hs : list (string * string)) (data : json) : Env :=
  {| gap := 5; lag := 0;
     reply := Responded {| status := st; headers := hs; body := JsonBody data |};
     jitter := 1 # 2 |}.

Definition at_noon : World := {| clock := 43200; events := [] |}.

(** Three steps in a row: the first reads the clock 0.2 seconds after
    noon with nothing recorded yet, the second comes 0.3 seconds later,
    the third 2 seconds after that. *)
Definition three_steps : list Env :=
  [ {| gap := 1 # 5; lag := 0; reply := TimedOut; jitter := 0 |};
    {| gap := 3 # 10; lag := 1 # 100; reply := TimedOut; jitter := 0 |};
    {| gap := 2; lag := 0; reply := TimedOut; jitter := 0 |} ].

(** A client as the test fixtures build it: an open session put in from
    outside, which does not raise for the status by itself; the counter
    is the one the constructor gives (zero for a limit that the
    constructor refuses). *)
Definition client_with_plain_session (cfg : ManyChatConfig) : ManyChatClient :=
  {| config := cfg;
     _session := Some {| default_headers := []; total_timeout := 30;
                         raise_for_status := false; closed := false |};
     _rate_limit_semaphore :=
       match semaphore_for (rate_limit cfg) with Ok value => value | _ => 0%Q end;
     _last_request_time := 0 |}.

Definition default_config_with_limit (limit : Z) : ManyChatConfig :=
  {| api_key := "key"; api_version := "v1";
     base_url := "https://api.manychat.com/fb";
     timeout := 30; max_retries := 3; retry_delay := 1;
     rate_limit := limit; rate_window := 60; log_level := "INFO";
     debug := false; webhook_secret := None; cache_ttl := 300 |}.

(** An attempt during which five seconds have passed and the server
    answers with the given status and a body of the given kind. *)
Definition answering_with (st : Z) (b : Body) : Env :=
  {| gap := 5; lag := 0;
     reply := Responded {| status := st; headers := []; body := b |};
     jitter := 1 # 2 |}.

(** The limits for which the value of the gate is computed one by one. *)
Definition limit_bound : Z := 60000.

(** [f] holds for [lo], [lo + 1], ..., [lo + count - 1]. *)
Definition all_range (f : Z -> bool) (lo : Z) (count : N) : bool :=
  snd (N.iter count (fun '(k, ok) => (k + 1, ok && f k)) (lo, true)).

(** What the amended claim says of the gate for one limit: a negative
    limit is refused; otherwise the counter is that of [semaphore_for],
    it is the quotient to within the rounding of a float, it is at most
    the ceiling and equal to it exactly for a multiple of 60, and it is
    positive for a positive limit. *)
Definition gate_as_amended (r : Z) : bool :=
  match semaphore_for r with
  | Ok v =>
      (0 <=? r)
      && Qle_bool (Qabs (v * 60 - inject_Z r) * inject_Z (2 ^ 53)) (inject_Z r)
      && Qle_bool v (inject_Z (permits_ceiling r))
      && Bool.eqb (Qeq_bool v (inject_Z (permits_ceiling r))) (r mod 60 =? 0)
      && (Qlt_bool 0 v || (r =? 0))
  | Raise ValueError => r <? 0
  | _ => false
  end.

(* ===================================================================== *)
(** ** The counter of the semaphore as a float *)
(* ===================================================================== *)

(** [self._value -= 1], [self._value += 1] and [self._value == 0] of
    [asyncio.Semaphore] on the float the constructor was given. *)
Definition float_one : spec_float := S754_finite false 4503599627370496 (-52).

Definition float_acquire (v : spec_float) : spec_float :=
  SFsub float_prec float_emax v float_one.

Definition float_release (v : spec_float) : spec_float :=
  SFadd float_prec float_emax v float_one.

Definition float_locked (v : spec_float) : bool :=
  SFeqb v (S754_zero false).

(** The counter when a step begins after [n] steps that ran one after
    the other, each to its end. *)
Fixpoint float_counter (v : spec_float) (n : nat) : spec_float :=
  match n with
  | O => v
  | S k => float_release (float_acquire (float_counter v k))
  end.

(** Two floats are the same datum. *)
Definition same_float (x y : spec_float) : bool :=
  match x, y with
  | S754_zero a, S754_zero b => Bool.eqb a b
  | S754_infinity a, S754_infinity b => Bool.eqb a b
  | S754_nan, S754_nan => true
  | S754_finite a m e, S754_finite b m' e' =>
      Bool.eqb a b && Pos.eqb m m' && Z.eqb e e'
  | _, _ => false
  end.

(** For one limit: the float counter is not zero when the first and the
    second step begin, the model's counter is not zero either, and from
    the second step on the float no longer changes. *)
Definition counter_settles (r : Z) : bool :=
  match per_second r with
  | Ok v =>
      negb (float_locked v)
      && negb (float_locked (float_counter v 1))
      && same_float (float_counter v 2) (float_counter v 1)
      && match Semaphore_new v with
         | Ok q => negb (Qeq_bool q 0)
         | _ => false
         end
  | _ => false
  end.

(* ===================================================================== *)
(** ** Admission steps that overlap *)
(* ===================================================================== *)

(** [_enforce_rate_limit] has one point at which the task is suspended
    while it holds its permit: [await asyncio.sleep(...)] (client.py
    line 89).  [enter] is the step up to that point: it takes a permit,
    reads the clock and gives the time to sleep, if any.  [leave] is the
    rest: it records the clock reading and gives the permit back. *)
Definition enter : M (option Q) :=
  acquire ;;
  now <- loop_time ;;
  c <- get_client ;;
  let elapsed := (now - _last_request_time c)%Q in
  if Qlt_bool elapsed 1
  then emit (Pacing (1 - elapsed)%Q) ;; ret (Some (1 - elapsed)%Q)
  else ret None.

Definition leave : M unit :=
  now' <- loop_time ;;
  set_last_request_time now' ;;
  release.

(** A task that runs [_enforce_rate_limit]: it has not begun, it sleeps
    inside the gate until the clock reads [until], or it has ended. *)
Inductive Task : Type :=
| Pending
| Sleeping (until : Q)
| Finished.

(** What the event loop does next: it runs a pending task up to its
    suspension or, when the task does not sleep, to its end; it resumes
    a sleeping task whose time has come; or time passes. *)
Inductive Move : Type :=
| Enter (task : nat)
| Wake (task : nat)
| Pass (seconds : Q).

(** The client and the world, the tasks, and the last-request times
    recorded so far, newest first. *)
Record Pool : Type := {
  pool_state : State;
  pool_tasks : list Task;
  pool_recorded : list Q
}.

Definition new_pool (c : ManyChatClient) (w : World) (n : nat) : Pool :=
  {| pool_state := (c, w); pool_tasks := repeat Pending n; pool_recorded := [] |}.

Definition set_task (i : nat) (t : Task) (ts : list Task) : list Task :=
  (firstn i ts ++ t :: skipn (S i) ts)%list.

(** Task [i] runs [leave] and ends. *)
Definition finish (i : nat) (st : State) (p : Pool) : option Pool :=
  match leave st with
  | (Ok _, st') =>
      Some {| pool_state := st';
              pool_tasks := set_task i Finished (pool_tasks p);
              pool_recorded := _last_request_time (fst st') :: pool_recorded p |}
  | _ => None
  end.

(** One move; [None] when the move is not possible (the task is not
    there or not in that state, the gate is locked, the time to wake has
    not come, time would go back). *)
Definition move (m : Move) (p : Pool) : option Pool :=
  match m with
  | Pass d =>
      if Qle_bool 0 d
      then Some {| pool_state := snd (elapse d (pool_state p));
                   pool_tasks := pool_tasks p;
                   pool_recorded := pool_recorded p |}
      else None
  | Enter i =>
      match nth_error (pool_tasks p) i with
      | Some Pending =>
          match enter (pool_state p) with
          | (Ok (Some d), st') =>
              Some {| pool_state := st';
                      pool_tasks :=
                        set_task i (Sleeping (clock (snd st') + d)%Q) (pool_tasks p);
                      pool_recorded := pool_recorded p |}
          | (Ok None, st') => finish i st' p
          | _ => None
          end
      | _ => None
      end
  | Wake i =>
      match nth_error (pool_tasks p) i with
      | Some (Sleeping until) =>
          if Qle_bool until (clock (snd (pool_state p)))
          then finish i (pool_state p) p
          else None
      | _ => None
      end
  end.

Fixpoint play (ms : list Move) (p : Pool) : option Pool :=
  match ms with
  | [] => Some p
  | m :: rest =>
      match move m p with
      | Some p' => play rest p'
      | None => None
      end
  end.

(** Three calls begin within two milliseconds: the first finds nothing
    recorded and does not sleep; the second and the third each find the
    time of the first and go to sleep inside the gate; a second later
    both are resumed. *)
Definition overlapping_schedule : list Move :=
  [Enter 0; Pass (1 # 1000); Enter 1; Pass (1 # 1000); Enter 2;
   Pass 1; Wake 1; Wake 2].

(** The times of a log, newest first, never go back, and none is before
    [floor]. *)
Fixpoint never_back (floor : Q) (newest_first : list Q) : Prop :=
  match newest_first with
  | [] => True
  | t :: older =>
      (match older with [] => floor | t' :: _ => t' end <= t)%Q
      /\ never_back floor older
  end.

(** What holds of a pool all along: the last-request time is not ahead
    of the clock, it is the newest time of the log, the log never goes
    back, and every pacing sleep that was added lasts at most a second. *)
Definition pool_invariant (floor : Q) (before : list Q) (p : Pool) : Prop :=
  (_last_request_time (fst (pool_state p)) <= clock (snd (pool_state p)))%Q
  /\ _last_request_time (fst (pool_state p))
     = match pool_recorded p with [] => floor | t :: _ => t end
  /\ never_back floor (pool_recorded p)
  /\ Forall (fun s => In s before \/ (0 < s /\ s <= 1)%Q)
       (pacings (events (snd (pool_state p)))).

(* ===================================================================== *)
(** ** The rest of the client: context manager, construction by default *)
(* ===================================================================== *)

(** [ManyChatClient.__aenter__] (client.py lines 55-58) and
    [ManyChatClient.__aexit__] (lines 60-62). *)
Definition __aenter__ (version : string) : M unit := start version.

Definition __aexit__ : M unit := close.

(** [async with client: body].  [__aexit__] runs when the body returns
    and when it raises; it returns [None], so an exception of the body
    goes on to the caller. *)
Definition async_with {A} (version : string) (body : M A) : M A :=
  fun st =>
    match __aenter__ version st with
    | (Ok _, st1) =>
        match body st1 with
        | (Hang, st2) => (Hang, st2)
        | (o, st2) =>
            match __aexit__ st2 with
            | (Ok _, st3) => (o, st3)
            | (Raise e, st3) => (Raise e, st3)
            | (Hang, st3) => (Hang, st3)
            end
        end
    | (Raise e, st1) => (Raise e, st1)
    | (Hang, st1) => (Hang, st1)
    end.

(** The sleeps of the retry decorator after the attempts [first],
    [first + 1], ..., [first + count - 1], newest first. *)
Definition backoff_sleeps (script : nat -> Env) (first count : nat) : list Q :=
  rev (map (fun k => full_jitter (jitter (script k)) (expo k)) (seq first count)).

(* ===================================================================== *)
(** ** Response helpers of api/_base.py *)
(* ===================================================================== *)

(** [PaginatedResponse] (_base.py lines 49-64). *)
Record PaginatedResponse (A : Type) : Type := {
  pg_data : list A;
  pg_total : Z;
  pg_page : Z;
  pg_limit : Z;
  pg_has_more : bool
}.
Arguments pg_data {A} _.
Arguments pg_total {A} _.

(** [__len__]: [len(self.data)]. *)
Definition PaginatedResponse_len {A} (p : PaginatedResponse A) : Z :=
  Z.of_nat (length (pg_data p)).

(** [__getitem__]: [self.data[index]] for an [int] index; a negative
    index counts from the end, [None] stands for [IndexError]. *)
Definition PaginatedResponse_getitem {A} (p : PaginatedResponse A) (index : Z)
  : option A :=
  let n := Z.of_nat (length (pg_data p)) in
  if (0 <=? index) && (index <? n) then nth_error (pg_data p) (Z.to_nat index)
  else if (- n <=? index) && (index <? 0)
       then nth_error (pg_data p) (Z.to_nat (n + index))
       else None.

(** [__iter__]: the items in order. *)
Definition PaginatedResponse_iter {A} (p : PaginatedResponse A) : list A :=
  pg_data p.

(* ===================================================================== *)
(** ** The message of a rate-limit error *)
(* ===================================================================== *)

(** [str(n)] for an [int]. *)
Definition str_of_int (n : Z) : string :=
  DecimalString.NilZero.string_of_int (Z.to_int n).

(** The message [ManyChatRateLimitError.__init__] hands to [Exception]
    (_exceptions.py lines 42-50): the sentence is added when
    [retry_after] is truthy. *)
Definition ManyChatRateLimitError_message (message : string)
    (retry_after : option Z) : string :=
  match retry_after with
  | Some n =>
      if n =? 0 then message
      else message ++ ". Retry after " ++ str_of_int n ++ " seconds"
  | None => message
  end.

(** The message of the error [_request] raises for a 429 (client.py
    lines 165-168). *)
Definition rate_limit_message (retry_after : Z) : string :=
  ManyChatRateLimitError_message
    ("Rate limit exceeded. Retry after " ++ str_of_int retry_after ++ " seconds")
    (Some retry_after).

(* ===================================================================== *)
(** ** The other endpoint functions *)
(* ===================================================================== *)

(** [TagInfo] and [TagsListResponse] (api/facebook/_responses.py lines
    30-37) as validated values. *)
Record TagInfo : Type := {
  tag_id : Z;
  tag_name : string
}.

Record TagsList : Type := {
  tags_status : string;
  tags_data : list TagInfo
}.

(** [tag.dict()]. *)
Definition TagInfo_dict (t : TagInfo) : list (string * json) :=
  [("id", JInt (tag_id t)); ("name", JStr (tag_name t))].

(** [next((tag.dict() for tag in data if tag.name.lower() ==
    tag_name.lower()), None)] (getTags.py lines 67-71).  [str_lower] is
    [str.lower], the interpreter's; nothing is assumed about it. *)
Fixpoint first_tag_named (str_lower : string -> string) (wanted : string)
    (data : list TagInfo) : option (list (string * json)) :=
  match data with
  | [] => None
  | t :: rest =>
      if String.eqb (str_lower (tag_name t)) (str_lower wanted)
      then Some (TagInfo_dict t)
      else first_tag_named str_lower wanted rest
  end.

(** A dict of [set_bot_fields]: the keys it may hold; [None] stands for
    an absent key or a [None] value. *)
Record BotFieldInput : Type := {
  in_field_id : option Z;
  in_field_name : option string;
  in_field_value : option pyval
}.

(** [not v] for the field name and [not values.get('field_id')]. *)
Definition falsy_name (n : option string) : bool :=
  match n with
  | None => true
  | Some s => String.eqb s ""
  end.

Definition falsy_id (i : option Z) : bool :=
  match i with
  | None => true
  | Some z => z =? 0
  end.

(** A value of [Union[str, int, bool, float]] (floats are not
    represented). *)
Definition is_scalar (v : pyval) : bool :=
  match v with
  | PBool _ | PInt _ | PStr _ => true
  | _ => false
  end.

Definition optional {A} (inject : A -> pyval) (o : option A) : pyval :=
  match o with
  | Some a => inject a
  | None => PNone
  end.

(** [BotFieldUpdate] built from one dict (api/facebook/_requests.py lines
    7-26):
    [field_value] is required, and the validator of [field_name] refuses
    a falsy name together with a falsy id. *)
Definition BotFieldUpdate_new (f : BotFieldInput) : outcome pyval :=
  if falsy_name (in_field_name f) && falsy_id (in_field_id f)
  then Raise ValidationError
  else match in_field_value f with
       | Some v =>
           if is_scalar v
           then Ok (PModel [("field_id", optional PInt (in_field_id f));
                            ("field_name", optional PStr (in_field_name f));
                            ("field_value", v)])
           else Raise ValidationError
       | None => Raise ValidationError
       end.

(** The list comprehension of [set_bot_fields]: one [BotFieldUpdate] for
    each dict, the first failure ends it. *)
Fixpoint field_updates (fields : list BotFieldInput) : outcome (list pyval) :=
  match fields with
  | [] => Ok []
  | f :: rest =>
      obind (BotFieldUpdate_new f) (fun u =>
      obind (field_updates rest) (fun us => Ok (u :: us)))
  end.

(** [SetBotFieldsRequest(fields=field_updates)] (api/facebook/_requests.py
    lines 28-34): at most 20 items. *)
Definition SetBotFieldsRequest_new (updates : list pyval)
  : outcome (list (string * pyval)) :=
  if (20 <? length updates)%nat then Raise ValidationError
  else Ok [("fields", PList updates)].

(** [GetSubscriberInfoRequest(subscriber_id=..., fields=...)]
    (api/facebook/subscriber/_requests.py lines 21-31). *)
Definition GetSubscriberInfoRequest (subscriber_id : string)
    (fields : option (list string)) : list (string * pyval) :=
  [("subscriber_id", PStr subscriber_id);
   ("fields", optional (fun l => PList (map PStr l)) fields)].

Section MoreEndpoints.

Variable version : string.

(** [str.lower], the interpreter's. *)
Variable str_lower : string -> string.

Variables SetBotFieldsResponseValue GetSubscriberInfoResponseValue : Type.
Variable TagsListResponse : ResponseModel TagsList.
Variable SetBotFieldsResponse : ResponseModel SetBotFieldsResponseValue.
Variable GetSubscriberInfoResponse : ResponseModel GetSubscriberInfoResponseValue.

(** [find_tag_by_name] (api/facebook/getTags.py lines 52-72). *)
Definition find_tag_by_name (wanted : string) (script : nat -> Env)
  : M (option (list (string * json))) :=
  response <- get_tags version TagsListResponse script ;;
  match tags_data response with
  | [] => ret None
  | _ :: _ => ret (first_tag_named str_lower wanted (tags_data response))
  end.

(** [set_bot_fields] (api/facebook/setBotFields.py lines 20-57). *)
Definition set_bot_fields (fields : list BotFieldInput) (script : nat -> Env)
  : M SetBotFieldsResponseValue :=
  updates <- lift (field_updates fields) ;;
  request <- lift (SetBotFieldsRequest_new updates) ;;
  f <- lift (client_getattr "request") ;;
  call version f "POST" "fb/page/setBotFields" (Some request)
    SetBotFieldsResponse script.

(** [set_bot_field] (api/facebook/setBotFields.py lines 60-92). *)
Definition set_bot_field (field_id : option Z) (field_name : option string)
    (field_value : pyval) (script : nat -> Env) : M SetBotFieldsResponseValue :=
  match field_id, field_name with
  | None, None => lift (Raise ValueError)
  | _, _ =>
      set_bot_fields
        [{| in_field_id := field_id; in_field_name := field_name;
            in_field_value := Some field_value |}]
        script
  end.

(** Calling what the lookup found with the keyword arguments [method],
    [endpoint], [params], [response_model]: no attribute of the client
    takes [params]. *)
Definition call_with_params {T} (f : attribute) (method endpoint : string)
    (params : list (string * json)) (response_model : ResponseModel T) : M T :=
  lift (Raise TypeError).

(** [get_subscriber_info] (api/facebook/subscriber/getInfo.py lines
    19-55).  [client.request] is looked up before the arguments of the
    call are evaluated. *)
Definition get_subscriber_info (subscriber_id : string)
    (fields : option (list string)) : M GetSubscriberInfoResponseValue :=
  let request := GetSubscriberInfoRequest subscriber_id fields in
  f <- lift (client_getattr "request") ;;
  call_with_params f "GET" "fb/subscriber/getInfo"
    (dict_exclude_none request) GetSubscriberInfoResponse.

End MoreEndpoints.

Arguments set_bot_fields version {SetBotFieldsResponseValue} SetBotFieldsResponse
  fields script.
Arguments set_bot_field version {SetBotFieldsResponseValue} SetBotFieldsResponse
  field_id field_name field_value script.
Arguments get_subscriber_info {GetSubscriberInfoResponseValue}
  GetSubscriberInfoResponse subscriber_id fields.

(** In no dict of the document, at any depth, is a member null. *)
Fixpoint no_null_member (j : json) : Prop :=
  match j with
  | JList items =>
      (fix all (l : list json) : Prop :=
         match l with
         | [] => True
         | x :: rest => no_null_member x /\ all rest
         end) items
  | JObj members =>
      (fix all (l : list (string * json)) : Prop :=
         match l with
         | [] => True
         | (_, v) :: rest => v <> JNull /\ no_null_member v /\ all rest
         end) members
  | _ => True
  end.

(** The value holds no plain dict, at any depth. *)
Fixpoint no_plain_dict (v : pyval) : Prop :=
  match v with
  | PList items =>
      (fix all (l : list pyval) : Prop :=
         match l with
         | [] => True
         | x :: rest => no_plain_dict x /\ all rest
         end) items
  | PDict _ => False
  | PModel fields =>
      (fix all (l : list (string * pyval)) : Prop :=
         match l with
         | [] => True
         | (_, x) :: rest => no_plain_dict x /\ all rest
         end) fields
  | _ => True
  end.

(* ===================================================================== *)
(** ** Running the rate limiter and one attempt *)
(* ===================================================================== *)

Lemma Qlt_bool_iff (x y : Q) : Qlt_bool x y = true <-> (x < y)%Q.
Proof.
  unfold Qlt_bool. rewrite negb_true_iff.
  split; intro H.
  - apply Qnot_le_lt. intro Hle. apply Qle_bool_iff in Hle. congruence.
  - destruct (Qle_bool y x) eqn:E; [|reflexivity].
    apply Qle_bool_iff in E. exfalso. apply (Qlt_not_le _ _ H E).
Qed.

Lemma Qlt_bool_false_iff (x y : Q) : Qlt_bool x y = false <-> (y <= x)%Q.
Proof.
  unfold Qlt_bool. rewrite negb_false_iff. apply Qle_bool_iff.
Qed.

Lemma locked_after_release (cfg : ManyChatConfig) (s : option ClientSession)
    (v t : Q) :
  Qeq_bool v 0 = false ->
  locked {| config := cfg; _session := s;
            _rate_limit_semaphore := (v - 1 + 1)%Q;
            _last_request_time := t |} = false.
Proof.
  unfold locked; simpl. intro H.
  destruct (Qeq_bool (v - 1 + 1) 0) eqn:E; [|reflexivity].
  apply Qeq_bool_iff in E.
  assert (Hz : (v == 0)%Q) by lra.
  apply Qeq_bool_iff in Hz. congruence.
Qed.


Lemma enforce_rate_limit_unlocked (e : Env) (c : ManyChatClient) (w : World) :
  locked c = false ->
  _enforce_rate_limit e (c, w) =
    (Ok tt,
     ({| config := config c; _session := _session c;
         _rate_limit_semaphore := (_rate_limit_semaphore c - 1 + 1)%Q;
         _last_request_time := recorded_at e c w |},
      {| clock := recorded_at e c w;
         events := (if Qlt_bool (elapsed_at e c w) 1
                    then [Pacing (1 - elapsed_at e c w)%Q] else [])
                   ++ events w |})).
Proof.
  intro H.
  unfold _enforce_rate_limit, bind, acquire, release, set_semaphore,
    set_last_request_time, elapse, emit, loop_time, get_client, ret,
    recorded_at, elapsed_at.
  rewrite H. cbn.
  destruct (Qlt_bool (clock w + gap e - _last_request_time c) 1); reflexivity.
Qed.

Lemma enforce_rate_limit_locked (e : Env) (c : ManyChatClient) (w : World) :
  locked c = true ->
  _enforce_rate_limit e (c, w) = (Hang, (c, w)).
Proof.
  intro H. unfold _enforce_rate_limit, bind, acquire. rewrite H. reflexivity.
Qed.

Section ExecutorFacts.

Variable version : string.



Lemma live_session_open (c : ManyChatClient) : closed (live_session version c) = false.
Proof.
  unfold live_session. destruct (_session c) as [s|]; [|reflexivity].
  destruct (closed s) eqn:E; [reflexivity | exact E].
Qed.

Lemma live_session_fixed (c c' : ManyChatClient) :
  config c' = config c ->
  _session c' = Some (live_session version c) ->
  live_session version c' = live_session version c.
Proof.
  intros Hc Hs. unfold live_session at 1. rewrite Hs.
  rewrite live_session_open. reflexivity.
Qed.


Lemma started_session (c : ManyChatClient) :
  _session (started version c) = Some (live_session version c).
Proof.
  unfold started, session_unusable, live_session.
  destruct (_session c) as [s|] eqn:E; [|reflexivity].
  destruct (closed s); [reflexivity | exact E].
Qed.

Lemma started_config (c : ManyChatClient) : config (started version c) = config c.
Proof. unfold started. destruct (session_unusable c); reflexivity. Qed.

Lemma started_locked (c : ManyChatClient) : locked (started version c) = locked c.
Proof. unfold started. destruct (session_unusable c); reflexivity. Qed.

Lemma ensure_started (c : ManyChatClient) (w : World) :
  (if session_unusable c then start version else ret tt) (c, w)
  = (Ok tt, (started version c, w)).
Proof.
  unfold started, start, bind, get_client, set_session, ret.
  destruct (session_unusable c) eqn:E; cbn; rewrite ?E; reflexivity.
Qed.

Context {T : Type}.
Variables (method endpoint : string).
Variable request_data : option (list (string * pyval)).
Variable response_model : ResponseModel T.

(** One attempt with a free permit: the [try] statement decides the
    outcome, one exchange is sent, nothing is slept by the decorator. *)
Lemma attempt_unlocked (e : Env) (c : ManyChatClient) (w : World) :
  locked c = false ->
  exists c' w',
    _request_attempt version method endpoint request_data response_model e (c, w)
    = (try_block (live_session version c) response_model (reply e), (c', w'))
    /\ config c' = config c
    /\ _session c' = Some (live_session version c)
    /\ locked c' = false
    /\ sent (events w') = exchange_of version c method endpoint request_data :: sent (events w)
    /\ backoffs (events w') = backoffs (events w).
Proof.
  intro H.
  unfold _request_attempt.
  unfold bind at 1. unfold get_client at 1. cbn [fst].
  unfold bind at 1. rewrite ensure_started. cbv iota beta.
  unfold bind at 1. unfold get_client at 1. cbv iota beta. cbn [fst].
  unfold bind at 1.
  rewrite enforce_rate_limit_unlocked by (rewrite started_locked; exact H).
  cbv iota beta.
  unfold bind at 1. unfold get_client at 1. cbv iota beta. cbn [fst _session].
  rewrite started_session.
  unfold bind, emit, lift. cbv iota beta.
  eexists. eexists. split; [reflexivity|].
  cbn [config _session events]. rewrite started_config.
  repeat split.
  - apply locked_after_release.
    rewrite <- started_locked in H. exact H.
  - unfold exchange_of.
    destruct (Qlt_bool (elapsed_at e (started version c) w) 1); reflexivity.
  - destruct (Qlt_bool (elapsed_at e (started version c) w) 1); reflexivity.
Qed.

(** One attempt with no free permit: the task stays suspended before
    anything is sent. *)
Lemma attempt_locked (e : Env) (c : ManyChatClient) (w : World) :
  locked c = true ->
  _request_attempt version method endpoint request_data response_model e (c, w)
  = (Hang, (started version c, w)).
Proof.
  intro H.
  unfold _request_attempt.
  unfold bind at 1. unfold get_client at 1. cbn [fst].
  unfold bind at 1. rewrite ensure_started. cbv iota beta.
  unfold bind at 1. unfold get_client at 1. cbv iota beta. cbn [fst].
  unfold bind at 1.
  rewrite enforce_rate_limit_locked by (rewrite started_locked; exact H).
  reflexivity.
Qed.

End ExecutorFacts.

Section RetryFacts.

Variable version : string.
Context {T : Type}.
Variables (method endpoint : string).
Variable request_data : option (list (string * pyval)).
Variable response_model : ResponseModel T.
Variable script : nat -> Env.

Local Abbreviation target :=
  (_request_attempt version method endpoint request_data response_model).

Lemma retry_exception_step (left tries : nat) (st : State) :
  retry_exception target script left tries st =
    match target (script tries) st with
    | (Raise ex, st') =>
        if retryable ex then
          match left with
          | O => (Raise ex, st')
          | S left' =>
              let seconds := full_jitter (jitter (script tries)) (expo tries) in
              retry_exception target script left' (S tries)
                (fst st',
                 {| clock := (clock (snd st') + seconds)%Q;
                    events := Backoff seconds :: events (snd st') |})
          end
        else (Raise ex, st')
    | r => r
    end.
Proof.
  destruct left; cbn [retry_exception];
    destruct (target (script tries) st) as [[a|ex|] [c' w']]; try reflexivity;
    destruct (retryable ex); reflexivity.
Qed.

Lemma exchange_of_fixed (c c' : ManyChatClient) :
  config c' = config c ->
  _session c' = Some (live_session version c) ->
  exchange_of version c' method endpoint request_data
  = exchange_of version c method endpoint request_data.
Proof.
  intros Hc Hs. unfold exchange_of.
  rewrite (live_session_fixed version c c' Hc Hs), Hc. reflexivity.
Qed.

(** When the first attempt ends in a value or in an exception the
    decorator does not retry on, the call ends there: one exchange, no
    backoff sleep. *)
Lemma request_ends_at_first_attempt (c : ManyChatClient) (w : World) :
  locked c = false ->
  match try_block (live_session version c) response_model (reply (script 0)) with
  | Raise ex => retryable ex = false
  | _ => True
  end ->
  exists c' w',
    _request version method endpoint request_data response_model script (c, w)
    = (try_block (live_session version c) response_model (reply (script 0)),
       (c', w'))
    /\ config c' = config c
    /\ sent (events w')
       = exchange_of version c method endpoint request_data :: sent (events w)
    /\ backoffs (events w') = backoffs (events w).
Proof.
  intros Hl Hfinal.
  destruct (attempt_unlocked version method endpoint request_data
              response_model (script 0) c w Hl)
    as (c' & w' & Hrun & Hcfg & _ & _ & Hsent & Hback).
  exists c', w'. split; [|auto].
  unfold _request. rewrite retry_exception_step.
  rewrite Hrun.
  destruct (try_block (live_session version c) response_model (reply (script 0)))
    as [a|ex|]; try reflexivity.
  rewrite Hfinal. reflexivity.
Qed.

(** Whatever happens, every exchange a call adds is the same one; there
    are at most [left + 1] of them, and at least one when a permit is
    free. *)
Lemma retry_exchanges (left : nat) :
  forall (tries : nat) (c : ManyChatClient) (w : World),
  exists o c' w' n,
    retry_exception target script left tries (c, w) = (o, (c', w'))
    /\ sent (events w')
       = (repeat (exchange_of version c method endpoint request_data) n
          ++ sent (events w))%list
    /\ (n <= S left)%nat
    /\ (locked c = false -> (1 <= n)%nat).
Proof.
  induction left as [|left' IH]; intros tries c w;
    rewrite retry_exception_step;
    destruct (locked c) eqn:Hl.
  - rewrite attempt_locked by exact Hl.
    exists Hang, (started version c), w, 0%nat.
    repeat split; [lia | discriminate].
  - destruct (attempt_unlocked version method endpoint request_data
                response_model (script tries) c w Hl)
      as (c' & w' & Hrun & _ & _ & _ & Hsent & _).
    rewrite Hrun.
    destruct (try_block (live_session version c) response_model
                (reply (script tries))) as [a|ex|].
    + exists (Ok a), c', w', 1%nat. repeat split; [exact Hsent | lia | lia].
    + exists (Raise ex), c', w', 1%nat.
      destruct (retryable ex); repeat split; try exact Hsent; lia.
    + exists Hang, c', w', 1%nat. repeat split; [exact Hsent | lia | lia].
  - rewrite attempt_locked by exact Hl.
    exists Hang, (started version c), w, 0%nat.
    repeat split; [lia | discriminate].
  - destruct (attempt_unlocked version method endpoint request_data
                response_model (script tries) c w Hl)
      as (c' & w' & Hrun & Hcfg & Hsess & _ & Hsent & _).
    rewrite Hrun.
    destruct (try_block (live_session version c) response_model
                (reply (script tries))) as [a|ex|].
    + exists (Ok a), c', w', 1%nat. repeat split; [exact Hsent | lia | lia].
    + destruct (retryable ex).
      * cbv zeta. cbn [fst snd].
        match goal with
        | |- context [retry_exception _ script left' (S tries) (c', ?w1)] =>
            destruct (IH (S tries) c' w1) as (o & c2 & w2 & n & Hrec & Hs2 & Hn & _)
        end.
        exists o, c2, w2, (S n). split; [exact Hrec|].
        split; [|split; intros; lia].
        rewrite Hs2. cbn [events sent].
        rewrite (exchange_of_fixed c c' Hcfg Hsess), Hsent.
        change (exchange_of version c method endpoint request_data :: sent (events w))
          with (([exchange_of version c method endpoint request_data]
                 ++ sent (events w))%list).
        rewrite app_assoc, <- repeat_cons. reflexivity.
      * exists (Raise ex), c', w', 1%nat. repeat split; [exact Hsent | lia | lia].
    + exists Hang, c', w', 1%nat. repeat split; [exact Hsent | lia | lia].
Qed.

Lemma request_exchanges (c : ManyChatClient) (w : World) :
  exists o c' w' n,
    _request version method endpoint request_data response_model script (c, w)
    = (o, (c', w'))
    /\ sent (events w')
       = (repeat (exchange_of version c method endpoint request_data) n
          ++ sent (events w))%list
    /\ (n <= max_tries)%nat
    /\ (locked c = false -> (1 <= n)%nat).
Proof.
  unfold _request. apply (retry_exchanges (max_tries - 1) 0%nat c w).
Qed.

End RetryFacts.

(* ===================================================================== *)
(** ** Endpoint functions *)
(* ===================================================================== *)

Lemma getattr_request : client_getattr "request" = Raise (AttributeError "request").
Proof. reflexivity. Qed.

Lemma getattr__request : client_getattr "_request" = Ok (BoundMethod "_request").
Proof. reflexivity. Qed.

(** C2.  [ManyChatClient] has [_request] and no [request]; [get_tags],
    [get_page_info] and [add_tag_by_name] look up [request] on the client
    and so end in [AttributeError], for every client, world, script and
    argument, leaving the client and the world as they were: nothing is
    sent. *)
Theorem endpoints_raise_attribute_error :
  forall (version : string) (A B C : Type)
         (TagsListResponse : ResponseModel A)
         (PageInfoResponse : ResponseModel B)
         (SuccessResponse : ResponseModel C)
         (script : nat -> Env) (subscriber_id tag_name : string)
         (c : ManyChatClient) (w : World),
    client_getattr "_request" = Ok (BoundMethod "_request")
    /\ client_getattr "request" = Raise (AttributeError "request")
    /\ get_tags version TagsListResponse script (c, w)
       = (Raise (AttributeError "request"), (c, w))
    /\ get_page_info version PageInfoResponse script (c, w)
       = (Raise (AttributeError "request"), (c, w))
    /\ add_tag_by_name version SuccessResponse subscriber_id tag_name script (c, w)
       = (Raise (AttributeError "request"), (c, w)).
Proof.
  intros. repeat split.
Qed.

(* ===================================================================== *)
(** ** Configuration *)
(* ===================================================================== *)

(** C5, as the claim states it, fails: an empty API key together with a
    zero timeout, a negative retry count and a zero rate limit is
    accepted, the values are stored as given, and the configuration can
    be assigned to afterwards. *)
Lemma degenerate_config_is_accepted :
  exists cfg cfg',
    ManyChatConfig_new degenerate_sources = Ok cfg
    /\ api_key cfg = ""
    /\ timeout cfg = 0
    /\ max_retries cfg = -1
    /\ rate_limit cfg = 0
    /\ set_timeout cfg 5 = Ok cfg'
    /\ timeout cfg' = 5.
Proof.
  eexists. eexists. repeat split.
Qed.

Lemma same_presence_refused {A} (s s' : supplied A) :
  same_presence s s' = true -> refused s' = refused s.
Proof. destruct s, s'; cbn; intro H; try discriminate; reflexivity. Qed.

Lemma same_supply_refused (i i' : ConfigInput) :
  same_supply i i' = true -> any_refused i' = any_refused i.
Proof.
  unfold same_supply, any_refused. intro H.
  repeat (apply andb_true_iff in H; destruct H as [H ?]).
  repeat match goal with
         | Hp : same_presence _ _ = true |- _ =>
             rewrite (same_presence_refused _ _ Hp); clear Hp
         end.
  reflexivity.
Qed.

Lemma same_supply_key (i i' : ConfigInput) :
  same_supply i i' = true -> same_presence (in_api_key i) (in_api_key i') = true.
Proof.
  unfold same_supply. intro H.
  repeat (apply andb_true_iff in H; destruct H as [H ?]).
  exact H.
Qed.

(** Whether construction fails. *)
Lemma construction_fails (i : ConfigInput) :
  ManyChatConfig_new i = Raise ValidationError
  <-> (any_refused i = true \/ in_api_key i = Absent).
Proof.
  unfold ManyChatConfig_new.
  destruct (any_refused i) eqn:Hr.
  - split; [intros _; left; reflexivity | reflexivity].
  - destruct (in_api_key i) as [|key|] eqn:Hk.
    + split; [intros _; right; reflexivity | reflexivity].
    + split; [discriminate | intros [H|H]; discriminate].
    + exfalso. unfold any_refused in Hr. rewrite Hk in Hr. discriminate.
Qed.

(** C5, amended.  Construction fails when no source supplies the API key
    or when a supplied value is refused by the type of its field, and
    then only.  Whether it fails is the same for two inputs that differ
    in nothing but the values accepted: no value is looked at.  When it
    succeeds it stores what was supplied, or the declared default; and
    since the class is not declared frozen, a later assignment to a field
    succeeds as well. *)
Theorem config_construction :
  forall i : ConfigInput,
    (ManyChatConfig_new i = Raise ValidationError
     <-> (any_refused i = true \/ in_api_key i = Absent))
    /\ (forall i', same_supply i i' = true -> constructs i' = constructs i)
    /\ (forall key,
          any_refused i = false ->
          in_api_key i = Accepted key ->
          exists cfg,
            ManyChatConfig_new i = Ok cfg
            /\ api_key cfg = key
            /\ timeout cfg = field_default (in_timeout i) 30
            /\ max_retries cfg = field_default (in_max_retries i) 3
            /\ rate_limit cfg = field_default (in_rate_limit i) 100
            /\ forall v, exists cfg',
                 set_timeout cfg v = Ok cfg' /\ timeout cfg' = v
                 /\ api_key cfg' = key).
Proof.
  intro i. split; [apply construction_fails|]. split.
  - intros i' Hsame.
    pose proof (same_supply_refused i i' Hsame) as Hr.
    pose proof (same_supply_key i i' Hsame) as Hk.
    unfold constructs, ManyChatConfig_new. rewrite Hr.
    destruct (any_refused i); [reflexivity|].
    destruct (in_api_key i), (in_api_key i'); cbn in Hk; try discriminate;
      reflexivity.
  - intros key Hr Hk. unfold ManyChatConfig_new. rewrite Hr, Hk.
    eexists. repeat split.
    intro v. eexists. repeat split.
Qed.

(** A timeout that is no integer makes construction fail although the
    API key is supplied. *)
Example bad_timeout_is_refused :
  ManyChatConfig_new (sources_with_bad_timeout "key") = Raise ValidationError.
Proof. reflexivity. Qed.

(* ===================================================================== *)
(** ** The admission gate *)
(* ===================================================================== *)

(** C6, as the claim states it, fails for the default limit of 100
    requests per minute: the gate starts at the float 100/60, which is
    not the ceiling 2; and for a limit of 30 it starts at 1/2, below one
    permit. *)
Lemma gate_is_not_the_ceiling :
  exists c c30,
    ManyChatClient_init None (sources_with_key "key") = Ok c
    /\ rate_limit (config c) = 100
    /\ permits_ceiling 100 = 2
    /\ ~ (_rate_limit_semaphore c == inject_Z (permits_ceiling 100))%Q
    /\ ManyChatClient_init (Some (default_config_with_limit 30)) no_input = Ok c30
    /\ (_rate_limit_semaphore c30 < 1)%Q.
Proof.
  eexists. eexists. split; [vm_compute; reflexivity|].
  split; [reflexivity|]. split; [reflexivity|].
  split; [|split; [vm_compute; reflexivity|]].
  - vm_compute. intro H. discriminate H.
  - vm_compute. reflexivity.
Qed.

(** The float of the default limit: 7505999378950827 / 2^52, the float
    nearest to 5/3. *)
Example default_gate_value :
  semaphore_for 100 = Ok (7505999378950827 # 4503599627370496).
Proof. vm_compute. reflexivity. Qed.

(** A limit whose quotient is too large for a float makes the
    construction of the client raise [OverflowError]. *)
Example huge_limit_overflows :
  ManyChatClient_init (Some (default_config_with_limit (10 ^ 400))) no_input
  = Raise OverflowError.
Proof. vm_compute. reflexivity. Qed.

Lemma iter_range (f : Z -> bool) (lo : Z) (count : N) :
  fst (N.iter count (fun '(k, ok) => (k + 1, ok && f k)) (lo, true))
  = lo + Z.of_N count
  /\ (snd (N.iter count (fun '(k, ok) => (k + 1, ok && f k)) (lo, true)) = true ->
      forall k, lo <= k < lo + Z.of_N count -> f k = true).
Proof.
  induction count as [|n IH] using N.peano_ind.
  - cbn. split; [lia | intros _ k Hk; lia].
  - rewrite N.iter_succ.
    destruct (N.iter n (fun '(k, ok) => (k + 1, ok && f k)) (lo, true))
      as [k0 ok] eqn:E.
    cbn [fst snd] in *. destruct IH as [Hk0 Hall].
    split; [lia|].
    intros Hok k Hk. apply andb_true_iff in Hok. destruct Hok as [Hok Hf].
    destruct (Z.eq_dec k k0) as [->|Hne]; [exact Hf|].
    apply Hall; [exact Hok | lia].
Qed.

Lemma all_range_spec (f : Z -> bool) (lo : Z) (count : N) :
  all_range f lo count = true ->
  forall k, lo <= k < lo + Z.of_N count -> f k = true.
Proof. unfold all_range. apply iter_range. Qed.

(** Every limit from [- limit_bound] to [limit_bound], computed. *)
Lemma gate_as_amended_in_range :
  all_range gate_as_amended (- limit_bound) (Z.to_N (2 * limit_bound + 1)) = true.
Proof. vm_compute. reflexivity. Qed.

(** C6, amended.  For a limit of at most 60000 that is not negative the
    gate is created with the float [rate_limit / 60], not rounded up: it
    is the quotient to within the rounding of a float (a relative error
    of at most 2^-53), it is at most the ceiling and is the ceiling
    exactly when the limit is a multiple of 60, and it is positive for a
    positive limit.  A negative limit down to -60000 makes the
    construction of the client raise [ValueError]. *)
Theorem gate_initial_value :
  forall (cfg : ManyChatConfig) (sources : ConfigInput),
    - limit_bound <= rate_limit cfg <= limit_bound ->
    (rate_limit cfg < 0
     /\ ManyChatClient_init (Some cfg) sources = Raise ValueError)
    \/ (0 <= rate_limit cfg
        /\ exists c,
             ManyChatClient_init (Some cfg) sources = Ok c
             /\ config c = cfg
             /\ (Qabs (_rate_limit_semaphore c * 60 - inject_Z (rate_limit cfg))
                 * inject_Z (2 ^ 53) <= inject_Z (rate_limit cfg))%Q
             /\ (_rate_limit_semaphore c
                 <= inject_Z (permits_ceiling (rate_limit cfg)))%Q
             /\ ((_rate_limit_semaphore c
                  == inject_Z (permits_ceiling (rate_limit cfg)))%Q
                 <-> rate_limit cfg mod 60 = 0)
             /\ (0 < rate_limit cfg -> (0 < _rate_limit_semaphore c)%Q)).
Proof.
  intros cfg sources Hr.
  assert (Hcheck : gate_as_amended (rate_limit cfg) = true).
  { apply (all_range_spec _ _ _ gate_as_amended_in_range).
    unfold limit_bound in *. rewrite Z2N.id by lia. lia. }
  unfold gate_as_amended in Hcheck.
  unfold ManyChatClient_init. cbn [obind].
  destruct (semaphore_for (rate_limit cfg)) as [v|e|]; [| |discriminate].
  - right.
    repeat (apply andb_true_iff in Hcheck; destruct Hcheck as [Hcheck ?]).
    apply Z.leb_le in Hcheck.
    split; [exact Hcheck|].
    eexists. split; [reflexivity|]. cbn [config _rate_limit_semaphore].
    split; [reflexivity|].
    split; [apply Qle_bool_iff; assumption|].
    split; [apply Qle_bool_iff; assumption|].
    split.
    + match goal with
      | Heq : Bool.eqb _ _ = true |- _ => apply Bool.eqb_prop in Heq; rename Heq into He
      end.
      rewrite <- Z.eqb_eq, <- He. symmetry. apply Qeq_bool_iff.
    + intro Hpos.
      match goal with
      | Hor : (_ || _) = true |- _ => apply orb_true_iff in Hor; destruct Hor as [Hlt|Hz]
      end.
      * apply Qlt_bool_iff. exact Hlt.
      * apply Z.eqb_eq in Hz. lia.
  - left. destruct e; try discriminate.
    apply Z.ltb_lt in Hcheck. split; [exact Hcheck | reflexivity].
Qed.

(** The default limit, and a limit of 120. *)
Lemma gate_initial_value_witness :
  exists c c',
    ManyChatClient_init (Some (default_config_with_limit 100)) no_input = Ok c
    /\ (_rate_limit_semaphore c < 2)%Q
    /\ ManyChatClient_init (Some (default_config_with_limit 120)) no_input = Ok c'
    /\ (_rate_limit_semaphore c' == 2)%Q.
Proof.
  destruct (gate_initial_value (default_config_with_limit 100) no_input)
    as [[Hneg _] | (_ & c & Hc & _ & _ & Hle & Hiff & _)];
    [cbn; unfold limit_bound; lia | cbn in Hneg; lia |].
  destruct (gate_initial_value (default_config_with_limit 120) no_input)
    as [[Hneg _] | (_ & c' & Hc' & _ & _ & _ & Hiff' & _)];
    [cbn; unfold limit_bound; lia | cbn in Hneg; lia |].
  exists c, c'. split; [exact Hc|]. split; [|split; [exact Hc'|]].
  - cbn [rate_limit default_config_with_limit] in Hle, Hiff.
    apply Qle_lteq in Hle. destruct Hle as [Hlt|Heq].
    + exact Hlt.
    + apply Hiff in Heq. vm_compute in Heq. discriminate Heq.
  - cbn [rate_limit default_config_with_limit] in Hiff'.
    apply Hiff'. reflexivity.
Defined.

Lemma same_float_eq (x y : spec_float) : same_float x y = true -> x = y.
Proof.
  destruct x as [a|a| |a m e], y as [b|b| |b m' e']; cbn; intro H;
    try discriminate; try reflexivity.
  - apply Bool.eqb_prop in H. subst. reflexivity.
  - apply Bool.eqb_prop in H. subst. reflexivity.
  - apply andb_true_iff in H. destruct H as [H He].
    apply andb_true_iff in H. destruct H as [Hs Hm].
    apply Bool.eqb_prop in Hs. apply Pos.eqb_eq in Hm. apply Z.eqb_eq in He.
    subst. reflexivity.
Qed.

(** Every limit from 1 to [limit_bound], computed. *)
Lemma counter_settles_in_range :
  all_range counter_settles 1 (Z.to_N limit_bound) = true.
Proof. vm_compute. reflexivity. Qed.

(** X28.  The counter as the float it is, for a limit from 1 to 60000 and
    steps that run one after the other: the counter is not zero when a
    step begins, so [locked()] is false at every step, as it is for the
    counter that moves by exactly one; and from the second step on the
    float is the same at every step (the first step may leave it changed
    by the rounding of the subtraction). *)
Theorem float_counter_stays_open :
  forall (r : Z) (n : nat),
    1 <= r <= limit_bound ->
    exists v q,
      per_second r = Ok v
      /\ semaphore_for r = Ok q
      /\ float_locked (float_counter v n) = false
      /\ Qeq_bool q 0 = false
      /\ float_counter v (S n) = float_counter v 1.
Proof.
  intros r n Hr.
  assert (Hcheck : counter_settles r = true).
  { apply (all_range_spec _ _ _ counter_settles_in_range).
    unfold limit_bound in *. rewrite Z2N.id by lia. lia. }
  unfold counter_settles in Hcheck.
  destruct (per_second r) as [v| |] eqn:Hv; try discriminate.
  apply andb_true_iff in Hcheck. destruct Hcheck as [Hcheck Hq].
  apply andb_true_iff in Hcheck. destruct Hcheck as [Hcheck Hsame].
  apply andb_true_iff in Hcheck. destruct Hcheck as [H0 H1].
  apply negb_true_iff in H0, H1.
  apply same_float_eq in Hsame.
  destruct (Semaphore_new v) as [q| |] eqn:Hsem; try discriminate.
  apply negb_true_iff in Hq.
  assert (Hall : forall k, float_counter v (S k) = float_counter v 1).
  { induction k as [|k IH]; [reflexivity|].
    change (float_counter v (S (S k)))
      with (float_release (float_acquire (float_counter v (S k)))).
    rewrite IH. exact Hsame. }
  exists v, q. split; [reflexivity|].
  split; [unfold semaphore_for; rewrite Hv; exact Hsem|].
  split; [|split; [exact Hq | apply Hall]].
  destruct n as [|k]; [exact H0|]. rewrite Hall. exact H1.
Qed.

(** The limit 1: the float 1/60 is 4803839602528529 / 2^58 when the
    first step begins and 4803839602528544 / 2^58 from then on. *)
Lemma float_counter_stays_open_witness :
  exists v,
    per_second 1 = Ok v
    /\ float_counter v 0 = S754_finite false 4803839602528529 (-58)
    /\ float_counter v 1 = S754_finite false 4803839602528544 (-58)
    /\ float_counter v 7 = float_counter v 1
    /\ float_locked (float_counter v 7) = false.
Proof.
  destruct (float_counter_stays_open 1 6) as (v & q & Hv & _ & _ & _ & Hfix);
    [unfold limit_bound; lia|].
  destruct (float_counter_stays_open 1 7) as (v' & q' & Hv' & _ & Hopen & _);
    [unfold limit_bound; lia|].
  rewrite Hv in Hv'. inversion Hv'; subst v'.
  exists v. split; [exact Hv|].
  assert (E : v = S754_finite false 4803839602528529 (-58)).
  { vm_compute in Hv. inversion Hv. reflexivity. }
  split; [exact E|]. split; [rewrite E; vm_compute; reflexivity|].
  split; [exact Hfix | exact Hopen].
Defined.

(* ===================================================================== *)
(** ** The rate limiter *)
(* ===================================================================== *)

Lemma new_events_app (added before : list event) :
  new_events before (added ++ before) = added.
Proof.
  unfold new_events. rewrite length_app, Nat.add_sub.
  rewrite firstn_app, firstn_all, Nat.sub_diag. cbn. apply app_nil_r.
Qed.

(** A step with a free permit, seen through [admissions]. *)
Lemma admissions_cons (e : Env) (rest : list Env) (c : ManyChatClient) (w : World) :
  locked c = false ->
  exists c' w',
    admissions (e :: rest) (c, w)
    = {| seen_elapsed := elapsed_at e c w;
         slept := if Qlt_bool (elapsed_at e c w) 1
                  then [(1 - elapsed_at e c w)%Q] else [];
         recorded := recorded_at e c w |} :: admissions rest (c', w')
    /\ locked c' = false
    /\ _last_request_time c' = recorded_at e c w.
Proof.
  intro H. cbn [admissions].
  rewrite (enforce_rate_limit_unlocked e c w H). cbn [fst snd events _last_request_time].
  rewrite new_events_app.
  eexists. eexists. split; [|split].
  - destruct (Qlt_bool (elapsed_at e c w) 1) at 1 3; reflexivity.
  - apply locked_after_release. exact H.
  - reflexivity.
Qed.

Lemma recorded_at_spacing (e : Env) (c : ManyChatClient) (w : World) :
  (0 <= lag e)%Q ->
  (_last_request_time c + 1 <= recorded_at e c w)%Q.
Proof.
  intro Hlag. unfold recorded_at.
  destruct (Qlt_bool (elapsed_at e c w) 1) eqn:E.
  - unfold elapsed_at. lra.
  - apply Qlt_bool_false_iff in E. unfold elapsed_at in *. lra.
Qed.

(** X26.  In every sequence of admission steps on a client with a free
    permit, each step run to its end before the next begins, where no
    clock reading is early ([lag] is not negative), every step completes;
    a step that computes an elapsed time below one second sleeps once,
    for exactly one second minus that time, and a step that computes one
    second or more does not sleep; each recorded last-request time is at
    least one second after the one before it, and so the recorded times
    never decrease. *)
Theorem admissions_are_paced :
  forall (steps : list Env) (c : ManyChatClient) (w : World),
    locked c = false ->
    Forall (fun e => (0 <= lag e)%Q) steps ->
    length (admissions steps (c, w)) = length steps
    /\ Forall (fun a =>
                 ((seen_elapsed a < 1)%Q -> slept a = [(1 - seen_elapsed a)%Q])
                 /\ ((1 <= seen_elapsed a)%Q -> slept a = []))
              (admissions steps (c, w))
    /\ spaced (_last_request_time c) (map recorded (admissions steps (c, w)))
    /\ nondecreasing (_last_request_time c) (map recorded (admissions steps (c, w))).
Proof.
  induction steps as [|e rest IH]; intros c w Hl Hlag.
  - cbn. repeat split. constructor.
  - inversion Hlag as [|? ? He Hrest]; subst.
    destruct (admissions_cons e rest c w Hl) as (c' & w' & Hrun & Hl' & Hlast).
    destruct (IH c' w' Hl' Hrest) as (Hlen & Hsleep & Hspaced & Hmono).
    rewrite Hrun. cbn [length map recorded].
    pose proof (recorded_at_spacing e c w He) as Hgap.
    rewrite Hlast in Hspaced, Hmono.
    split; [|split; [|split]].
    + rewrite Hlen. reflexivity.
    + constructor; [|exact Hsleep].
      cbn [seen_elapsed slept]. split; intro Hcmp.
      * apply Qlt_bool_iff in Hcmp. rewrite Hcmp. reflexivity.
      * apply Qlt_bool_false_iff in Hcmp. rewrite Hcmp. reflexivity.
    + cbn [spaced]. split; [exact Hgap | exact Hspaced].
    + cbn [nondecreasing]. split; [lra | exact Hmono].
Qed.

Lemma admissions_are_paced_witness :
  locked (client_with_plain_session (default_config_with_limit 100)) = false
  /\ length (admissions three_steps
               (client_with_plain_session (default_config_with_limit 100),
                at_noon)) = 3%nat
  /\ spaced 0 (map recorded
                 (admissions three_steps
                    (client_with_plain_session (default_config_with_limit 100),
                     at_noon))).
Proof.
  split; [reflexivity|].
  destruct (admissions_are_paced three_steps
              (client_with_plain_session (default_config_with_limit 100))
              at_noon) as (Hlen & _ & Hspaced & _).
  - reflexivity.
  - repeat constructor; cbn; discriminate.
  - split; [exact Hlen | exact Hspaced].
Defined.

(** The step in two parts, with the sleep between them, is the step. *)
Lemma enforce_rate_limit_in_two_parts (e : Env) (c : ManyChatClient) (w : World) :
  locked c = false ->
  _enforce_rate_limit e (c, w)
  = (elapse (gap e) ;;
     d <- enter ;;
     match d with Some s => elapse s | None => ret tt end ;;
     elapse (lag e) ;;
     leave) (c, w).
Proof.
  intro H.
  unfold _enforce_rate_limit, enter, leave, bind, acquire, release, set_semaphore,
    set_last_request_time, elapse, emit, loop_time, get_client, ret.
  rewrite H. cbn.
  destruct (Qlt_bool (clock w + gap e - _last_request_time c) 1); reflexivity.
Qed.

(** [leave] always completes: it records the clock reading. *)
Lemma leave_run (c : ManyChatClient) (w : World) :
  leave (c, w)
  = (Ok tt,
     ({| config := config c; _session := _session c;
         _rate_limit_semaphore := (_rate_limit_semaphore c + 1)%Q;
         _last_request_time := clock w |}, w)).
Proof. reflexivity. Qed.

(** [enter] with a free permit: the last-request time and the clock stay
    as they are, and the time to sleep is one second minus the elapsed
    time when that is below one second. *)
Lemma enter_run (c : ManyChatClient) (w : World) :
  locked c = false ->
  exists d c' w',
    enter (c, w) = (Ok d, (c', w'))
    /\ _last_request_time c' = _last_request_time c
    /\ clock w' = clock w
    /\ (d = None ->
        (1 <= clock w - _last_request_time c)%Q /\ events w' = events w)
    /\ (forall s, d = Some s ->
          s = (1 - (clock w - _last_request_time c))%Q
          /\ (clock w - _last_request_time c < 1)%Q
          /\ events w' = Pacing s :: events w).
Proof.
  intro H.
  unfold enter, bind, acquire, set_semaphore, loop_time, get_client, emit, ret.
  rewrite H. cbn.
  destruct (Qlt_bool (clock w - _last_request_time c) 1) eqn:E.
  - eexists. eexists. eexists. split; [reflexivity|]. cbn.
    split; [reflexivity|]. split; [reflexivity|]. split; [discriminate|].
    intros s Hs. inversion Hs; subst.
    split; [reflexivity|]. split; [apply Qlt_bool_iff; exact E | reflexivity].
  - eexists. eexists. eexists. split; [reflexivity|]. cbn.
    split; [reflexivity|]. split; [reflexivity|].
    split; [intros _; split; [apply Qlt_bool_false_iff; exact E | reflexivity]
           | discriminate].
Qed.

Lemma enter_locked (c : ManyChatClient) (w : World) :
  locked c = true -> enter (c, w) = (Hang, (c, w)).
Proof. intro H. unfold enter, bind, acquire. rewrite H. reflexivity. Qed.

Lemma finish_invariant (floor : Q) (before : list Q) (i : nat) (st : State)
    (p p' : Pool) :
  finish i st p = Some p' ->
  (_last_request_time (fst st) <= clock (snd st))%Q ->
  _last_request_time (fst st)
  = match pool_recorded p with [] => floor | t :: _ => t end ->
  never_back floor (pool_recorded p) ->
  Forall (fun s => In s before \/ (0 < s /\ s <= 1)%Q) (pacings (events (snd st))) ->
  pool_invariant floor before p'.
Proof.
  destruct st as [c w]. unfold finish. rewrite leave_run. cbn [fst snd].
  intros Hp Hle Hlast Hlog Hsleeps. inversion Hp; subst p'. clear Hp.
  unfold pool_invariant. cbn [pool_state pool_recorded fst snd _last_request_time].
  split; [apply Qle_refl|]. split; [reflexivity|].
  split; [|exact Hsleeps].
  cbn [never_back]. split; [|exact Hlog].
  rewrite <- Hlast. exact Hle.
Qed.

Lemma move_invariant (floor : Q) (before : list Q) (m : Move) (p p' : Pool) :
  pool_invariant floor before p -> move m p = Some p' ->
  pool_invariant floor before p'.
Proof.
  intros (Hle & Hlast & Hlog & Hsleeps) Hm.
  destruct p as [[c w] ts log]. cbn [pool_state pool_recorded fst snd] in *.
  destruct m as [i | i | d];
    cbn [move pool_state pool_tasks pool_recorded fst snd] in Hm.
  - destruct (nth_error ts i) as [[| until |]|]; try discriminate.
    destruct (locked c) eqn:Hl.
    + rewrite (enter_locked c w Hl) in Hm. discriminate.
    + destruct (enter_run c w Hl) as (d & c' & w' & Hrun & Hc' & Hw' & Hnone & Hsome).
      rewrite Hrun in Hm. destruct d as [s|].
      * destruct (Hsome s eq_refl) as (Hs & Hlt & Hev).
        inversion Hm; subst p'. unfold pool_invariant.
        cbn [pool_state pool_recorded fst snd]. rewrite Hc', Hw', Hev.
        cbn [pacings].
        split; [exact Hle|]. split; [exact Hlast|]. split; [exact Hlog|].
        constructor; [|exact Hsleeps].
        right. rewrite Hs. split; lra.
      * destruct (Hnone eq_refl) as (_ & Hev).
        apply (finish_invariant floor before i (c', w') _ p' Hm);
          cbn [fst snd pool_recorded]; rewrite ?Hc', ?Hw', ?Hev; assumption.
  - destruct (nth_error ts i) as [[| until |]|]; try discriminate.
    destruct (Qle_bool until (clock w)); [|discriminate].
    apply (finish_invariant floor before i (c, w) _ p' Hm); assumption.
  - destruct (Qle_bool 0 d) eqn:Hd; [|discriminate].
    apply Qle_bool_iff in Hd.
    inversion Hm; subst p'. unfold pool_invariant.
    cbn [pool_state pool_recorded fst snd elapse clock events].
    split; [lra | auto].
Qed.

Lemma play_invariant (floor : Q) (before : list Q) (ms : list Move) :
  forall p p', pool_invariant floor before p -> play ms p = Some p' ->
               pool_invariant floor before p'.
Proof.
  induction ms as [|m rest IH]; intros p p' Hinv Hplay; cbn [play] in Hplay.
  - inversion Hplay; subst. exact Hinv.
  - destruct (move m p) as [p1|] eqn:Hm; [|discriminate].
    apply (IH p1 p' (move_invariant floor before m p p1 Hinv Hm) Hplay).
Qed.

Lemma last_default {A} (l : list A) (y a b : A) :
  last (y :: l) a = last (y :: l) b.
Proof.
  revert y. induction l as [|z l IH]; intro y; [reflexivity|].
  change (last (z :: l) a = last (z :: l) b). apply IH.
Qed.

Lemma nondecreasing_snoc (a t : Q) (xs : list Q) :
  nondecreasing a xs -> (last xs a <= t)%Q -> nondecreasing a (xs ++ [t]).
Proof.
  revert a. induction xs as [|x rest IH]; intros a Hxs Ht; cbn [app nondecreasing].
  - cbn in Ht. split; [exact Ht | exact I].
  - cbn [nondecreasing] in Hxs. destruct Hxs as [Hax Hrest].
    split; [exact Hax|]. apply IH; [exact Hrest|].
    destruct rest as [|y rest']; [exact Ht|].
    rewrite (last_default rest' y x a). exact Ht.
Qed.

Lemma nondecreasing_last (a y : Q) (xs : list Q) :
  nondecreasing a (xs ++ [y]) -> (a <= y)%Q.
Proof.
  revert a. induction xs as [|x rest IH]; intros a Hn; cbn in Hn.
  - tauto.
  - destruct Hn as [Hax Hrest]. specialize (IH x Hrest). lra.
Qed.

Lemma never_back_nondecreasing (floor : Q) (l : list Q) :
  never_back floor l -> nondecreasing floor (rev l).
Proof.
  induction l as [|t older IH]; cbn [never_back rev]; [intros; exact I|].
  intros [Ht Holder]. apply nondecreasing_snoc; [apply IH; exact Holder|].
  destruct older as [|t' o2]; [exact Ht|].
  cbn [rev]. rewrite last_last. exact Ht.
Qed.

(** X27.  However the admission steps of the tasks of one client are
    interleaved, when the last-request time is not ahead of the clock at
    the start: the times recorded never decrease, the last-request time
    stays behind the clock, and every pacing sleep that is added lasts
    more than zero and at most one second. *)
Theorem interleaved_steps_never_go_back :
  forall (ms : list Move) (c : ManyChatClient) (w : World) (n : nat) (p : Pool),
    (_last_request_time c <= clock w)%Q ->
    play ms (new_pool c w n) = Some p ->
    nondecreasing (_last_request_time c) (rev (pool_recorded p))
    /\ (_last_request_time c <= _last_request_time (fst (pool_state p)))%Q
    /\ (_last_request_time (fst (pool_state p)) <= clock (snd (pool_state p)))%Q
    /\ Forall (fun s => In s (pacings (events w)) \/ (0 < s /\ s <= 1)%Q)
         (pacings (events (snd (pool_state p)))).
Proof.
  intros ms c w n p Hle Hplay.
  assert (Hinv : pool_invariant (_last_request_time c) (pacings (events w))
                   (new_pool c w n)).
  { unfold pool_invariant, new_pool. cbn [pool_state pool_recorded fst snd never_back].
    split; [exact Hle|]. split; [reflexivity|]. split; [exact I|].
    apply Forall_forall. intros s Hs. left. exact Hs. }
  destruct (play_invariant _ _ ms _ p Hinv Hplay) as (Hle' & Hlast & Hlog & Hsleeps).
  pose proof (never_back_nondecreasing _ _ Hlog) as Hmono.
  split; [exact Hmono|]. split; [|split; [exact Hle' | exact Hsleeps]].
  rewrite Hlast. destruct (pool_recorded p) as [|t older]; [apply Qle_refl|].
  cbn [rev] in Hmono. apply (nondecreasing_last _ _ _ Hmono).
Qed.

Lemma interleaved_steps_never_go_back_witness :
  exists p,
    play overlapping_schedule
      (new_pool (client_with_plain_session (default_config_with_limit 100))
         at_noon 3) = Some p
    /\ nondecreasing 0 (rev (pool_recorded p))
    /\ length (pool_recorded p) = 3%nat.
Proof.
  eexists. split; [vm_compute; reflexivity|].
  split; [|reflexivity].
  apply (interleaved_steps_never_go_back overlapping_schedule
           (client_with_plain_session (default_config_with_limit 100))
           at_noon 3).
  - cbn. discriminate.
  - vm_compute. reflexivity.
Defined.

(** C7, on the code.  The comment at client.py line 88 says that the step
    ensures at least one second between requests, and the claim says the
    same of consecutive recorded times.  The gate of a new client with
    the default limit starts at the float 100/60 and is not locked by
    three tasks inside it.  Three calls that begin within two
    milliseconds go through as follows: the first finds nothing recorded
    and records the time 43200; the second and the third each compute an
    elapsed time below one second and sleep for exactly one second minus
    that time (0.999 and 0.998 seconds), inside the gate; when they are
    resumed they record the same time 43201.002.  Two consecutive
    recorded times are zero seconds apart, not one second or more; the
    recorded times do not decrease. *)
Theorem overlapping_steps_are_not_spaced :
  exists c p,
    ManyChatClient_init None (sources_with_key "key") = Ok c
    /\ play overlapping_schedule (new_pool c at_noon 3) = Some p
    /\ pool_tasks p = [Finished; Finished; Finished]
    /\ map Qred (rev (pool_recorded p))
       = [43200; 21600501 # 500; 21600501 # 500]%Q
    /\ map Qred (rev (pacings (events (snd (pool_state p)))))
       = [999 # 1000; 499 # 500]%Q
    /\ ~ spaced 0 (rev (pool_recorded p))
    /\ nondecreasing 0 (rev (pool_recorded p)).
Proof.
  eexists. eexists. split; [vm_compute; reflexivity|].
  split; [vm_compute; reflexivity|].
  split; [reflexivity|]. split; [vm_compute; reflexivity|].
  split; [vm_compute; reflexivity|]. split.
  - cbn [rev pool_recorded app spaced]. intros (_ & _ & H & _).
    vm_compute in H. apply H. reflexivity.
  - cbn [rev pool_recorded app nondecreasing].
    repeat split; vm_compute; discriminate.
Qed.

(* ===================================================================== *)
(** ** What one response leads to *)
(* ===================================================================== *)

Lemma try_block_below_400 {T} (s : ClientSession) (response_model : ResponseModel T)
    (r : Response) (data : json) :
  status r < 400 ->
  body r = JsonBody data ->
  try_block s response_model (Responded r) = parse_response response_model data.
Proof.
  intros Hst Hbody.
  unfold try_block, session_request, response_json, check_status.
  assert (E : (400 <=? status r) = false) by (apply Z.leb_gt; exact Hst).
  rewrite E, andb_false_r. cbn [obind]. rewrite Hbody. cbn [obind].
  rewrite E. cbn [obind].
  unfold parse_response. destruct (parse_obj response_model data); reflexivity.
Qed.

(** On a session that raises for the status itself, a status of 400 or
    more never reaches the status checks of [_request]. *)
Lemma try_block_raising_session {T} (s : ClientSession)
    (response_model : ResponseModel T) (r : Response) :
  raise_for_status s = true ->
  400 <= status r ->
  try_block s response_model (Responded r) = Raise (ManyChatAPIError None None).
Proof.
  intros Hs Hst. unfold try_block, session_request.
  assert (E : (400 <=? status r) = true) by (apply Z.leb_le; exact Hst).
  rewrite Hs, E. reflexivity.
Qed.

(** On a session that leaves the status to the caller, the status checks
    decide. *)
Lemma try_block_plain_session {T} (s : ClientSession)
    (response_model : ResponseModel T) (r : Response) (data : json) :
  raise_for_status s = false ->
  400 <= status r ->
  body r = JsonBody data ->
  try_block s response_model (Responded r)
  = except_clauses (obind (check_status r data) (fun _ => parse_response response_model data)).
Proof.
  intros Hs Hst Hbody. unfold try_block, session_request, response_json.
  rewrite Hs. cbn [andb obind]. rewrite Hbody. reflexivity.
Qed.

Lemma check_status_401 (r : Response) (data : json) :
  status r = 401 -> check_status r data = Raise ManyChatAuthError.
Proof. intro H. unfold check_status. rewrite H. reflexivity. Qed.

Lemma check_status_429 (r : Response) (data : json) :
  status r = 429 ->
  check_status r data
  = obind (retry_after_of r)
      (fun retry_after => Raise (ManyChatRateLimitError (Some retry_after))).
Proof. intro H. unfold check_status. rewrite H. reflexivity. Qed.

Lemma check_status_500 (r : Response) (data : json) :
  status r = 500 ->
  check_status r data = Raise (ManyChatAPIError (Some 500) (Some data)).
Proof. intro H. unfold check_status. rewrite H. reflexivity. Qed.

(** A status of 500 ends the [try] statement in an exception that the
    decorator does not retry on and that is no [ManyChatServerError]. *)
Lemma try_block_500 {T} (s : ClientSession) (response_model : ResponseModel T)
    (r : Response) :
  status r = 500 ->
  exists ex,
    try_block s response_model (Responded r) = Raise ex
    /\ retryable ex = false
    /\ ex <> ManyChatServerError
    /\ (raise_for_status s = true -> ex = ManyChatAPIError None None)
    /\ (raise_for_status s = false ->
        forall data, body r = JsonBody data ->
                     ex = ManyChatAPIError (Some 500) (Some data)).
Proof.
  intro Hst.
  destruct (raise_for_status s) eqn:Hs.
  - exists (ManyChatAPIError None None).
    rewrite (try_block_raising_session s response_model r Hs) by lia.
    repeat split; try discriminate.
  - unfold try_block, session_request, response_json.
    rewrite Hs. cbn [andb obind].
    destruct (body r) as [data| | |] eqn:Hb; cbn [obind].
    + rewrite (check_status_500 r data Hst). cbn [obind except_clauses].
      exists (ManyChatAPIError (Some 500) (Some data)).
      repeat split; try discriminate.
      intros _ data' Hd. inversion Hd; subst. reflexivity.
    + exists (ManyChatAPIError None None). repeat split; try discriminate.
    + exists ValueError. repeat split; try discriminate.
    + exists (ManyChatAPIError None None). repeat split; try discriminate.
Qed.

(* ===================================================================== *)
(** ** The executor *)
(* ===================================================================== *)

(** C8, as the claim states it, fails for a body that is no JSON
    document.  With the status 200, a body that does not decode makes
    [response.json()] raise [json.JSONDecodeError], a [ValueError] that
    leaves the call as it is; a body under another content type makes it
    raise [aiohttp.ContentTypeError], which the call raises again as
    [ManyChatAPIError].  Neither is a [ManyChatValidationError]. *)
Lemma undecodable_body_is_no_validation_error :
  exists c o c' w' o2 c2 w2,
    ManyChatClient_init None (sources_with_key "key") = Ok c
    /\ _request "1.0" "GET" "fb/page/getInfo" None BaseResponse
         (fun _ => answering_with 200 Malformed) (c, at_noon)
       = (o, (c', w'))
    /\ o = Raise ValueError
    /\ o <> Raise ManyChatValidationError
    /\ _request "1.0" "GET" "fb/page/getInfo" None BaseResponse
         (fun _ => answering_with 200 WrongContentType) (c, at_noon)
       = (o2, (c2, w2))
    /\ o2 = Raise (ManyChatAPIError None None)
    /\ o2 <> Raise ManyChatValidationError.
Proof.
  eexists. eexists. eexists. eexists. eexists. eexists. eexists.
  split; [vm_compute; reflexivity|].
  split; [vm_compute; reflexivity|].
  split; [reflexivity|]. split; [discriminate|].
  split; [vm_compute; reflexivity|].
  split; [reflexivity | discriminate].
Qed.

(** C8, amended.  When the first answer has a status below 400 and a
    body that is a JSON document which the response model does not
    validate, the call raises [ManyChatValidationError] after that one
    exchange, with no retry and no value returned. *)
Theorem invalid_document_raises_validation_error :
  forall (version : string) (T : Type) (method endpoint : string)
         (request_data : option (list (string * pyval)))
         (response_model : ResponseModel T) (script : nat -> Env)
         (c : ManyChatClient) (w : World) (r : Response) (data : json),
    locked c = false ->
    reply (script 0%nat) = Responded r ->
    status r < 400 ->
    body r = JsonBody data ->
    parse_obj response_model data = None ->
    exists c' w',
      _request version method endpoint request_data response_model script (c, w)
      = (Raise ManyChatValidationError, (c', w'))
      /\ sent (events w')
         = exchange_of version c method endpoint request_data :: sent (events w)
      /\ backoffs (events w') = backoffs (events w).
Proof.
  intros version T method endpoint request_data response_model script c w r data
         Hl Hreply Hst Hbody Hparse.
  assert (Htry : try_block (live_session version c) response_model (reply (script 0%nat))
                 = Raise ManyChatValidationError).
  { rewrite Hreply, (try_block_below_400 _ _ r data Hst Hbody).
    unfold parse_response. rewrite Hparse. reflexivity. }
  destruct (request_ends_at_first_attempt version method endpoint request_data
              response_model script c w Hl) as (c' & w' & Hrun & _ & Hsent & Hback).
  - rewrite Htry. reflexivity.
  - exists c', w'. rewrite Hrun, Htry. auto.
Qed.

(** The server answers 200 with a JSON list, which [BaseResponse] does
    not validate. *)
Lemma invalid_document_raises_validation_error_witness :
  exists c' w',
    _request "1.0" "GET" "fb/page/getTags" None BaseResponse
      (fun _ => answering 200 [] (JList []))
      (client_with_plain_session (default_config_with_limit 100), at_noon)
    = (Raise ManyChatValidationError, (c', w'))
    /\ length (sent (events w')) = 1%nat.
Proof.
  destruct (invalid_document_raises_validation_error
              "1.0" BaseResponseValue "GET" "fb/page/getTags" None BaseResponse
              (fun _ => answering 200 [] (JList []))
              (client_with_plain_session (default_config_with_limit 100)) at_noon
              {| status := 200; headers := []; body := JsonBody (JList []) |}
              (JList []))
    as (c' & w' & Hrun & Hsent & _); try reflexivity.
  exists c', w'. split; [exact Hrun|]. rewrite Hsent. reflexivity.
Defined.

Lemma live_session_by_start (version : string) (c : ManyChatClient) :
  session_by_start version c ->
  live_session version c = new_session version (config c).
Proof.
  unfold session_by_start, live_session.
  destruct (_session c) as [s|]; [|reflexivity].
  intros [Hclosed | Hnew].
  - rewrite Hclosed. reflexivity.
  - subst s. reflexivity.
Qed.

(** C9.  Through a session that [start] builds or has built, every
    exchange a call of [_request] sends, on the first attempt and on
    every retry, carries the header [Authorization] with the value
    ["Bearer "] followed by the configured API key; with a free permit at
    least one exchange is sent. *)
Theorem authorization_header_is_bearer_key :
  forall (version : string) (T : Type) (method endpoint : string)
         (request_data : option (list (string * pyval)))
         (response_model : ResponseModel T) (script : nat -> Env)
         (c : ManyChatClient) (w : World),
    session_by_start version c ->
    exists o c' w' added,
      _request version method endpoint request_data response_model script (c, w)
      = (o, (c', w'))
      /\ sent (events w') = (added ++ sent (events w))%list
      /\ (forall x, In x added ->
            assoc "Authorization" (x_headers x)
            = Some ("Bearer " ++ api_key (config c)))
      /\ (locked c = false -> added <> []).
Proof.
  intros version T method endpoint request_data response_model script c w Hstart.
  destruct (request_exchanges version method endpoint request_data response_model
              script c w) as (o & c' & w' & n & Hrun & Hsent & _ & Hn).
  exists o, c', w',
    (repeat (exchange_of version c method endpoint request_data) n).
  split; [exact Hrun|]. split; [exact Hsent|]. split.
  - intros x Hx. apply repeat_spec in Hx. subst x.
    unfold exchange_of. cbn [x_headers].
    rewrite (live_session_by_start version c Hstart). reflexivity.
  - intros Hl Hnil. specialize (Hn Hl).
    destruct n; [lia | discriminate Hnil].
Qed.

(** A client just constructed has no session yet; the first call starts
    one. *)
Lemma authorization_header_is_bearer_key_witness :
  exists o c' w' added,
    _request "1.0" "GET" "fb/page/getInfo" None BaseResponse
      (fun _ => answering 200 [] (JObj []))
      ({| config := default_config_with_limit 100; _session := None;
          _rate_limit_semaphore := 100 # 60; _last_request_time := 0 |}, at_noon)
    = (o, (c', w'))
    /\ sent (events w') = (added ++ [])%list
    /\ (forall x, In x added ->
          assoc "Authorization" (x_headers x) = Some "Bearer key").
Proof.
  destruct (authorization_header_is_bearer_key
              "1.0" BaseResponseValue "GET" "fb/page/getInfo" None BaseResponse
              (fun _ => answering 200 [] (JObj []))
              {| config := default_config_with_limit 100; _session := None;
                 _rate_limit_semaphore := 100 # 60; _last_request_time := 0 |}
              at_noon I)
    as (o & c' & w' & added & Hrun & Hsent & Hauth & _).
  exists o, c', w', added. split; [exact Hrun|]. split; [exact Hsent | exact Hauth].
Defined.

(* ===================================================================== *)
(** ** The request body *)
(* ===================================================================== *)

Lemma is_none_true (v : pyval) : is_none v = true <-> v = PNone.
Proof. destruct v; cbn; split; intro H; try discriminate; reflexivity. Qed.

Lemma dump_null (v : pyval) : dump v = JNull <-> v = PNone.
Proof. destruct v; cbn; split; intro H; try discriminate; reflexivity. Qed.

(** The members of the dict are the fields that are not [None], each with
    its converted value. *)
Lemma dict_exclude_none_members (fs : list (string * pyval)) (k : string) (j : json) :
  In (k, j) (dict_exclude_none fs)
  <-> exists v, In (k, v) fs /\ v <> PNone /\ j = dump v.
Proof.
  induction fs as [|[k0 v0] rest IH]; cbn [dict_exclude_none].
  - split; [intros [] | intros (v & [] & _)].
  - destruct (is_none v0) eqn:E.
    + apply is_none_true in E. subst v0. rewrite IH. split.
      * intros (v & Hin & Hv & Hj). exists v. split; [right; exact Hin | auto].
      * intros (v & [Heq | Hin] & Hv & Hj).
        -- inversion Heq; subst. congruence.
        -- exists v. auto.
    + assert (Hv0 : v0 <> PNone).
      { intro H. apply is_none_true in H. congruence. }
      cbn [In]. rewrite IH. split.
      * intros [Heq | (v & Hin & Hv & Hj)].
        -- inversion Heq; subst. exists v0. split; [left; reflexivity | auto].
        -- exists v. split; [right; exact Hin | auto].
      * intros (v & [Heq | Hin] & Hv & Hj).
        -- inversion Heq; subst. left. reflexivity.
        -- right. exists v. auto.
Qed.

(** The keys keep the order of the fields. *)
Lemma dict_exclude_none_keys (fs : list (string * pyval)) :
  map fst (dict_exclude_none fs)
  = map fst (filter (fun kv => negb (is_none (snd kv))) fs).
Proof.
  induction fs as [|[k v] rest IH]; cbn [dict_exclude_none filter snd]; [reflexivity|].
  destruct (is_none v); cbn [negb map fst]; rewrite IH; reflexivity.
Qed.

(** C10.  A call of [_request] with a request model sends, on every
    attempt, a body whose members are exactly the fields of the model
    that are not [None], each with its converted value; no member of the
    body is null; [to_api_format] builds the same dict. *)
Theorem request_body_omits_none_fields :
  forall (version : string) (T : Type) (method endpoint : string)
         (fields : list (string * pyval))
         (response_model : ResponseModel T) (script : nat -> Env)
         (c : ManyChatClient) (w : World),
    exists o c' w' added,
      _request version method endpoint (Some fields) response_model script (c, w)
      = (o, (c', w'))
      /\ sent (events w') = (added ++ sent (events w))%list
      /\ (locked c = false -> added <> [])
      /\ (forall x, In x added ->
            exists sent_body,
              x_json x = Some sent_body
              /\ sent_body = to_api_format fields
              /\ (forall k j, In (k, j) sent_body
                              <-> exists v, In (k, v) fields /\ v <> PNone /\ j = dump v)
              /\ (forall k, ~ In (k, JNull) sent_body)
              /\ map fst sent_body
                 = map fst (filter (fun kv => negb (is_none (snd kv))) fields)).
Proof.
  intros version T method endpoint fields response_model script c w.
  destruct (request_exchanges version method endpoint (Some fields) response_model
              script c w) as (o & c' & w' & n & Hrun & Hsent & _ & Hn).
  exists o, c', w',
    (repeat (exchange_of version c method endpoint (Some fields)) n).
  split; [exact Hrun|]. split; [exact Hsent|]. split.
  - intros Hl Hnil. specialize (Hn Hl).
    destruct n; [lia | discriminate Hnil].
  - intros x Hx. apply repeat_spec in Hx. subst x.
    exists (dict_exclude_none fields). cbn [exchange_of x_json option_map].
    split; [reflexivity|]. split; [reflexivity|]. split; [|split].
    + intros k j. apply dict_exclude_none_members.
    + intros k Hin. apply dict_exclude_none_members in Hin.
      destruct Hin as (v & _ & Hv & Hj). symmetry in Hj.
      apply dump_null in Hj. contradiction.
    + apply dict_exclude_none_keys.
Qed.

(** A nested model is converted by the same rule as the request itself. *)
Lemma dump_model (fs : list (string * pyval)) :
  dump (PModel fs) = JObj (dict_exclude_none fs).
Proof.
  reflexivity.
Qed.

(* ===================================================================== *)
(** ** Error statuses *)
(* ===================================================================== *)

(** C1, as the claim states it, fails.  With the default configuration
    ([max_retries] is 3) and a server that answers 500 to every attempt,
    a call sends one exchange, sleeps for no backoff, and raises
    [ManyChatAPIError], not [ManyChatServerError]: on a new client, and
    on a client whose session leaves the status to the caller, where the
    status checks are reached and the error carries the status 500. *)
Lemma status_500_is_tried_once :
  exists c o c' w' o2 c2 w2,
    ManyChatClient_init None (sources_with_key "key") = Ok c
    /\ max_retries (config c) = 3
    /\ _request "1.0" "GET" "fb/page/getInfo" None BaseResponse
         (fun _ => answering 500 [] (JObj [])) (c, at_noon)
       = (o, (c', w'))
    /\ o = Raise (ManyChatAPIError None None)
    /\ o <> Raise ManyChatServerError
    /\ length (sent (events w')) = 1%nat
    /\ length (sent (events w')) <> Z.to_nat (max_retries (config c))
    /\ backoffs (events w') = []
    /\ _request "1.0" "GET" "fb/page/getInfo" None BaseResponse
         (fun _ => answering 500 [] (JObj []))
         (client_with_plain_session (config c), at_noon)
       = (o2, (c2, w2))
    /\ o2 = Raise (ManyChatAPIError (Some 500) (Some (JObj [])))
    /\ o2 <> Raise ManyChatServerError
    /\ length (sent (events w2)) = 1%nat
    /\ backoffs (events w2) = [].
Proof.
  eexists. eexists. eexists. eexists. eexists. eexists. eexists.
  split; [vm_compute; reflexivity|]. split; [reflexivity|].
  split; [vm_compute; reflexivity|].
  split; [reflexivity|]. split; [discriminate|].
  split; [reflexivity|]. split; [cbn; lia|]. split; [reflexivity|].
  split; [vm_compute; reflexivity|].
  split; [reflexivity|]. split; [discriminate|].
  split; reflexivity.
Qed.

(** C1, amended.  When the first answer has status 500 and a JSON
    document, and the response reaches the status checks (the session
    leaves the status to the caller), a call with a free permit sends
    exactly one exchange, whatever the configuration says, sleeps for no
    backoff, and raises [ManyChatAPIError] with status code 500 and the
    decoded document: an exception that the decorator does not retry on
    and that is no [ManyChatServerError]. *)
Theorem status_500_ends_the_call :
  forall (version : string) (T : Type) (method endpoint : string)
         (request_data : option (list (string * pyval)))
         (response_model : ResponseModel T) (script : nat -> Env)
         (c : ManyChatClient) (w : World) (r : Response) (data : json),
    locked c = false ->
    raise_for_status (live_session version c) = false ->
    reply (script 0%nat) = Responded r ->
    status r = 500 ->
    body r = JsonBody data ->
    exists c' w',
      _request version method endpoint request_data response_model script (c, w)
      = (Raise (ManyChatAPIError (Some 500) (Some data)), (c', w'))
      /\ ManyChatAPIError (Some 500) (Some data) <> ManyChatServerError
      /\ retryable (ManyChatAPIError (Some 500) (Some data)) = false
      /\ config c' = config c
      /\ sent (events w')
         = exchange_of version c method endpoint request_data :: sent (events w)
      /\ backoffs (events w') = backoffs (events w).
Proof.
  intros version T method endpoint request_data response_model script c w r data
         Hl Hs Hreply Hst Hbody.
  assert (Htry : try_block (live_session version c) response_model (reply (script 0%nat))
                 = Raise (ManyChatAPIError (Some 500) (Some data))).
  { rewrite Hreply, (try_block_plain_session _ _ r data Hs) by (lia || exact Hbody).
    rewrite (check_status_500 r data Hst). reflexivity. }
  destruct (request_ends_at_first_attempt version method endpoint request_data
              response_model script c w Hl) as (c' & w' & Hrun & Hcfg & Hsent & Hback).
  - rewrite Htry. reflexivity.
  - exists c', w'. rewrite Hrun, Htry.
    split; [reflexivity|]. split; [discriminate|]. split; [reflexivity|].
    split; [exact Hcfg|]. split; [exact Hsent | exact Hback].
Qed.

Lemma status_500_ends_the_call_witness :
  exists c' w',
    _request "1.0" "GET" "fb/page/getInfo" None BaseResponse
      (fun _ => answering 500 [] (JObj []))
      (client_with_plain_session (default_config_with_limit 100), at_noon)
    = (Raise (ManyChatAPIError (Some 500) (Some (JObj []))), (c', w'))
    /\ length (sent (events w')) = 1%nat.
Proof.
  destruct (status_500_ends_the_call
              "1.0" BaseResponseValue "GET" "fb/page/getInfo" None BaseResponse
              (fun _ => answering 500 [] (JObj []))
              (client_with_plain_session (default_config_with_limit 100)) at_noon
              {| status := 500; headers := []; body := JsonBody (JObj []) |}
              (JObj []))
    as (c' & w' & Hrun & _ & _ & _ & Hsent & _); try reflexivity.
  exists c', w'. split; [exact Hrun|]. rewrite Hsent. reflexivity.
Defined.

(** On a session that raises for the status, a call whose first answer
    has a status of 400 or more ends there, in a [ManyChatAPIError]
    without status code: the checks for 401 and 429 are not reached. *)
Lemma error_status_on_raising_session
    (version : string) (T : Type) (method endpoint : string)
    (request_data : option (list (string * pyval)))
    (response_model : ResponseModel T) (script : nat -> Env)
    (c : ManyChatClient) (w : World) (r : Response) :
  locked c = false ->
  raise_for_status (live_session version c) = true ->
  reply (script 0%nat) = Responded r ->
  400 <= status r ->
  exists c' w',
    _request version method endpoint request_data response_model script (c, w)
    = (Raise (ManyChatAPIError None None), (c', w'))
    /\ sent (events w')
       = exchange_of version c method endpoint request_data :: sent (events w)
    /\ backoffs (events w') = backoffs (events w).
Proof.
  intros Hl Hs Hreply Hst.
  destruct (request_ends_at_first_attempt version method endpoint request_data
              response_model script c w Hl) as (c' & w' & Hrun & _ & Hsent & Hback).
  - rewrite Hreply, (try_block_raising_session _ _ r Hs Hst). reflexivity.
  - exists c', w'.
    rewrite Hrun, Hreply, (try_block_raising_session _ _ r Hs Hst). auto.
Qed.

(** On a session that leaves the status to the caller (such as the one
    the test fixtures put in), a first answer of 401 with a JSON document
    ends the call in [ManyChatAuthError] after one exchange. *)
Lemma status_401_on_plain_session
    (version : string) (T : Type) (method endpoint : string)
    (request_data : option (list (string * pyval)))
    (response_model : ResponseModel T) (script : nat -> Env)
    (c : ManyChatClient) (w : World) (r : Response) (data : json) :
  locked c = false ->
  raise_for_status (live_session version c) = false ->
  reply (script 0%nat) = Responded r ->
  status r = 401 ->
  body r = JsonBody data ->
  exists c' w',
    _request version method endpoint request_data response_model script (c, w)
    = (Raise ManyChatAuthError, (c', w'))
    /\ sent (events w')
       = exchange_of version c method endpoint request_data :: sent (events w)
    /\ backoffs (events w') = backoffs (events w).
Proof.
  intros Hl Hs Hreply Hst Hbody.
  assert (Htry : try_block (live_session version c) response_model (reply (script 0%nat))
                 = Raise ManyChatAuthError).
  { rewrite Hreply, (try_block_plain_session _ _ r data Hs) by (lia || exact Hbody).
    rewrite (check_status_401 r data Hst). reflexivity. }
  destruct (request_ends_at_first_attempt version method endpoint request_data
              response_model script c w Hl) as (c' & w' & Hrun & _ & Hsent & Hback).
  - rewrite Htry. reflexivity.
  - exists c', w'. rewrite Hrun, Htry. auto.
Qed.

(** C3, on the code.  A new client starts its own session; when the
    server answers 401, the call sends one exchange and raises
    [ManyChatAPIError], not [ManyChatAuthError]. *)
Theorem status_401_on_started_session :
  exists c o c' w',
    ManyChatClient_init None (sources_with_key "key") = Ok c
    /\ _request "1.0" "GET" "fb/page/getInfo" None BaseResponse
         (fun _ => answering 401 [] (JObj [])) (c, at_noon)
       = (o, (c', w'))
    /\ o = Raise (ManyChatAPIError None None)
    /\ o <> Raise ManyChatAuthError
    /\ _session c' = Some (new_session "1.0" (config c))
    /\ length (sent (events w')) = 1%nat
    /\ backoffs (events w') = [].
Proof.
  eexists. eexists. eexists. eexists.
  split; [reflexivity|].
  split; [vm_compute; reflexivity|].
  split; [reflexivity|]. split; [discriminate|].
  split; [reflexivity|]. split; reflexivity.
Qed.

(* ===================================================================== *)
(** ** Rate-limit answers *)
(* ===================================================================== *)

Lemma try_block_429 {T} (s : ClientSession) (response_model : ResponseModel T)
    (r : Response) (data : json) (n : Z) :
  raise_for_status s = false ->
  status r = 429 ->
  body r = JsonBody data ->
  retry_after_of r = Ok n ->
  try_block s response_model (Responded r) = Raise (ManyChatRateLimitError (Some n)).
Proof.
  intros Hs Hst Hbody Hra.
  rewrite (try_block_plain_session s response_model r data Hs) by (lia || exact Hbody).
  rewrite (check_status_429 r data Hst), Hra. reflexivity.
Qed.

(** C4, as the claim states it, fails for a header that is no integer:
    [int] raises [ValueError], which leaves the call at once; no
    [ManyChatRateLimitError] with 60 seconds is raised. *)
Lemma unparseable_retry_after_raises_value_error :
  exists o c' w',
    py_int "soon" = None
    /\ headers_get "Retry-After" [("Retry-After", "soon")] = Some "soon"
    /\ _request "1.0" "GET" "fb/page/getInfo" None BaseResponse
         (fun _ => answering 429 [("Retry-After", "soon")] (JObj []))
         (client_with_plain_session (default_config_with_limit 100), at_noon)
       = (o, (c', w'))
    /\ o = Raise ValueError
    /\ o <> Raise (ManyChatRateLimitError (Some 60)).
Proof.
  eexists. eexists. eexists.
  split; [reflexivity|]. split; [reflexivity|].
  split; [vm_compute; reflexivity|].
  split; [reflexivity | discriminate].
Qed.

(** C4, amended.  For a response with status 429 and a JSON document, on
    a session that leaves the status to the caller, the attempt raises
    [ManyChatRateLimitError] whose [retry_after] is 60 when the response
    has no [Retry-After] header, and the integer [int] reads from the
    header when it has one that [int] accepts. *)
Theorem rate_limit_error_carries_retry_after :
  forall (T : Type) (response_model : ResponseModel T) (s : ClientSession)
         (r : Response) (data : json),
    raise_for_status s = false ->
    status r = 429 ->
    body r = JsonBody data ->
    (headers_get "Retry-After" (headers r) = None ->
     try_block s response_model (Responded r)
     = Raise (ManyChatRateLimitError (Some 60)))
    /\ (forall text n,
          headers_get "Retry-After" (headers r) = Some text ->
          py_int text = Some n ->
          try_block s response_model (Responded r)
          = Raise (ManyChatRateLimitError (Some n))).
Proof.
  intros T response_model s r data Hs Hst Hbody. split.
  - intro Hnone. apply (try_block_429 s response_model r data 60 Hs Hst Hbody).
    unfold retry_after_of. rewrite Hnone. reflexivity.
  - intros text n Hsome Hint.
    apply (try_block_429 s response_model r data n Hs Hst Hbody).
    unfold retry_after_of. rewrite Hsome, Hint. reflexivity.
Qed.

Lemma rate_limit_error_carries_retry_after_witness :
  try_block {| default_headers := []; total_timeout := 30;
               raise_for_status := false; closed := false |}
    BaseResponse
    (Responded {| status := 429; headers := [("Retry-After", "45")];
                  body := JsonBody (JObj []) |})
  = Raise (ManyChatRateLimitError (Some 45))
  /\ try_block {| default_headers := []; total_timeout := 30;
                  raise_for_status := false; closed := false |}
       BaseResponse
       (Responded {| status := 429; headers := [];
                     body := JsonBody (JObj []) |})
     = Raise (ManyChatRateLimitError (Some 60)).
Proof.
  split.
  - apply (rate_limit_error_carries_retry_after BaseResponseValue BaseResponse
             {| default_headers := []; total_timeout := 30;
                raise_for_status := false; closed := false |}
             {| status := 429; headers := [("Retry-After", "45")];
                body := JsonBody (JObj []) |}
             (JObj []) eq_refl eq_refl eq_refl) with (text := "45");
      reflexivity.
  - apply (rate_limit_error_carries_retry_after BaseResponseValue BaseResponse
             {| default_headers := []; total_timeout := 30;
                raise_for_status := false; closed := false |}
             {| status := 429; headers := []; body := JsonBody (JObj []) |}
             (JObj []) eq_refl eq_refl eq_refl).
    reflexivity.
Defined.

Section RateLimited.

Variable version : string.
Context {T : Type}.
Variables (method endpoint : string).
Variable request_data : option (list (string * pyval)).
Variable response_model : ResponseModel T.
Variable script : nat -> Env.
Variable r : nat -> Response.
Variable data : nat -> json.
Variable seconds : nat -> Z.

Hypothesis answers : forall n, reply (script n) = Responded (r n).
Hypothesis too_many : forall n, status (r n) = 429.
Hypothesis documents : forall n, body (r n) = JsonBody (data n).
Hypothesis retry_afters : forall n, retry_after_of (r n) = Ok (seconds n).

(** When every answer is a 429 the decorator retries: the call sends
    three exchanges, whatever [max_retries] is configured, sleeps twice,
    for the jitter sample times 1 and times 2, and raises the error of
    the third answer. *)
Lemma rate_limited_call (c : ManyChatClient) (w : World) :
  locked c = false ->
  raise_for_status (live_session version c) = false ->
  exists c' w',
    _request version method endpoint request_data response_model script (c, w)
    = (Raise (ManyChatRateLimitError (Some (seconds 2%nat))), (c', w'))
    /\ sent (events w')
       = (repeat (exchange_of version c method endpoint request_data) 3
          ++ sent (events w))%list
    /\ backoffs (events w')
       = ([full_jitter (jitter (script 1%nat)) (expo 1);
           full_jitter (jitter (script 0%nat)) (expo 0)]
          ++ backoffs (events w))%list.
Proof.
  intros Hl Hs.
  assert (Htry : forall n,
             try_block (live_session version c) response_model (reply (script n))
             = Raise (ManyChatRateLimitError (Some (seconds n)))).
  { intro n. rewrite answers.
    apply (try_block_429 _ _ (r n) (data n) (seconds n) Hs
             (too_many n) (documents n) (retry_afters n)). }
  unfold _request. change (max_tries - 1)%nat with 2%nat.
  destruct (attempt_unlocked version method endpoint request_data response_model
              (script 0%nat) c w Hl)
    as (c1 & w1 & Hrun1 & Hcfg1 & Hsess1 & Hl1 & Hsent1 & Hback1).
  rewrite retry_exception_step, Hrun1, Htry. cbn [retryable fst snd]. cbv zeta.
  pose proof (live_session_fixed version c c1 Hcfg1 Hsess1) as Hlive1.
  match goal with
  | |- context [retry_exception _ script 1 1 (c1, ?w1')] =>
      destruct (attempt_unlocked version method endpoint request_data response_model
                  (script 1%nat) c1 w1' Hl1)
        as (c2 & w2 & Hrun2 & Hcfg2 & Hsess2 & Hl2 & Hsent2 & Hback2)
  end.
  rewrite retry_exception_step, Hrun2, Hlive1, Htry. cbn [retryable fst snd]. cbv zeta.
  assert (Hlive2 : live_session version c2 = live_session version c).
  { rewrite <- Hlive1. apply live_session_fixed; [exact Hcfg2 | exact Hsess2]. }
  match goal with
  | |- context [retry_exception _ script 0 2 (c2, ?w2')] =>
      destruct (attempt_unlocked version method endpoint request_data response_model
                  (script 2%nat) c2 w2' Hl2)
        as (c3 & w3 & Hrun3 & Hcfg3 & Hsess3 & Hl3 & Hsent3 & Hback3)
  end.
  rewrite retry_exception_step, Hrun3, Hlive2, Htry. cbn [retryable].
  exists c3, w3. split; [reflexivity|].
  assert (Hx1 : exchange_of version c1 method endpoint request_data
                = exchange_of version c method endpoint request_data).
  { unfold exchange_of. rewrite Hlive1, Hcfg1. reflexivity. }
  assert (Hx2 : exchange_of version c2 method endpoint request_data
                = exchange_of version c method endpoint request_data).
  { unfold exchange_of. rewrite Hlive2, Hcfg2, Hcfg1. reflexivity. }
  cbn [events sent backoffs] in Hsent2, Hback2, Hsent3, Hback3.
  split.
  - rewrite Hsent3, Hx2, Hsent2, Hx1, Hsent1. reflexivity.
  - rewrite Hback3, Hback2, Hback1. reflexivity.
Qed.

End RateLimited.

(** The two backoff sleeps need not grow: with the samples 9/10 and then
    1/10 the first sleep lasts 9/10 of a second and the second 2/10. *)
Example backoff_sleeps_need_not_grow :
  exists c' w',
    _request "1.0" "GET" "fb/page/getInfo" None BaseResponse
      (fun n => {| gap := 0; lag := 0;
                   reply := Responded {| status := 429; headers := [];
                                         body := JsonBody (JObj []) |};
                   jitter := match n with O => 9 # 10 | _ => 1 # 10 end |})
      (client_with_plain_session (default_config_with_limit 100), at_noon)
    = (Raise (ManyChatRateLimitError (Some 60)), (c', w'))
    /\ length (sent (events w')) = 3%nat
    /\ map Qred (backoffs (events w')) = [1 # 5; 9 # 10]%Q.
Proof.
  eexists. eexists. split; [vm_compute; reflexivity|].
  split; reflexivity.
Qed.

(* ===================================================================== *)
(** ** More on the executor: the state a call leaves *)
(* ===================================================================== *)

Section AttemptState.

Variable version : string.
Context {T : Type}.
Variables (method endpoint : string).
Variable request_data : option (list (string * pyval)).
Variable response_model : ResponseModel T.

Lemma started_semaphore (c : ManyChatClient) :
  _rate_limit_semaphore (started version c) = _rate_limit_semaphore c.
Proof. unfold started. destruct (session_unusable c); reflexivity. Qed.

Lemma recorded_at_started (e : Env) (c : ManyChatClient) (w : World) :
  recorded_at e (started version c) w = recorded_at e c w.
Proof.
  unfold recorded_at, elapsed_at, started.
  destruct (session_unusable c); reflexivity.
Qed.

Lemma elapsed_at_started (e : Env) (c : ManyChatClient) (w : World) :
  elapsed_at e (started version c) w = elapsed_at e c w.
Proof.
  unfold elapsed_at, started. destruct (session_unusable c); reflexivity.
Qed.

(** One attempt with a free permit, with the state it leaves. *)
Lemma attempt_run (e : Env) (c : ManyChatClient) (w : World) :
  locked c = false ->
  _request_attempt version method endpoint request_data response_model e (c, w)
  = (try_block (live_session version c) response_model (reply e),
     ({| config := config c;
         _session := Some (live_session version c);
         _rate_limit_semaphore := (_rate_limit_semaphore c - 1 + 1)%Q;
         _last_request_time := recorded_at e c w |},
      {| clock := recorded_at e c w;
         events := Sent (exchange_of version c method endpoint request_data)
                   :: ((if Qlt_bool (elapsed_at e c w) 1
                        then [Pacing (1 - elapsed_at e c w)%Q] else [])
                       ++ events w)%list |})).
Proof.
  intro H.
  unfold _request_attempt.
  unfold bind at 1. unfold get_client at 1. cbn [fst].
  unfold bind at 1. rewrite ensure_started. cbv iota beta.
  unfold bind at 1. unfold get_client at 1. cbv iota beta. cbn [fst].
  unfold bind at 1.
  rewrite enforce_rate_limit_unlocked by (rewrite started_locked; exact H).
  cbv iota beta.
  unfold bind at 1. unfold get_client at 1. cbv iota beta. cbn [fst _session].
  rewrite started_session.
  unfold bind, emit, lift. cbv iota beta. cbn [clock events].
  rewrite started_config, started_semaphore, recorded_at_started, elapsed_at_started.
  reflexivity.
Qed.

End AttemptState.

(** The only exception of the [try] statement that the decorator retries
    on is the rate-limit error of a 429 that reached the status checks. *)
Lemma try_block_retryable {T} (s : ClientSession) (response_model : ResponseModel T)
    (reply : NetOutcome) (ex : exn) :
  try_block s response_model reply = Raise ex ->
  retryable ex = true ->
  raise_for_status s = false
  /\ exists r n,
       reply = Responded r /\ status r = 429
       /\ ex = ManyChatRateLimitError (Some n).
Proof.
  intros H Hr.
  unfold try_block, session_request, response_json, check_status,
    retry_after_of, parse_response in H.
  destruct reply as [| |r]; cbn in H;
    try (inversion H; subst; discriminate Hr).
  destruct (raise_for_status s) eqn:Hs; cbn in H.
  - destruct (400 <=? status r) eqn:E; cbn in H.
    + inversion H; subst; discriminate Hr.
    + destruct (body r); cbn in H; try (inversion H; subst; discriminate Hr).
      rewrite E in H. cbn in H.
      destruct (parse_obj response_model data); inversion H; subst; discriminate Hr.
  - split; [reflexivity|].
    destruct (body r); cbn in H; try (inversion H; subst; discriminate Hr).
    destruct (400 <=? status r); cbn in H.
    + destruct (status r =? 401) eqn:E1; cbn in H.
      * inversion H; subst; discriminate Hr.
      * destruct (status r =? 429) eqn:E2; cbn in H.
        -- apply Z.eqb_eq in E2.
           destruct (headers_get "Retry-After" (headers r)) as [text|]; cbn in H.
           ++ destruct (py_int text) as [n|]; cbn in H.
              ** inversion H; subst. exists r, n. auto.
              ** inversion H; subst; discriminate Hr.
           ++ inversion H; subst. exists r, 60. auto.
        -- inversion H; subst; discriminate Hr.
    + destruct (parse_obj response_model data); inversion H; subst; discriminate Hr.
Qed.

Lemma backoff_sleeps_first (script : nat -> Env) (first count : nat) :
  backoff_sleeps script first (S count)
  = (backoff_sleeps script (S first) count
     ++ [full_jitter (jitter (script first)) (expo first)])%list.
Proof. unfold backoff_sleeps. cbn [seq map rev]. reflexivity. Qed.

Lemma inject_nat_succ (n : nat) :
  (inject_Z (Z.of_nat (S n)) == inject_Z (Z.of_nat n) + 1)%Q.
Proof. rewrite Nat2Z.inj_succ. unfold Z.succ. rewrite inject_Z_plus. reflexivity. Qed.

Section RetryState.

Variable version : string.
Context {T : Type}.
Variables (method endpoint : string).
Variable request_data : option (list (string * pyval)).
Variable response_model : ResponseModel T.
Variable script : nat -> Env.

Local Abbreviation attempt :=
  (_request_attempt version method endpoint request_data response_model).

(** The decorator's loop from a client with a free permit: it makes [n]
    attempts, between one and [left + 1]; every attempt but the last
    ended in a rate-limit error and was followed by one backoff sleep; the
    outcome is that of the last attempt; the configuration, the session
    and the value of the semaphore are those of the first attempt; and
    when no clock reading is early, the recorded last-request time has
    moved on by at least one second for each attempt. *)
Lemma retry_run (left : nat) :
  forall (tries : nat) (c : ManyChatClient) (w : World),
    locked c = false ->
    exists o c' w' n,
      retry_exception attempt script left tries (c, w) = (o, (c', w'))
      /\ (1 <= n <= S left)%nat
      /\ sent (events w')
         = (repeat (exchange_of version c method endpoint request_data) n
            ++ sent (events w))%list
      /\ backoffs (events w')
         = (backoff_sleeps script tries (n - 1) ++ backoffs (events w))%list
      /\ config c' = config c
      /\ _session c' = Some (live_session version c)
      /\ (_rate_limit_semaphore c' == _rate_limit_semaphore c)%Q
      /\ o = try_block (live_session version c) response_model
               (reply (script (tries + (n - 1))%nat))
      /\ (forall k, (k < n - 1)%nat ->
            exists seconds,
              try_block (live_session version c) response_model
                (reply (script (tries + k)%nat))
              = Raise (ManyChatRateLimitError (Some seconds)))
      /\ ((n < S left)%nat ->
          match o with Raise ex => retryable ex = false | _ => True end)
      /\ ((forall k, (0 <= lag (script k))%Q) ->
          (_last_request_time c + inject_Z (Z.of_nat n)
           <= _last_request_time c')%Q).
Proof.
  induction left as [|left' IH]; intros tries c w Hl;
    rewrite retry_exception_step, (attempt_run version _ _ _ _ _ c w Hl).
  - (* no attempt may follow *)
    exists (try_block (live_session version c) response_model
              (reply (script tries))).
    eexists. eexists. exists 1%nat.
    split.
    { destruct (try_block (live_session version c) response_model
                  (reply (script tries))) as [a|ex|]; try reflexivity.
      destruct (retryable ex); reflexivity. }
    cbn [config _session _rate_limit_semaphore _last_request_time events
         sent backoffs].
    replace (tries + (1 - 1))%nat with tries by lia.
    split; [lia|]. split.
    { destruct (Qlt_bool (elapsed_at (script tries) c w) 1); reflexivity. }
    split.
    { destruct (Qlt_bool (elapsed_at (script tries) c w) 1); reflexivity. }
    split; [reflexivity|]. split; [reflexivity|]. split; [ring|].
    split; [reflexivity|]. split; [intros k Hk; lia|]. split; [intro Hn; lia|].
    intro Hlag. pose proof (recorded_at_spacing (script tries) c w (Hlag tries)).
    change (inject_Z (Z.of_nat 1)) with 1%Q. exact H.
  - destruct (try_block (live_session version c) response_model
                (reply (script tries))) as [a|ex|] eqn:Htry.
    + eexists. eexists. eexists. exists 1%nat.
      split; [reflexivity|].
      cbn [config _session _rate_limit_semaphore _last_request_time events
           sent backoffs].
      replace (tries + (1 - 1))%nat with tries by lia.
      split; [lia|]. split.
      { destruct (Qlt_bool (elapsed_at (script tries) c w) 1); reflexivity. }
      split.
      { destruct (Qlt_bool (elapsed_at (script tries) c w) 1); reflexivity. }
      split; [reflexivity|]. split; [reflexivity|]. split; [ring|].
      split; [symmetry; exact Htry|]. split; [intros k Hk; lia|].
      split; [intro; exact I|].
      intro Hlag. pose proof (recorded_at_spacing (script tries) c w (Hlag tries)).
      change (inject_Z (Z.of_nat 1)) with 1%Q. exact H.
    + destruct (retryable ex) eqn:Hretry.
      * (* a rate-limit error: sleep, then go on *)
        cbv zeta. cbn [fst snd clock events].
        destruct (try_block_retryable _ _ _ _ Htry Hretry)
          as (_ & r & seconds & _ & _ & Hex).
        match goal with
        | |- context [retry_exception _ script left' (S tries) (?c1, ?w1)] =>
            assert (Hl1 : locked c1 = false)
              by (apply locked_after_release; exact Hl);
            destruct (IH (S tries) c1 w1 Hl1)
              as (o & c2 & w2 & n & Hrec & Hn & Hsent & Hback & Hcfg & Hsess
                  & Hsem & Ho & Hearlier & Hlast & Hpaced);
            assert (Hlive : live_session version c1 = live_session version c)
              by (apply live_session_fixed; reflexivity);
            assert (Hx : exchange_of version c1 method endpoint request_data
                         = exchange_of version c method endpoint request_data)
              by (apply exchange_of_fixed; reflexivity)
        end.
        cbn [config _session _rate_limit_semaphore _last_request_time events
             sent backoffs] in Hsent, Hback, Hcfg, Hsess, Hsem, Hpaced.
        rewrite Hlive in Hsess, Ho, Hearlier. rewrite Hx in Hsent.
        exists o, c2, w2, (S n).
        split; [exact Hrec|]. split; [lia|]. split.
        { rewrite Hsent.
          replace (sent ((if Qlt_bool (elapsed_at (script tries) c w) 1
                          then [Pacing (1 - elapsed_at (script tries) c w)%Q]
                          else []) ++ events w)%list)
            with (sent (events w))
            by (destruct (Qlt_bool (elapsed_at (script tries) c w) 1); reflexivity).
          change (exchange_of version c method endpoint request_data
                  :: sent (events w))
            with (([exchange_of version c method endpoint request_data]
                   ++ sent (events w))%list).
          rewrite app_assoc, <- repeat_cons. reflexivity. }
        split.
        { rewrite Hback.
          replace (backoffs ((if Qlt_bool (elapsed_at (script tries) c w) 1
                              then [Pacing (1 - elapsed_at (script tries) c w)%Q]
                              else []) ++ events w)%list)
            with (backoffs (events w))
            by (destruct (Qlt_bool (elapsed_at (script tries) c w) 1); reflexivity).
          replace (S n - 1)%nat with (S (n - 1)) by lia.
          rewrite backoff_sleeps_first, <- app_assoc. reflexivity. }
        split; [exact Hcfg|]. split; [exact Hsess|].
        split; [rewrite Hsem; ring|].
        split.
        { rewrite Ho. f_equal. f_equal. f_equal. lia. }
        split.
        { intros k Hk. destruct k as [|k'].
          - exists seconds. rewrite Nat.add_0_r, Htry, Hex. reflexivity.
          - destruct (Hearlier k') as (s' & Hs'); [lia|].
            exists s'. rewrite <- Hs'. f_equal. f_equal. f_equal. lia. }
        split.
        { intro Hlt. apply Hlast. lia. }
        intro Hlag. specialize (Hpaced Hlag).
        pose proof (recorded_at_spacing (script tries) c w (Hlag tries)) as Hstep.
        rewrite inject_nat_succ. lra.
      * eexists. eexists. eexists. exists 1%nat.
        split; [reflexivity|].
        cbn [config _session _rate_limit_semaphore _last_request_time events
             sent backoffs].
        replace (tries + (1 - 1))%nat with tries by lia.
        split; [lia|]. split.
        { destruct (Qlt_bool (elapsed_at (script tries) c w) 1); reflexivity. }
        split.
        { destruct (Qlt_bool (elapsed_at (script tries) c w) 1); reflexivity. }
        split; [reflexivity|]. split; [reflexivity|]. split; [ring|].
        split; [symmetry; exact Htry|]. split; [intros k Hk; lia|].
        split; [intro; exact Hretry|].
        intro Hlag. pose proof (recorded_at_spacing (script tries) c w (Hlag tries)).
        change (inject_Z (Z.of_nat 1)) with 1%Q. exact H.
    + eexists. eexists. eexists. exists 1%nat.
      split; [reflexivity|].
      cbn [config _session _rate_limit_semaphore _last_request_time events
           sent backoffs].
      replace (tries + (1 - 1))%nat with tries by lia.
      split; [lia|]. split.
      { destruct (Qlt_bool (elapsed_at (script tries) c w) 1); reflexivity. }
      split.
      { destruct (Qlt_bool (elapsed_at (script tries) c w) 1); reflexivity. }
      split; [reflexivity|]. split; [reflexivity|]. split; [ring|].
      split; [symmetry; exact Htry|]. split; [intros k Hk; lia|].
      split; [intro; exact I|].
      intro Hlag. pose proof (recorded_at_spacing (script tries) c w (Hlag tries)).
      change (inject_Z (Z.of_nat 1)) with 1%Q. exact H.
Qed.

End RetryState.

(* ===================================================================== *)
(** ** More on the executor: what a call does *)
(* ===================================================================== *)

(** X1.  A call of [_request] on a client with a free permit makes one,
    two or three attempts, sends the same exchange on each, and sleeps
    for one backoff between two attempts: the sample of the attempt
    times 1 after the first, times 2 after the second. *)
Theorem request_attempts_and_sleeps :
  forall (version : string) (T : Type) (method endpoint : string)
         (request_data : option (list (string * pyval)))
         (response_model : ResponseModel T) (script : nat -> Env)
         (c : ManyChatClient) (w : World),
    locked c = false ->
    exists o c' w' n,
      _request version method endpoint request_data response_model script (c, w)
      = (o, (c', w'))
      /\ (1 <= n <= 3)%nat
      /\ sent (events w')
         = (repeat (exchange_of version c method endpoint request_data) n
            ++ sent (events w))%list
      /\ backoffs (events w')
         = (backoff_sleeps script 0 (n - 1) ++ backoffs (events w))%list
      /\ length (backoff_sleeps script 0 (n - 1)) = (n - 1)%nat.
Proof.
  intros version T method endpoint request_data response_model script c w Hl.
  destruct (retry_run version method endpoint request_data response_model script
              (max_tries - 1) 0%nat c w Hl)
    as (o & c' & w' & n & Hrun & Hn & Hsent & Hback & _).
  exists o, c', w', n. split; [exact Hrun|]. split; [exact Hn|].
  split; [exact Hsent|]. split; [exact Hback|].
  unfold backoff_sleeps. rewrite length_rev, length_map, length_seq. reflexivity.
Qed.

Lemma request_attempts_and_sleeps_witness :
  exists o c' w' n,
    _request "1.0" "GET" "fb/page/getInfo" None BaseResponse
      (fun _ => answering 429 [] (JObj []))
      (client_with_plain_session (default_config_with_limit 100), at_noon)
    = (o, (c', w'))
    /\ (1 <= n <= 3)%nat
    /\ length (sent (events w')) = n.
Proof.
  destruct (request_attempts_and_sleeps
              "1.0" BaseResponseValue "GET" "fb/page/getInfo" None BaseResponse
              (fun _ => answering 429 [] (JObj []))
              (client_with_plain_session (default_config_with_limit 100)) at_noon
              eq_refl)
    as (o & c' & w' & n & Hrun & Hn & Hsent & _).
  exists o, c', w', n. split; [exact Hrun|]. split; [exact Hn|].
  rewrite Hsent, length_app, repeat_length. cbn. lia.
Defined.



(** X3.  An attempt is repeated only after a 429 that reached the status
    checks: when a call sends more than one exchange, the session does
    not raise for the status itself and every answer but the last had
    status 429; and a call that stops before the third attempt stops on
    a value or on an exception the decorator does not retry on. *)
Theorem retry_only_after_rate_limit :
  forall (version : string) (T : Type) (method endpoint : string)
         (request_data : option (list (string * pyval)))
         (response_model : ResponseModel T) (script : nat -> Env)
         (c : ManyChatClient) (w : World),
    locked c = false ->
    exists o c' w' n,
      _request version method endpoint request_data response_model script (c, w)
      = (o, (c', w'))
      /\ length (sent (events w')) = (n + length (sent (events w)))%nat
      /\ (forall k, (k < n - 1)%nat ->
            raise_for_status (live_session version c) = false
            /\ exists r, reply (script k) = Responded r /\ status r = 429)
      /\ ((n < 3)%nat ->
          match o with Raise ex => retryable ex = false | _ => True end).
Proof.
  intros version T method endpoint request_data response_model script c w Hl.
  destruct (retry_run version method endpoint request_data response_model script
              (max_tries - 1) 0%nat c w Hl)
    as (o & c' & w' & n & Hrun & _ & Hsent & _ & _ & _ & _ & _ & Hearlier & Hlast & _).
  exists o, c', w', n. split; [exact Hrun|]. split.
  { rewrite Hsent, length_app, repeat_length. reflexivity. }
  split; [|exact Hlast].
  intros k Hk. destruct (Hearlier k Hk) as (seconds & Htry).
  cbn [Nat.add] in Htry.
  destruct (try_block_retryable _ _ _ _ Htry eq_refl) as (Hs & r & m & Hr & Hst & _).
  split; [exact Hs|]. exists r. split; [exact Hr | exact Hst].
Qed.

Lemma retry_only_after_rate_limit_witness :
  exists o c' w' n,
    _request "1.0" "GET" "fb/page/getInfo" None BaseResponse
      (fun k => match k with
                | O => answering 429 [] (JObj [])
                | _ => answering 200 [] (JObj [])
                end)
      (client_with_plain_session (default_config_with_limit 100), at_noon)
    = (o, (c', w'))
    /\ length (sent (events w')) = (n + 0)%nat.
Proof.
  destruct (retry_only_after_rate_limit
              "1.0" BaseResponseValue "GET" "fb/page/getInfo" None BaseResponse
              (fun k => match k with
                        | O => answering 429 [] (JObj [])
                        | _ => answering 200 [] (JObj [])
                        end)
              (client_with_plain_session (default_config_with_limit 100)) at_noon
              eq_refl)
    as (o & c' & w' & n & Hrun & Hlen & _).
  exists o, c', w', n. split; [exact Hrun | exact Hlen].
Defined.




(** X5.  A connection failure or a timeout of the first attempt is not
    retried, on any session: the call sends one exchange, sleeps for no
    backoff, and raises [ManyChatAPIError] without status code. *)
Theorem transport_failure_is_not_retried :
  forall (version : string) (T : Type) (method endpoint : string)
         (request_data : option (list (string * pyval)))
         (response_model : ResponseModel T) (script : nat -> Env)
         (c : ManyChatClient) (w : World),
    locked c = false ->
    reply (script 0%nat) = ConnectionFailed \/ reply (script 0%nat) = TimedOut ->
    exists c' w',
      _request version method endpoint request_data response_model script (c, w)
      = (Raise (ManyChatAPIError None None), (c', w'))
      /\ sent (events w')
         = exchange_of version c method endpoint request_data :: sent (events w)
      /\ backoffs (events w') = backoffs (events w).
Proof.
  intros version T method endpoint request_data response_model script c w Hl Hnet.
  assert (Htry : try_block (live_session version c) response_model
                   (reply (script 0%nat)) = Raise (ManyChatAPIError None None)).
  { destruct Hnet as [H | H]; rewrite H; reflexivity. }
  destruct (request_ends_at_first_attempt version method endpoint request_data
              response_model script c w Hl) as (c' & w' & Hrun & _ & Hsent & Hback).
  - rewrite Htry. reflexivity.
  - exists c', w'. rewrite Hrun, Htry. auto.
Qed.

Lemma transport_failure_is_not_retried_witness :
  exists c' w',
    _request "1.0" "GET" "fb/page/getInfo" None BaseResponse
      (fun _ => {| gap := 5; lag := 0; reply := TimedOut; jitter := 1 # 2 |})
      (client_with_plain_session (default_config_with_limit 100), at_noon)
    = (Raise (ManyChatAPIError None None), (c', w'))
    /\ length (sent (events w')) = 1%nat.
Proof.
  destruct (transport_failure_is_not_retried
              "1.0" BaseResponseValue "GET" "fb/page/getInfo" None BaseResponse
              (fun _ => {| gap := 5; lag := 0; reply := TimedOut; jitter := 1 # 2 |})
              (client_with_plain_session (default_config_with_limit 100)) at_noon
              eq_refl (or_intror eq_refl))
    as (c' & w' & Hrun & Hsent & _).
  exists c', w'. split; [exact Hrun|]. rewrite Hsent. reflexivity.
Defined.

(** X6.  When the first answer has a status below 400 and a JSON document
    that the response model validates, the call returns the validated
    value after that one exchange, on any session; the [status] member
    of the document plays no part. *)
Theorem valid_document_is_returned :
  forall (version : string) (T : Type) (method endpoint : string)
         (request_data : option (list (string * pyval)))
         (response_model : ResponseModel T) (script : nat -> Env)
         (c : ManyChatClient) (w : World) (r : Response) (data : json) (v : T),
    locked c = false ->
    reply (script 0%nat) = Responded r ->
    status r < 400 ->
    body r = JsonBody data ->
    parse_obj response_model data = Some v ->
    exists c' w',
      _request version method endpoint request_data response_model script (c, w)
      = (Ok v, (c', w'))
      /\ sent (events w')
         = exchange_of version c method endpoint request_data :: sent (events w)
      /\ backoffs (events w') = backoffs (events w).
Proof.
  intros version T method endpoint request_data response_model script c w r data v
         Hl Hreply Hst Hbody Hparse.
  assert (Htry : try_block (live_session version c) response_model
                   (reply (script 0%nat)) = Ok v).
  { rewrite Hreply, (try_block_below_400 _ _ r data Hst Hbody).
    unfold parse_response. rewrite Hparse. reflexivity. }
  destruct (request_ends_at_first_attempt version method endpoint request_data
              response_model script c w Hl) as (c' & w' & Hrun & _ & Hsent & Hback).
  - rewrite Htry. exact I.
  - exists c', w'. rewrite Hrun, Htry. auto.
Qed.

(** The server answers 200 with a document whose [status] is ["error"]:
    [BaseResponse] validates it and the call returns. *)
Lemma valid_document_is_returned_witness :
  exists c' w',
    _request "1.0" "GET" "fb/page/getInfo" None BaseResponse
      (fun _ => answering 200 [] (JObj [("status", JStr "error")]))
      (client_with_plain_session (default_config_with_limit 100), at_noon)
    = (Ok BaseResponseInstance, (c', w'))
    /\ length (sent (events w')) = 1%nat.
Proof.
  destruct (valid_document_is_returned
              "1.0" BaseResponseValue "GET" "fb/page/getInfo" None BaseResponse
              (fun _ => answering 200 [] (JObj [("status", JStr "error")]))
              (client_with_plain_session (default_config_with_limit 100)) at_noon
              {| status := 200; headers := [];
                 body := JsonBody (JObj [("status", JStr "error")]) |}
              (JObj [("status", JStr "error")]) BaseResponseInstance)
    as (c' & w' & Hrun & Hsent & _); try reflexivity.
  exists c', w'. split; [exact Hrun|]. rewrite Hsent. reflexivity.
Defined.

(** X7.  On a session that leaves the status to the caller, a first answer
    with a JSON document and a status of 400 or more other than 401 and
    429 (400, 404, 409, 503, ...) ends the call after one exchange in
    the generic [ManyChatAPIError], which carries that status and the
    document; none of the more specific error classes is raised. *)
Theorem other_error_status_is_generic :
  forall (version : string) (T : Type) (method endpoint : string)
         (request_data : option (list (string * pyval)))
         (response_model : ResponseModel T) (script : nat -> Env)
         (c : ManyChatClient) (w : World) (r : Response) (data : json),
    locked c = false ->
    raise_for_status (live_session version c) = false ->
    reply (script 0%nat) = Responded r ->
    400 <= status r ->
    status r <> 401 ->
    status r <> 429 ->
    body r = JsonBody data ->
    exists c' w',
      _request version method endpoint request_data response_model script (c, w)
      = (Raise (ManyChatAPIError (Some (status r)) (Some data)), (c', w'))
      /\ sent (events w')
         = exchange_of version c method endpoint request_data :: sent (events w)
      /\ backoffs (events w') = backoffs (events w).
Proof.
  intros version T method endpoint request_data response_model script c w r data
         Hl Hs Hreply Hst H401 H429 Hbody.
  assert (Htry : try_block (live_session version c) response_model
                   (reply (script 0%nat))
                 = Raise (ManyChatAPIError (Some (status r)) (Some data))).
  { rewrite Hreply, (try_block_plain_session _ _ r data Hs Hst Hbody).
    unfold check_status.
    assert (E : (400 <=? status r) = true) by (apply Z.leb_le; exact Hst).
    assert (E1 : (status r =? 401) = false) by (apply Z.eqb_neq; exact H401).
    assert (E2 : (status r =? 429) = false) by (apply Z.eqb_neq; exact H429).
    rewrite E, E1, E2. reflexivity. }
  destruct (request_ends_at_first_attempt version method endpoint request_data
              response_model script c w Hl) as (c' & w' & Hrun & _ & Hsent & Hback).
  - rewrite Htry. reflexivity.
  - exists c', w'. rewrite Hrun, Htry. auto.
Qed.

Lemma other_error_status_is_generic_witness :
  exists c' w',
    _request "1.0" "GET" "fb/subscriber/getInfo" None BaseResponse
      (fun _ => answering 404 [] (JObj []))
      (client_with_plain_session (default_config_with_limit 100), at_noon)
    = (Raise (ManyChatAPIError (Some 404) (Some (JObj []))), (c', w'))
    /\ length (sent (events w')) = 1%nat.
Proof.
  destruct (other_error_status_is_generic
              "1.0" BaseResponseValue "GET" "fb/subscriber/getInfo" None BaseResponse
              (fun _ => answering 404 [] (JObj []))
              (client_with_plain_session (default_config_with_limit 100)) at_noon
              {| status := 404; headers := []; body := JsonBody (JObj []) |}
              (JObj []))
    as (c' & w' & Hrun & Hsent & _);
    try reflexivity; try (cbn; lia); try discriminate.
  exists c', w'. split; [exact Hrun|]. rewrite Hsent. reflexivity.
Defined.

(** X8.  When every answer has status 429, a JSON document and a
    [Retry-After] header that is absent or that [int] accepts, on a
    session that leaves the status to the caller, a call with a free
    permit makes exactly three attempts, whatever [max_retries] the
    configuration holds, sleeps for two backoffs, and raises the
    rate-limit error of the third answer. *)
Theorem rate_limit_on_every_attempt :
  forall (version : string) (T : Type) (method endpoint : string)
         (request_data : option (list (string * pyval)))
         (response_model : ResponseModel T) (script : nat -> Env)
         (r : nat -> Response) (data : nat -> json) (seconds : nat -> Z)
         (c : ManyChatClient) (w : World),
    locked c = false ->
    raise_for_status (live_session version c) = false ->
    (forall n, reply (script n) = Responded (r n)) ->
    (forall n, status (r n) = 429) ->
    (forall n, body (r n) = JsonBody (data n)) ->
    (forall n, retry_after_of (r n) = Ok (seconds n)) ->
    exists c' w',
      _request version method endpoint request_data response_model script (c, w)
      = (Raise (ManyChatRateLimitError (Some (seconds 2%nat))), (c', w'))
      /\ sent (events w')
         = (repeat (exchange_of version c method endpoint request_data) 3
            ++ sent (events w))%list
      /\ backoffs (events w')
         = (backoff_sleeps script 0 2 ++ backoffs (events w))%list.
Proof.
  intros version T method endpoint request_data response_model script r data
         seconds c w Hl Hs Hreply Hst Hbody Hra.
  exact (rate_limited_call version method endpoint request_data response_model
           script r data seconds Hreply Hst Hbody Hra c w Hl Hs).
Qed.

Lemma rate_limit_on_every_attempt_witness :
  exists c' w',
    _request "1.0" "GET" "fb/page/getInfo" None BaseResponse
      (fun n => answering 429 [("Retry-After", "7")] (JObj []))
      (client_with_plain_session
         {| api_key := "key"; api_version := "v1";
            base_url := "https://api.manychat.com/fb";
            timeout := 30; max_retries := 10; retry_delay := 1;
            rate_limit := 100; rate_window := 60; log_level := "INFO";
            debug := false; webhook_secret := None; cache_ttl := 300 |},
       at_noon)
    = (Raise (ManyChatRateLimitError (Some 7)), (c', w'))
    /\ length (sent (events w')) = 3%nat.
Proof.
  destruct (rate_limit_on_every_attempt
              "1.0" BaseResponseValue "GET" "fb/page/getInfo" None BaseResponse
              (fun n => answering 429 [("Retry-After", "7")] (JObj []))
              (fun _ => {| status := 429; headers := [("Retry-After", "7")];
                           body := JsonBody (JObj []) |})
              (fun _ => JObj []) (fun _ => 7)
              (client_with_plain_session
                 {| api_key := "key"; api_version := "v1";
                    base_url := "https://api.manychat.com/fb";
                    timeout := 30; max_retries := 10; retry_delay := 1;
                    rate_limit := 100; rate_window := 60; log_level := "INFO";
                    debug := false; webhook_secret := None; cache_ttl := 300 |})
              at_noon)
    as (c' & w' & Hrun & Hsent & _); try reflexivity.
  exists c', w'. split; [exact Hrun|]. rewrite Hsent. reflexivity.
Defined.

(** X9.  A 429 followed by a valid answer, on a session that leaves the
    status to the caller: when the first answer has status 429, a JSON
    document and a [Retry-After] header that is absent or that [int]
    accepts, and the second has a status below 400 and a JSON document
    that the response model validates, a call with a free permit sleeps
    for one backoff (the sample of the first attempt times 1), tries once
    more and returns the validated value of the second answer. *)
Theorem retry_recovers_after_rate_limit :
  forall (version : string) (T : Type) (method endpoint : string)
         (request_data : option (list (string * pyval)))
         (response_model : ResponseModel T) (script : nat -> Env)
         (c : ManyChatClient) (w : World)
         (r0 r1 : Response) (d0 d1 : json) (seconds : Z) (v : T),
    locked c = false ->
    raise_for_status (live_session version c) = false ->
    reply (script 0%nat) = Responded r0 ->
    status r0 = 429 ->
    body r0 = JsonBody d0 ->
    retry_after_of r0 = Ok seconds ->
    reply (script 1%nat) = Responded r1 ->
    status r1 < 400 ->
    body r1 = JsonBody d1 ->
    parse_obj response_model d1 = Some v ->
    exists c' w',
      _request version method endpoint request_data response_model script (c, w)
      = (Ok v, (c', w'))
      /\ sent (events w')
         = (repeat (exchange_of version c method endpoint request_data) 2
            ++ sent (events w))%list
      /\ backoffs (events w')
         = full_jitter (jitter (script 0%nat)) (expo 0) :: backoffs (events w).
Proof.
  intros version T method endpoint request_data response_model script c w
         r0 r1 d0 d1 seconds v Hl Hs Hreply0 Hst0 Hbody0 Hra Hreply1 Hst1 Hbody1
         Hparse.
  assert (H0 : try_block (live_session version c) response_model
                 (reply (script 0%nat))
               = Raise (ManyChatRateLimitError (Some seconds))).
  { rewrite Hreply0. apply (try_block_429 _ _ r0 d0 seconds Hs Hst0 Hbody0 Hra). }
  assert (H1 : try_block (live_session version c) response_model
                 (reply (script 1%nat)) = Ok v).
  { rewrite Hreply1, (try_block_below_400 _ _ r1 d1 Hst1 Hbody1).
    unfold parse_response. rewrite Hparse. reflexivity. }
  destruct (retry_run version method endpoint request_data response_model script
              (max_tries - 1) 0%nat c w Hl)
    as (o & c' & w' & n & Hrun & Hn & Hsent & Hback & _ & _ & _ & Ho
        & Hearlier & Hlast & _).
  cbn [Nat.add] in Ho, Hearlier.
  assert (n = 2%nat) as ->.
  { destruct n as [|[|[|n']]]; try lia.
    - exfalso. cbn in Ho. rewrite H0 in Ho. subst o.
      assert (Hfalse : retryable (ManyChatRateLimitError (Some seconds)) = false)
        by (apply Hlast; cbn; lia).
      discriminate Hfalse.
    - exfalso. destruct (Hearlier 1%nat) as (s' & Hs'); [lia|].
      rewrite H1 in Hs'. discriminate Hs'. }
  cbn in Ho. rewrite H1 in Ho. subst o.
  exists c', w'. split; [exact Hrun|]. split; [exact Hsent | exact Hback].
Qed.

Lemma retry_recovers_after_rate_limit_witness :
  exists c' w',
    _request "1.0" "GET" "fb/page/getInfo" None BaseResponse
      (fun k => match k with
                | O => answering 429 [] (JObj [])
                | _ => answering 200 [] (JObj [])
                end)
      (client_with_plain_session (default_config_with_limit 100), at_noon)
    = (Ok BaseResponseInstance, (c', w'))
    /\ length (sent (events w')) = 2%nat.
Proof.
  destruct (retry_recovers_after_rate_limit
              "1.0" BaseResponseValue "GET" "fb/page/getInfo" None BaseResponse
              (fun k => match k with
                        | O => answering 429 [] (JObj [])
                        | _ => answering 200 [] (JObj [])
                        end)
              (client_with_plain_session (default_config_with_limit 100)) at_noon
              {| status := 429; headers := []; body := JsonBody (JObj []) |}
              {| status := 200; headers := []; body := JsonBody (JObj []) |}
              (JObj []) (JObj []) 60 BaseResponseInstance)
    as (c' & w' & Hrun & Hsent & _); try reflexivity.
  exists c', w'. split; [exact Hrun|]. rewrite Hsent. reflexivity.
Defined.

Lemma backoff_sleeps_bounds (script : nat -> Env) (count : nat) :
  (forall k, (0 <= jitter (script k) <= 1)%Q) ->
  (count <= 2)%nat ->
  Forall (fun d => (0 <= d <= 2)%Q) (backoff_sleeps script 0 count)
  /\ (fold_right Qplus 0 (backoff_sleeps script 0 count) <= 3)%Q.
Proof.
  intros Hj Hc.
  pose proof (Hj 0%nat) as [H0 H0'].
  pose proof (Hj 1%nat) as [H1 H1'].
  assert (E0 : (full_jitter (jitter (script 0%nat)) (expo 0)
                == jitter (script 0%nat))%Q).
  { unfold full_jitter, expo. cbn. ring. }
  assert (E1 : (full_jitter (jitter (script 1%nat)) (expo 1)
                == 2 * jitter (script 1%nat))%Q).
  { unfold full_jitter, expo. cbn. ring. }
  destruct count as [|[|[|count']]]; try lia;
    unfold backoff_sleeps; cbn [seq map rev app fold_right].
  - split; [constructor | lra].
  - split; [|lra].
    constructor; [|constructor]. rewrite E0. lra.
  - split; [|lra].
    constructor; [rewrite E1; lra|].
    constructor; [rewrite E0; lra | constructor].
Qed.

(** X10.  When every sample of the jitter lies between 0 and 1, each
    backoff sleep of a call lasts between 0 and 2 seconds, there are at
    most two of them, and together they last at most 3 seconds. *)
Theorem backoff_sleeps_are_bounded :
  forall (version : string) (T : Type) (method endpoint : string)
         (request_data : option (list (string * pyval)))
         (response_model : ResponseModel T) (script : nat -> Env)
         (c : ManyChatClient) (w : World),
    locked c = false ->
    (forall k, (0 <= jitter (script k) <= 1)%Q) ->
    exists o c' w' slept,
      _request version method endpoint request_data response_model script (c, w)
      = (o, (c', w'))
      /\ backoffs (events w') = (slept ++ backoffs (events w))%list
      /\ (length slept <= 2)%nat
      /\ Forall (fun d => (0 <= d <= 2)%Q) slept
      /\ (fold_right Qplus 0 slept <= 3)%Q.
Proof.
  intros version T method endpoint request_data response_model script c w Hl Hj.
  destruct (retry_run version method endpoint request_data response_model script
              (max_tries - 1) 0%nat c w Hl)
    as (o & c' & w' & n & Hrun & Hn & _ & Hback & _).
  cbn in Hn.
  destruct (backoff_sleeps_bounds script (n - 1) Hj) as (Hall & Hsum); [lia|].
  exists o, c', w', (backoff_sleeps script 0 (n - 1)).
  split; [exact Hrun|]. split; [exact Hback|]. split.
  { unfold backoff_sleeps. rewrite length_rev, length_map, length_seq. lia. }
  split; [exact Hall | exact Hsum].
Qed.

Lemma backoff_sleeps_are_bounded_witness :
  exists o c' w' slept,
    _request "1.0" "GET" "fb/page/getInfo" None BaseResponse
      (fun _ => answering 429 [] (JObj []))
      (client_with_plain_session (default_config_with_limit 100), at_noon)
    = (o, (c', w'))
    /\ backoffs (events w') = (slept ++ [])%list
    /\ (fold_right Qplus 0 slept <= 3)%Q.
Proof.
  destruct (backoff_sleeps_are_bounded
              "1.0" BaseResponseValue "GET" "fb/page/getInfo" None BaseResponse
              (fun _ => answering 429 [] (JObj []))
              (client_with_plain_session (default_config_with_limit 100)) at_noon
              eq_refl)
    as (o & c' & w' & slept & Hrun & Hback & _ & _ & Hsum).
  - intro k. cbn. split; discriminate.
  - exists o, c', w', slept. split; [exact Hrun|]. split; [exact Hback | exact Hsum].
Defined.

(** X11.  The rate limiter paces the retries as well: when no clock
    reading is early, a call that makes [n] attempts moves the recorded
    last-request time on by at least [n] seconds, however short the
    backoff sleeps are. *)
Theorem attempts_of_a_call_are_paced :
  forall (version : string) (T : Type) (method endpoint : string)
         (request_data : option (list (string * pyval)))
         (response_model : ResponseModel T) (script : nat -> Env)
         (c : ManyChatClient) (w : World),
    locked c = false ->
    (forall k, (0 <= lag (script k))%Q) ->
    exists o c' w' n,
      _request version method endpoint request_data response_model script (c, w)
      = (o, (c', w'))
      /\ length (sent (events w')) = (n + length (sent (events w)))%nat
      /\ (1 <= n)%nat
      /\ (_last_request_time c + inject_Z (Z.of_nat n)
          <= _last_request_time c')%Q.
Proof.
  intros version T method endpoint request_data response_model script c w Hl Hlag.
  destruct (retry_run version method endpoint request_data response_model script
              (max_tries - 1) 0%nat c w Hl)
    as (o & c' & w' & n & Hrun & Hn & Hsent & _ & _ & _ & _ & _ & _ & _ & Hpaced).
  exists o, c', w', n. split; [exact Hrun|]. split.
  { rewrite Hsent, length_app, repeat_length. reflexivity. }
  split; [lia | exact (Hpaced Hlag)].
Qed.

Lemma attempts_of_a_call_are_paced_witness :
  exists o c' w' n,
    _request "1.0" "GET" "fb/page/getInfo" None BaseResponse
      (fun _ => {| gap := 0; lag := 0;
                   reply := Responded {| status := 429; headers := [];
                                         body := JsonBody (JObj []) |};
                   jitter := 0 |})
      (client_with_plain_session (default_config_with_limit 100), at_noon)
    = (o, (c', w'))
    /\ (1 <= n)%nat
    /\ (0 + inject_Z (Z.of_nat n) <= _last_request_time c')%Q.
Proof.
  destruct (attempts_of_a_call_are_paced
              "1.0" BaseResponseValue "GET" "fb/page/getInfo" None BaseResponse
              (fun _ => {| gap := 0; lag := 0;
                           reply := Responded {| status := 429; headers := [];
                                                 body := JsonBody (JObj []) |};
                           jitter := 0 |})
              (client_with_plain_session (default_config_with_limit 100)) at_noon
              eq_refl)
    as (o & c' & w' & n & Hrun & _ & Hn & Hpaced).
  - intro k. cbn. discriminate.
  - exists o, c', w', n. split; [exact Hrun|]. split; [exact Hn | exact Hpaced].
Defined.

Lemma request_without_permit (version : string) {T : Type}
    (method endpoint : string)
    (request_data : option (list (string * pyval)))
    (response_model : ResponseModel T) (script : nat -> Env)
    (c : ManyChatClient) (w : World) :
  locked c = true ->
  _request version method endpoint request_data response_model script (c, w)
  = (Hang, (started version c, w)).
Proof.
  intro Hl. unfold _request. rewrite retry_exception_step.
  rewrite attempt_locked by exact Hl. reflexivity.
Qed.

(** X12.  A rate limit of zero is accepted when the client is built, and
    the gate then never opens: every call stays suspended before the
    first exchange, sends nothing and raises nothing; at most it starts
    the session. *)
Theorem zero_rate_limit_blocks_every_call :
  forall (cfg : ManyChatConfig) (sources : ConfigInput),
    rate_limit cfg = 0 ->
    exists c,
      ManyChatClient_init (Some cfg) sources = Ok c
      /\ forall (version : string) (T : Type) (method endpoint : string)
                (request_data : option (list (string * pyval)))
                (response_model : ResponseModel T) (script : nat -> Env)
                (w : World),
           _request version method endpoint request_data response_model script
             (c, w)
           = (Hang, (started version c, w)).
Proof.
  intros cfg sources H0.
  unfold ManyChatClient_init, obind. rewrite H0.
  eexists. split; [reflexivity|].
  intros. apply request_without_permit. reflexivity.
Qed.

Lemma zero_rate_limit_blocks_every_call_witness :
  exists c,
    ManyChatClient_init (Some (default_config_with_limit 0)) no_input = Ok c
    /\ forall w,
         fst (_request "1.0" "GET" "fb/page/getInfo" None BaseResponse
                (fun _ => answering 200 [] (JObj [])) (c, w))
         = Hang.
Proof.
  destruct (zero_rate_limit_blocks_every_call (default_config_with_limit 0) no_input
              eq_refl) as (c & Hinit & Hrun).
  exists c. split; [exact Hinit|]. intro w. rewrite Hrun. reflexivity.
Defined.

(* ===================================================================== *)
(** ** The life of the session *)
(* ===================================================================== *)

Lemma start_run (version : string) (c : ManyChatClient) (w : World) :
  start version (c, w) = (Ok tt, (started version c, w)).
Proof.
  unfold started, start, bind, get_client, set_session, ret.
  cbn. destruct (session_unusable c); reflexivity.
Qed.

Lemma started_usable (version : string) (c : ManyChatClient) :
  session_unusable (started version c) = false.
Proof.
  unfold session_unusable. rewrite started_session. apply live_session_open.
Qed.

Lemma close_run (c : ManyChatClient) (w : World) :
  exists c',
    close (c, w) = (Ok tt, (c', w))
    /\ session_unusable c' = true
    /\ config c' = config c
    /\ _rate_limit_semaphore c' = _rate_limit_semaphore c
    /\ _last_request_time c' = _last_request_time c
    /\ close (c', w) = (Ok tt, (c', w)).
Proof.
  unfold close, bind, get_client, set_session, ret, session_unusable. cbn.
  destruct (_session c) as [s|] eqn:Hs.
  - destruct (closed s) eqn:Hc; cbn.
    + exists c. rewrite Hs, Hc. cbn. auto 10.
    + eexists. split; [reflexivity|]. cbn. auto 10.
  - exists c. rewrite Hs. auto 10.
Qed.

(** X13.  [start] gives the client a usable session and never fails: it
    keeps an open session as it is, also one put in from outside, and
    builds a new one from the configuration otherwise; a second [start]
    changes nothing.  [close] never fails either, leaves the client
    without a usable session, touches neither the configuration nor the
    world, and a second [close] changes nothing. *)
Theorem session_lifecycle :
  forall (version : string) (c : ManyChatClient) (w : World),
    (exists c1,
       start version (c, w) = (Ok tt, (c1, w))
       /\ session_unusable c1 = false
       /\ (session_unusable c = false -> c1 = c)
       /\ (session_unusable c = true ->
           _session c1 = Some (new_session version (config c)))
       /\ start version (c1, w) = (Ok tt, (c1, w)))
    /\ (exists c2,
          close (c, w) = (Ok tt, (c2, w))
          /\ session_unusable c2 = true
          /\ config c2 = config c
          /\ close (c2, w) = (Ok tt, (c2, w))).
Proof.
  intros version c w. split.
  - exists (started version c). split; [apply start_run|].
    split; [apply started_usable|]. split; [|split].
    + intro H. unfold started. rewrite H. reflexivity.
    + intro H. unfold started. rewrite H. reflexivity.
    + rewrite start_run. unfold started at 1.
      rewrite started_usable. reflexivity.
  - destruct (close_run c w) as (c2 & Hrun & Hun & Hcfg & _ & _ & Hagain).
    exists c2. auto.
Qed.

(** X14.  [async with client: body] runs the body on a client with a
    usable session; when the body returns or raises, the client is left
    without a usable session and the outcome of the body, value or
    exception, is the outcome of the whole statement. *)
Theorem context_manager_closes_the_session :
  forall (version : string) (A : Type) (body : M A)
         (c : ManyChatClient) (w : World),
    session_unusable (started version c) = false
    /\ match body (started version c, w) with
       | (Hang, st2) => async_with version body (c, w) = (Hang, st2)
       | (o, (c2, w2)) =>
           exists c3,
             async_with version body (c, w) = (o, (c3, w2))
             /\ session_unusable c3 = true
             /\ config c3 = config c2
       end.
Proof.
  intros version A body c w. split; [apply started_usable|].
  unfold async_with, __aenter__, __aexit__. rewrite start_run.
  destruct (body (started version c, w)) as [[a|ex|] [c2 w2]].
  - destruct (close_run c2 w2) as (c3 & Hrun & Hun & Hcfg & _).
    exists c3. rewrite Hrun. auto.
  - destruct (close_run c2 w2) as (c3 & Hrun & Hun & Hcfg & _).
    exists c3. rewrite Hrun. auto.
  - reflexivity.
Qed.

(** X15.  Reconnect on use: a call of [_request] after [close] does not
    send through the closed session; every exchange goes through a new
    session that [start] builds from the configuration, and with a free
    permit the client holds that session afterwards. *)
Theorem request_after_close_reconnects :
  forall (version : string) (T : Type) (method endpoint : string)
         (request_data : option (list (string * pyval)))
         (response_model : ResponseModel T) (script : nat -> Env)
         (c : ManyChatClient) (w : World),
    exists o c' w' n,
      bind close
        (fun _ => _request version method endpoint request_data response_model
                    script) (c, w)
      = (o, (c', w'))
      /\ sent (events w')
         = (repeat {| x_method := method;
                      x_url := urljoin (api_url (config c)) endpoint;
                      x_headers := default_headers (new_session version (config c));
                      x_json := option_map dict_exclude_none request_data |} n
            ++ sent (events w))%list
      /\ _session c' = Some (new_session version (config c))
      /\ (locked c = false -> (1 <= n)%nat).
Proof.
  intros version T method endpoint request_data response_model script c w.
  destruct (close_run c w) as (c1 & Hclose & Hun & Hcfg & Hsem & _).
  assert (Hlive : live_session version c1 = new_session version (config c)).
  { unfold live_session. unfold session_unusable in Hun.
    destruct (_session c1) as [s|]; [rewrite Hun|]; rewrite Hcfg; reflexivity. }
  assert (Hx : exchange_of version c1 method endpoint request_data
               = {| x_method := method;
                    x_url := urljoin (api_url (config c)) endpoint;
                    x_headers := default_headers (new_session version (config c));
                    x_json := option_map dict_exclude_none request_data |}).
  { unfold exchange_of. rewrite Hlive, Hcfg. reflexivity. }
  assert (Hlock : locked c1 = locked c).
  { unfold locked. rewrite Hsem. reflexivity. }
  unfold bind at 1. rewrite Hclose.
  destruct (locked c1) eqn:Hl1.
  - rewrite (request_without_permit version method endpoint request_data
               response_model script c1 w Hl1).
    exists Hang, (started version c1), w, 0%nat.
    split; [reflexivity|]. split; [reflexivity|]. split.
    + rewrite started_session, Hlive. reflexivity.
    + intro H. congruence.
  - destruct (retry_run version method endpoint request_data response_model script
                (max_tries - 1) 0%nat c1 w Hl1)
      as (o & c' & w' & n & Hrun & Hn & Hsent & _ & _ & Hsess & _).
    exists o, c', w', n. split; [exact Hrun|].
    rewrite Hx in Hsent. rewrite Hlive in Hsess.
    split; [exact Hsent|]. split; [exact Hsess|]. intro. lia.
Qed.

(* ===================================================================== *)
(** ** The request body, at every depth *)
(* ===================================================================== *)

(** X18.  [dict(exclude_none=True)] drops the [None] fields of models at
    every depth: in the converted value of a field that holds no plain
    dict, and so in the body of a request built from such fields, no
    dict has a null member, however deeply the models are nested (inside
    lists as well). *)
Theorem dump_has_no_null_member :
  forall v : pyval, no_plain_dict v -> no_null_member (dump v).
Proof.
  fix IH 1. intros [ | b | z | s | items | members | fields];
    cbn [dump no_null_member no_plain_dict]; try (intros; exact I).
  - induction items as [|x rest IHrest]; cbn [map]; [intros; exact I|].
    intros [Hx Hrest]. split; [apply IH; exact Hx | apply IHrest; exact Hrest].
  - intros [].
  - induction fields as [|[k v] rest IHrest]; [intros; exact I|].
    intros [Hv Hrest].
    destruct (is_none v) eqn:E; [apply IHrest; exact Hrest|].
    split; [|split; [apply IH; exact Hv | apply IHrest; exact Hrest]].
    intro Hnull. apply dump_null in Hnull. subst v. discriminate E.
Qed.

(** A model in a list in a model, with [None] fields at both depths. *)
Lemma dump_has_no_null_member_witness :
  no_null_member
    (dump (PModel [("a", PNone);
                   ("b", PList [PModel [("c", PNone); ("d", PInt 1)]])])).
Proof.
  apply dump_has_no_null_member. cbn. repeat split.
Defined.

(** A [None] inside a plain dict is not dropped: the value of a field
    declared [Any] or [Dict[str, Any]] goes out with its null member. *)
Example plain_dict_keeps_none :
  dict_exclude_none [("field_value", PDict [("a", PNone)]); ("note", PNone)]
  = [("field_value", JObj [("a", JNull)])].
Proof. reflexivity. Qed.

(* ===================================================================== *)
(** ** Response helpers *)
(* ===================================================================== *)

(** X20.  A paginated response is indexed like its list of items: its
    length is the number of items it holds (the [total] field plays no
    part), an index from [-len] up to [len - 1] gives an item and any
    other raises [IndexError], an index that is not negative gives the
    item at that place of the iteration, and [i - len] names the same
    item as [i]. *)
Theorem paginated_response_indexing :
  forall (A : Type) (p : PaginatedResponse A) (i : Z),
    PaginatedResponse_len p = Z.of_nat (length (PaginatedResponse_iter p))
    /\ (PaginatedResponse_getitem p i = None
        <-> i < - PaginatedResponse_len p \/ PaginatedResponse_len p <= i)
    /\ (0 <= i < PaginatedResponse_len p ->
        PaginatedResponse_getitem p i
        = nth_error (PaginatedResponse_iter p) (Z.to_nat i)
        /\ PaginatedResponse_getitem p (i - PaginatedResponse_len p)
           = PaginatedResponse_getitem p i).
Proof.
  intros A p i.
  unfold PaginatedResponse_len, PaginatedResponse_getitem, PaginatedResponse_iter.
  set (l := pg_data p). set (n := Z.of_nat (length l)).
  split; [reflexivity|]. split.
  - destruct (Z.leb_spec 0 i), (Z.ltb_spec i n); cbn [andb].
    + split; [|lia]. intro Hnone. apply nth_error_None in Hnone. lia.
    + destruct (Z.leb_spec (- n) i), (Z.ltb_spec i 0); cbn [andb];
        try lia; split; intros; try reflexivity; lia.
    + destruct (Z.leb_spec (- n) i), (Z.ltb_spec i 0); cbn [andb]; try lia.
      * split; [|lia]. intro Hnone. apply nth_error_None in Hnone. lia.
      * split; intros; [lia | reflexivity].
    + destruct (Z.leb_spec (- n) i), (Z.ltb_spec i 0); cbn [andb]; try lia.
  - intros [Hlo Hhi].
    assert (E1 : (0 <=? i) && (i <? n) = true).
    { apply andb_true_intro. split; [apply Z.leb_le | apply Z.ltb_lt]; lia. }
    rewrite E1. split; [reflexivity|].
    destruct (Z.leb_spec 0 (i - n)), (Z.ltb_spec (i - n) n); cbn [andb]; try lia.
    assert (E2 : (- n <=? i - n) && (i - n <? 0) = true).
    { apply andb_true_intro. split; [apply Z.leb_le | apply Z.ltb_lt]; lia. }
    rewrite E2. f_equal. f_equal. lia.
Qed.

Lemma paginated_response_indexing_witness :
  PaginatedResponse_getitem
    {| pg_data := ["a"; "b"; "c"]; pg_total := 40; pg_page := 1;
       pg_limit := 10; pg_has_more := true |} (-1)
  = PaginatedResponse_getitem
      {| pg_data := ["a"; "b"; "c"]; pg_total := 40; pg_page := 1;
         pg_limit := 10; pg_has_more := true |} 2.
Proof.
  destruct (paginated_response_indexing string
              {| pg_data := ["a"; "b"; "c"]; pg_total := 40; pg_page := 1;
                 pg_limit := 10; pg_has_more := true |} 2)
    as (_ & _ & H).
  destruct H as (_ & Hneg); [cbn; lia|]. exact Hneg.
Defined.

(* ===================================================================== *)
(** ** The text of a rate-limit error *)
(* ===================================================================== *)

(** X21.  The message of the rate-limit error that [_request] raises
    says the retry sentence twice when the retry-after value is not zero
    (the client writes it into the message and the exception class adds
    it again), and once when it is zero. *)
Theorem rate_limit_message_repeats_the_sentence :
  forall n : Z,
    (n <> 0 /\
     rate_limit_message n
     = ("Rate limit exceeded" ++ ". Retry after " ++ str_of_int n ++ " seconds")
       ++ ". Retry after " ++ str_of_int n ++ " seconds")%string
    \/ (n = 0 /\
        rate_limit_message n = "Rate limit exceeded. Retry after 0 seconds"%string).
Proof.
  intro n. unfold rate_limit_message, ManyChatRateLimitError_message.
  destruct (Z.eqb_spec n 0) as [-> | Hne].
  - right. split; reflexivity.
  - left. split; [exact Hne | reflexivity].
Qed.

(* ===================================================================== *)
(** ** The other endpoint functions *)
(* ===================================================================== *)

(** X22.  [find_tag_by_name] and [get_subscriber_info] fail like the
    endpoint functions they are built like: the lookup of [request] on
    the client raises [AttributeError], for every client, world and
    argument, before anything is sent; no search in the tags and no
    request for the subscriber takes place. *)
Theorem lookups_fail_in_the_other_endpoints :
  forall (version : string) (str_lower : string -> string) (B : Type)
         (TagsListResponse : ResponseModel TagsList)
         (GetSubscriberInfoResponse : ResponseModel B)
         (script : nat -> Env) (wanted subscriber_id : string)
         (fields : option (list string))
         (c : ManyChatClient) (w : World),
    find_tag_by_name version str_lower TagsListResponse wanted script (c, w)
    = (Raise (AttributeError "request"), (c, w))
    /\ get_subscriber_info GetSubscriberInfoResponse subscriber_id fields (c, w)
       = (Raise (AttributeError "request"), (c, w)).
Proof.
  intros. split; reflexivity.
Qed.

(** X23.  The search of [find_tag_by_name] takes the first tag whose name
    in lower case, as [str.lower] gives it, equals the wanted name in
    lower case, and gives its dict; it gives [None] exactly when no tag
    of the list has such a name (an empty list included).  This holds
    whatever [str.lower] does to a name. *)
Theorem first_tag_named_finds_the_first_match :
  forall (str_lower : string -> string) (wanted : string) (data : list TagInfo),
    (exists before t after,
       data = (before ++ t :: after)%list
       /\ str_lower (tag_name t) = str_lower wanted
       /\ Forall (fun u => str_lower (tag_name u) <> str_lower wanted) before
       /\ first_tag_named str_lower wanted data = Some (TagInfo_dict t))
    \/ (Forall (fun u => str_lower (tag_name u) <> str_lower wanted) data
        /\ first_tag_named str_lower wanted data = None).
Proof.
  intros str_lower wanted data. induction data as [|t rest IH].
  - right. split; [constructor | reflexivity].
  - cbn [first_tag_named].
    destruct (String.eqb_spec (str_lower (tag_name t)) (str_lower wanted))
      as [Heq | Hne].
    + left. exists [], t, rest. repeat split; [exact Heq | constructor].
    + destruct IH as [(before & u & after & Hdata & Hu & Hbefore & Hfound)
                     | (Hnone & Hfound)].
      * left. exists (t :: before), u, after.
        split; [rewrite Hdata; reflexivity|]. split; [exact Hu|].
        split; [constructor; assumption | exact Hfound].
      * right. split; [constructor; assumption | exact Hfound].
Qed.

Lemma field_updates_outcome (fields : list BotFieldInput) :
  (exists updates,
     field_updates fields = Ok updates
     /\ length updates = length fields
     /\ Forall (fun f => exists u, BotFieldUpdate_new f = Ok u) fields)
  \/ (field_updates fields = Raise ValidationError
      /\ Exists (fun f => BotFieldUpdate_new f = Raise ValidationError) fields).
Proof.
  induction fields as [|f rest IH]; cbn [field_updates].
  - left. exists []. repeat split. constructor.
  - assert (Hone : (exists u, BotFieldUpdate_new f = Ok u)
                   \/ BotFieldUpdate_new f = Raise ValidationError).
    { unfold BotFieldUpdate_new.
      destruct (falsy_name (in_field_name f) && falsy_id (in_field_id f));
        [right; reflexivity|].
      destruct (in_field_value f) as [v|]; [|right; reflexivity].
      destruct (is_scalar v); [left; eexists; reflexivity | right; reflexivity]. }
    destruct Hone as [(u & Hu) | Hbad].
    + rewrite Hu. cbn [obind].
      destruct IH as [(us & Hus & Hlen & Hall) | (Hfail & Hex)].
      * left. exists (u :: us). rewrite Hus. cbn [obind length].
        split; [reflexivity|]. split; [congruence|].
        constructor; [exists u; exact Hu | exact Hall].
      * right. rewrite Hfail. split; [reflexivity|].
        apply Exists_cons_tl. exact Hex.
    + right. rewrite Hbad. split; [reflexivity|].
      apply Exists_cons_hd. exact Hbad.
Qed.

(** X24.  [set_bot_fields] never sends anything and never returns: it
    raises [ValidationError] when one of the dicts does not make a
    [BotFieldUpdate] or when there are more than 20 of them, and in
    every other case the lookup of [request] raises [AttributeError];
    the client and the world stay as they were. *)
Theorem set_bot_fields_outcome :
  forall (version : string) (A : Type) (SetBotFieldsResponse : ResponseModel A)
         (fields : list BotFieldInput) (script : nat -> Env)
         (c : ManyChatClient) (w : World),
    (Forall (fun f => exists u, BotFieldUpdate_new f = Ok u) fields
     /\ (length fields <= 20)%nat
     /\ set_bot_fields version SetBotFieldsResponse fields script (c, w)
        = (Raise (AttributeError "request"), (c, w)))
    \/ ((Exists (fun f => BotFieldUpdate_new f = Raise ValidationError) fields
         \/ (20 < length fields)%nat)
        /\ set_bot_fields version SetBotFieldsResponse fields script (c, w)
           = (Raise ValidationError, (c, w))).
Proof.
  intros version A SetBotFieldsResponse fields script c w.
  unfold set_bot_fields.
  destruct (field_updates_outcome fields)
    as [(updates & Hus & Hlen & Hall) | (Hfail & Hex)].
  - unfold bind, lift. rewrite Hus.
    unfold SetBotFieldsRequest_new.
    destruct (Nat.ltb_spec 20 (length updates)) as [Hmany | Hfew].
    + right. split; [right; lia | reflexivity].
    + left. split; [exact Hall|]. split; [lia | reflexivity].
  - right. unfold bind, lift. rewrite Hfail.
    split; [left; exact Hex | reflexivity].
Qed.

(** X25.  [set_bot_field] raises [ValueError] when neither an id nor a
    name is given.  Its own test is for [None] only, the validator of
    [BotFieldUpdate] tests truth: an id of 0 without a name, or with the
    empty name, passes the first and is refused by the second with
    [ValidationError].  With a value of an accepted type and an id or a
    name that is truthy, the lookup of [request] raises
    [AttributeError].  Nothing is sent in any case. *)
Theorem set_bot_field_outcome :
  forall (version : string) (A : Type) (SetBotFieldsResponse : ResponseModel A)
         (field_id : option Z) (field_name : option string) (field_value : pyval)
         (script : nat -> Env) (c : ManyChatClient) (w : World),
    is_scalar field_value = true ->
    set_bot_field version SetBotFieldsResponse field_id field_name field_value
      script (c, w)
    = (Raise (match field_id, field_name with
              | None, None => ValueError
              | _, _ =>
                  if falsy_name field_name && falsy_id field_id
                  then ValidationError
                  else AttributeError "request"
              end), (c, w)).
Proof.
  intros version A SetBotFieldsResponse field_id field_name field_value script c w
         Hv.
  unfold set_bot_field, set_bot_fields, bind, lift.
  cbn [field_updates obind]. unfold BotFieldUpdate_new.
  cbn [in_field_id in_field_name in_field_value]. rewrite Hv.
  destruct field_id as [z|], field_name as [s|]; cbn [falsy_name falsy_id andb];
    try reflexivity.
  - destruct (String.eqb s ""), (z =? 0); reflexivity.
  - destruct (z =? 0); reflexivity.
  - destruct (String.eqb s ""); reflexivity.
Qed.

(** An id of 0 and no name. *)
Lemma set_bot_field_outcome_witness :
  set_bot_field "1.0" BaseResponse (Some 0) None (PInt 5)
    (fun _ => answering 200 [] (JObj []))
    (client_with_plain_session (default_config_with_limit 100), at_noon)
  = (Raise ValidationError,
     (client_with_plain_session (default_config_with_limit 100), at_noon)).
Proof.
  exact (set_bot_field_outcome "1.0" BaseResponseValue BaseResponse (Some 0) None
           (PInt 5) (fun _ => answering 200 [] (JObj []))
           (client_with_plain_session (default_config_with_limit 100)) at_noon
           eq_refl).
Defined.
